(** * MF PipoNodes: a shallow embedding of the node logic and its properties

    The nodes of the package are small Python functions.  Each one is
    embedded below as a Rocq function over

    - [Z] for Python's unbounded [int],
    - [string] (a sequence of bytes) for [str]; the primitives that look at
      characters ([strip], [int], [lower], ...) are modelled on the ASCII
      range, a multi-byte UTF-8 character being an opaque run of bytes that is
      neither white space nor a digit; where that matters a statement takes
      its text to be ASCII ([Chars.isascii]),
    - [gmap string _] for the dictionaries keyed by project name or file
      path,
    - decoded JSON values, the items of an object in their order, for the
      bodies of requests and for the state file of the graph plotter,
    - [outcome] for code that can raise; what the operating system does to
      a write (it goes through, the file cannot be opened, the write stops
      half-way) is an argument of the functions that write.

    Part I holds the embedding, Part II the lemmas and theorems, Part III
    further properties of the nodes. *)

From Stdlib Require Import ZArith Lia Ascii.
From stdpp Require Import base gmap strings list sorting.

Open Scope string_scope.
Open Scope Z_scope.

(** ** Part I: the embedding *)

(** A call either returns a value or raises an exception; the exception is
    represented by its text, [str(e)]. *)
Inductive outcome (A : Type) : Type :=
| Returns (a : A)
| Raises (e : string).
Arguments Returns {A} a.
Arguments Raises {A} e.

Global Instance outcome_ret : MRet outcome := λ A a, Returns a.

Global Instance outcome_bind : MBind outcome := λ A B k m,
  match m with
  | Returns a => k a
  | Raises e => Raises e
  end.

(** *** Python built-ins used by the nodes *)
Module Py.

Definition ord (c : ascii) : Z := Z.of_N (Ascii.N_of_ascii c).

Definition chr (n : Z) : ascii := Ascii.ascii_of_N (Z.to_N n).

(** [str.isspace] on the ASCII range: TAB, LF, VT, FF, CR, the four
    separators FS, GS, RS, US, and the space. *)
Definition isspace (c : ascii) : bool :=
  let n := ord c in
  ((9 <=? n) && (n <=? 13)) || ((28 <=? n) && (n <=? 32)).

Definition isdigit (c : ascii) : bool :=
  let n := ord c in (48 <=? n) && (n <=? 57).

Definition digit_value (c : ascii) : Z := ord c - 48.

Definition digit_char (d : Z) : ascii := chr (48 + d).

Definition is_empty (s : string) : bool :=
  match s with
  | EmptyString => true
  | String _ _ => false
  end.

(** [s.lstrip()], [s.rstrip()] and [s.strip()] without argument. *)
Fixpoint lstrip (s : string) : string :=
  match s with
  | EmptyString => EmptyString
  | String c s' => if isspace c then lstrip s' else s
  end.

Fixpoint rstrip (s : string) : string :=
  match s with
  | EmptyString => EmptyString
  | String c s' =>
      let r := rstrip s' in
      if isspace c && is_empty r then EmptyString else String c r
  end.

Definition strip (s : string) : string := lstrip (rstrip s).

(** [s.startswith(p)] and [s.endswith(p)]. *)
Fixpoint startswith (s p : string) {struct p} : bool :=
  match p with
  | EmptyString => true
  | String a p' =>
      match s with
      | EmptyString => false
      | String b s' => Ascii.eqb a b && startswith s' p'
      end
  end.

Fixpoint endswith (s p : string) : bool :=
  String.eqb s p ||
  match s with
  | EmptyString => false
  | String _ s' => endswith s' p
  end.

(** [s[:-1]] and [s[1:-1]]. *)
Fixpoint drop_last (s : string) : string :=
  match s with
  | EmptyString => EmptyString
  | String c EmptyString => EmptyString
  | String c s' => String c (drop_last s')
  end.

Definition slice_1_m1 (s : string) : string :=
  match s with
  | EmptyString => EmptyString
  | String _ s' => drop_last s'
  end.

(** [s.replace(old, new)] for one-character [old] and [new]. *)
Fixpoint replace_char (old new : ascii) (s : string) : string :=
  match s with
  | EmptyString => EmptyString
  | String c s' =>
      String (if Ascii.eqb c old then new else c) (replace_char old new s')
  end.

(** [s.replace("\r\n", "\n")]: leftmost, non-overlapping occurrences. *)
Fixpoint replace_crlf (s : string) : string :=
  match s with
  | EmptyString => EmptyString
  | String c s' =>
      match s' with
      | String c' s'' =>
          if Ascii.eqb c "013" && Ascii.eqb c' "010"
          then String "010" (replace_crlf s'')
          else String c (replace_crlf s')
      | EmptyString => String c EmptyString
      end
  end.

(** [s.split(sep)] for a one-character separator: the first piece and the
    pieces after it, so that the result is never the empty list. *)
Fixpoint split_pieces (sep : ascii) (s : string) : string * list string :=
  match s with
  | EmptyString => (EmptyString, [])
  | String c s' =>
      let '(h, t) := split_pieces sep s' in
      if Ascii.eqb c sep then (EmptyString, h :: t) else (String c h, t)
  end.

Definition split (sep : ascii) (s : string) : list string :=
  let '(h, t) := split_pieces sep s in h :: t.

(** [sep.join(l)]. *)
Fixpoint join (sep : string) (l : list string) : string :=
  match l with
  | [] => EmptyString
  | [x] => x
  | x :: t => x +:+ sep +:+ join sep t
  end.

(** [s.lower()] on the ASCII range, and [s.lstrip(".")]. *)
Definition lower_char (c : ascii) : ascii :=
  let n := ord c in if (65 <=? n) && (n <=? 90) then chr (n + 32) else c.

Fixpoint lower (s : string) : string :=
  match s with
  | EmptyString => EmptyString
  | String c s' => String (lower_char c) (lower s')
  end.

Fixpoint lstrip_char (d : ascii) (s : string) : string :=
  match s with
  | EmptyString => EmptyString
  | String c s' => if Ascii.eqb c d then lstrip_char d s' else s
  end.

(** [s.rfind(c)] for a one-character [c]: the highest index, or -1. *)
Fixpoint rfind_from (c : ascii) (i : Z) (s : string) : Z :=
  match s with
  | EmptyString => -1
  | String a s' =>
      let r := rfind_from c (i + 1) s' in
      if 0 <=? r then r else if Ascii.eqb a c then i else -1
  end.

Definition rfind (s : string) (c : ascii) : Z := rfind_from c 0 s.

(** [s[:n]], [s[n:]] and [s[a:b]] for indices that are not negative. *)
Fixpoint take (n : nat) (s : string) : string :=
  match n, s with
  | S n', String c s' => String c (take n' s')
  | _, _ => EmptyString
  end.

Fixpoint drop (n : nat) (s : string) : string :=
  match n, s with
  | S n', String _ s' => drop n' s'
  | _, _ => s
  end.

Definition slice (a b : Z) (s : string) : string :=
  take (Z.to_nat (b - a)) (drop (Z.to_nat a) s).

(** [os.path.splitext] of [posixpath]: the extension starts at the last
    dot of the last path component, leading dots of the component not
    counting. *)
Fixpoint has_other_than (d : ascii) (s : string) : bool :=
  match s with
  | EmptyString => false
  | String c s' => if Ascii.eqb c d then has_other_than d s' else true
  end.

Definition splitext (p : string) : string * string :=
  let sepIndex := rfind p "/" in
  let dotIndex := rfind p "." in
  if (dotIndex >? sepIndex) && has_other_than "." (slice (sepIndex + 1) dotIndex p)
  then (take (Z.to_nat dotIndex) p, drop (Z.to_nat dotIndex) p)
  else (p, EmptyString).

(** [s.rstrip(d)] for one character, and [os.path.dirname] of [posixpath]:
    what comes before the last slash, without the slashes that end it unless
    it is slashes only. *)
Fixpoint rstrip_char (d : ascii) (s : string) : string :=
  match s with
  | EmptyString => EmptyString
  | String c s' =>
      let r := rstrip_char d s' in
      if Ascii.eqb c d && is_empty r then EmptyString else String c r
  end.

Definition dirname (p : string) : string :=
  let i := rfind p "/" + 1 in
  let head := take (Z.to_nat i) p in
  if negb (is_empty head) && has_other_than "/" head
  then rstrip_char "/" head else head.

(** [str(n)] for an [int]: the decimal digits, most significant first,
    after a minus sign for a negative number.  [digits_fuel] writes them from
    the last one, with one unit of fuel per digit; a number has fewer
    decimal digits than binary ones. *)
Fixpoint digits_fuel (fuel : nat) (n : Z) (acc : string) : string :=
  match fuel with
  | O => acc
  | S fuel' =>
      let acc' := String (digit_char (n mod 10)) acc in
      if n <? 10 then acc' else digits_fuel fuel' (n / 10) acc'
  end.

Definition str_nonneg (n : Z) : string :=
  digits_fuel (Z.to_nat (Z.log2 n) + 2) n EmptyString.

Definition str (n : Z) : string :=
  if n <? 0 then String "-" (str_nonneg (- n)) else str_nonneg n.

(** [format(n, "0{w}d")]: the sign first, then zeros up to the width, then
    the digits. *)
Fixpoint zeros (k : nat) : string :=
  match k with
  | O => EmptyString
  | S k' => String "0" (zeros k')
  end.

Definition zfill (w : nat) (digits : string) : string :=
  zeros (w - String.length digits) +:+ digits.

Definition format_0d (w : nat) (n : Z) : string :=
  if n <? 0 then String "-" (zfill (w - 1) (str_nonneg (- n)))
  else zfill w (str_nonneg n).

(** [int(s)] in base 10.  [None] stands for [ValueError].  The literal is a
    run of digits in which single underscores may separate digits, after an
    optional sign, with white space around it.  (The interpreter's
    configurable cap on the number of digits is not part of the model.) *)
Fixpoint int_digits (acc : Z) (s : string) : option Z :=
  match s with
  | EmptyString => Some acc
  | String c s' =>
      if isdigit c then int_digits (10 * acc + digit_value c) s'
      else if Ascii.eqb c "_" then
        match s' with
        | String c' _ => if isdigit c' then int_digits acc s' else None
        | EmptyString => None
        end
      else None
  end.

Definition int_unsigned (s : string) : option Z :=
  match s with
  | String c s' => if isdigit c then int_digits (digit_value c) s' else None
  | EmptyString => None
  end.

Definition int_signed (s : string) : option Z :=
  match s with
  | String "-" s' => Z.opp <$> int_unsigned s'
  | String "+" s' => int_unsigned s'
  | s' => int_unsigned s'
  end.

Definition int (s : string) : option Z := int_signed (strip s).

(** [p in s] for two strings: [p] occurs in [s]. *)
Fixpoint contains (s p : string) : bool :=
  startswith s p ||
  match s with
  | EmptyString => false
  | String _ s' => contains s' p
  end.

(** [len(s)]: the characters of [s], that is the bytes of its UTF-8 form
    that do not continue a character. *)
Fixpoint len (s : string) : Z :=
  match s with
  | EmptyString => 0
  | String c s' =>
      (if (128 <=? ord c) && (ord c <? 192) then 0 else 1) + len s'
  end.

(** What reading a file opened in text mode gives for its stored text:
    every line ending, [\r\n] or [\r], is read as [\n]. *)
Definition universal_newlines (s : string) : string :=
  replace_char "013" "010" (replace_crlf s).

End Py.

(** *** Predicates on strings used in the statements and proofs *)
Module Chars.

(** Every character of [s] satisfies [P]. *)
Fixpoint all_chars (P : ascii → bool) (s : string) : bool :=
  match s with
  | EmptyString => true
  | String c s' => P c && all_chars P s'
  end.

(** [s] is not empty and its last character is not white space. *)
Fixpoint ends_solid (s : string) : bool :=
  match s with
  | EmptyString => false
  | String c EmptyString => negb (Py.isspace c)
  | String _ s' => ends_solid s'
  end.

(** The characters of a rendered integer. *)
Definition is_int_char (c : ascii) : bool := Py.isdigit c || Ascii.eqb c "-".

(** [s.isascii()]: every character is below 128. *)
Definition isascii (s : string) : bool := all_chars (λ c, Py.ord c <? 128) s.


(** [s] holds no carriage return. *)
Definition no_cr (s : string) : bool :=
  all_chars (λ c, negb (Ascii.eqb c "013")) s.

End Chars.

(** *** nodes/math.py *)
Module MathNodes.

(** The [result] tuple of [MF_ModuloAdvanced.apply_modulo_advanced]. *)
Record modulo_outputs : Type := {
  modulo_result_int : Z;
  modulo_result_string : string;
  cycle_count_int : Z;
  cycle_count_string : string
}.

(** Python's [%] and [//] on [int] are floored, as [Z.modulo] and [Z.div]
    are; both raise [ZeroDivisionError] for a zero divisor. *)
Definition py_mod (a b : Z) : outcome Z :=
  if b =? 0 then Raises "integer modulo by zero" else Returns (a mod b).

Definition py_floordiv (a b : Z) : outcome Z :=
  if b =? 0 then Raises "integer division or modulo by zero"
  else Returns (a / b).

Definition apply_modulo_advanced (input_number modulo_value : Z)
  : outcome modulo_outputs :=
  modulo_result ← py_mod input_number modulo_value ;
  cycle_count ← py_floordiv input_number modulo_value ;
  Returns {| modulo_result_int := modulo_result;
             modulo_result_string := Py.str modulo_result;
             cycle_count_int := cycle_count;
             cycle_count_string := Py.str cycle_count |}.

End MathNodes.

(** *** nodes/text.py *)
Module TextNodes.

(** [lines[i]] for a list and an [int] that is not negative. *)
Definition list_item {A : Type} (l : list A) (i : Z) : outcome A :=
  match l !! Z.to_nat i with
  | Some x => Returns x
  | None => Raises "list index out of range"
  end.

Definition len {A : Type} (l : list A) : Z := Z.of_nat (length l).

Definition _normalize_text_lines (text : string) : list string :=
  Py.split "010" (Py.replace_char "013" "010" (Py.replace_crlf text)).

Definition out_of_range_message (line_index n : Z) : string :=
  "⚠️ Line index " +:+ Py.str line_index +:+
  " out of range (0-" +:+ Py.str (n - 1) +:+ ")".

(** [MF_LineSelect.select_line]; the result is the one-element tuple's
    content. *)
Definition select_line (text : string) (line_index : Z) : outcome string :=
  let lines := _normalize_text_lines text in
  if (line_index <? 0) || (line_index >=? len lines) then
    Returns (out_of_range_message line_index (len lines))
  else list_item lines line_index.

(** [MF_LineCounter.count_lines]. *)
Definition count_lines (text : string) : Z * string :=
  if Py.is_empty (Py.strip text) then (0, "0")
  else
    let lines := _normalize_text_lines text in
    let line_count := len lines in
    (line_count, Py.str line_count).

End TextNodes.

(** *** nodes/sequencing.py *)
Module Sequencing.

(** [sorted] on a list of [int]: a stable merge sort. *)
Definition sorted (l : list Z) : list Z := merge_sort Z.le l.

(** The text that is split: [beats] without the white space around it,
    without its brackets when it has both, and with a comma for every line
    feed. *)
Definition beats_clean (beats : string) : string :=
  let beats_clean := Py.strip beats in
  let beats_clean :=
    if Py.startswith beats_clean "[" && Py.endswith beats_clean "]"
    then Py.slice_1_m1 beats_clean else beats_clean in
  Py.replace_char "010" "," beats_clean.

(** The list comprehension of the [try] block, before sorting: the integers
    in the order in which they are written, [None] when an [int(...)] raises
    [ValueError]. *)
Definition beat_items (beats : string) : option (list Z) :=
  mapM (λ b, Py.int (Py.strip b))
       (List.filter (λ b, negb (Py.is_empty (Py.strip b)))
                    (Py.split "," (beats_clean beats))).

(** [beat_list] as the loop receives it. *)
Definition parse_beats (beats : string) : list Z :=
  if negb (Py.is_empty (Py.strip beats)) then
    match beat_items beats with
    | Some l => sorted l
    | None => []
    end
  else [].

(** The [for] loop with its [break], on the pair
    [(sequence_num, shot_start)]. *)
Fixpoint scan_beats (step : Z) (beat_list : list Z) (acc : Z * Z) : Z * Z :=
  match beat_list with
  | [] => acc
  | beat :: rest =>
      if step >=? beat then scan_beats step rest (fst acc + 1, beat)
      else acc
  end.

Record shot_outputs : Type := {
  sequence_int : Z;
  sequence_str : string;
  shot_int : Z;
  shot_str : string;
  shot_name : string
}.

(** [MF_ShotHelper.calculate_sequence_shot]. *)
Definition calculate_sequence_shot (step : Z) (beats : string) : shot_outputs :=
  let beat_list := parse_beats beats in
  let '(sequence_num, shot_start) := scan_beats step beat_list (1, 0) in
  let shot_num := step - shot_start + 1 in
  {| sequence_int := sequence_num;
     sequence_str := Py.str sequence_num;
     shot_int := shot_num;
     shot_str := Py.str shot_num;
     shot_name := "seq" +:+ Py.format_0d 2 sequence_num +:+
                  "_shot" +:+ Py.format_0d 2 shot_num |}.

(** The three notations of the node's description, for a list of
    integers. *)
Definition comma_separated (l : list Z) : string := Py.join "," (Py.str <$> l).

Definition one_per_line (l : list Z) : string :=
  Py.join (String "010" EmptyString) (Py.str <$> l).

Definition array_format (l : list Z) : string := "[" +:+ comma_separated l +:+ "]".

(** Vocabulary of the specification: the beats that are not after [step],
    and the largest element of a list. *)
Definition beats_le (step : Z) (l : list Z) : list Z :=
  filter (λ b, b ≤ step) l.

Definition largest (l : list Z) : option Z :=
  match l with
  | [] => None
  | b :: t => Some (foldr Z.max b t)
  end.

(** Two digits, zero-padded: a leading zero for a single digit. *)
Definition two_digits (n : Z) : string :=
  if (0 <=? n) && (n <? 10) then "0" +:+ Py.str n else Py.str n.

(** The module-level dictionary [_steps]. *)
Record driver_outputs : Type := {
  step_int : Z;
  step_str : string;
  projectName_out : string;
  saveFolder : string;
  storySeed_out : Z
}.

Record driver_result : Type := {
  status_display : string;
  result : driver_outputs
}.

(** [MF_StoryDriver.execute]: the dictionary after the call and the value
    returned. *)
Definition execute (_steps : gmap string Z) (projectName : string)
    (storySeed : Z) (randomize_seed_on_reset : bool)
  : gmap string Z * driver_result :=
  let current_step := default 0 (_steps !! projectName) in
  let _steps := <[projectName := current_step + 1]> _steps in
  let project_name_output := Py.replace_char " " "_" projectName in
  let save_folder := project_name_output +:+ "_" +:+ Py.str storySeed in
  let status_text :=
    "Step: " +:+ Py.str current_step +:+ " | Seed: " +:+ Py.str storySeed in
  (_steps,
   {| status_display := status_text;
      result := {| step_int := current_step;
                   step_str := Py.str current_step;
                   projectName_out := project_name_output;
                   saveFolder := save_folder;
                   storySeed_out := storySeed |} |}).

(** [MF_StoryDriver.reset_project]. *)
Definition reset_project (_steps : gmap string Z) (project_name : string)
  : gmap string Z :=
  <[project_name := 0]> _steps.

(** A call on the counter, and a run of calls. *)
Inductive call : Type :=
| Execute (projectName : string) (storySeed : Z) (randomize_seed_on_reset : bool)
| Reset (project_name : string).

Definition run_call (_steps : gmap string Z) (c : call) : gmap string Z :=
  match c with
  | Execute p seed r => fst (execute _steps p seed r)
  | Reset p => reset_project _steps p
  end.

Definition run_calls (_steps : gmap string Z) (cs : list call) : gmap string Z :=
  foldl run_call _steps cs.

Definition is_execute_of (p : string) (c : call) : bool :=
  match c with
  | Execute q _ _ => String.eqb p q
  | Reset _ => false
  end.

Definition is_reset_of (p : string) (c : call) : bool :=
  match c with
  | Execute _ _ _ => false
  | Reset q => String.eqb p q
  end.

(** A call that names the project [p]. *)
Definition mentions (p : string) (c : call) : bool :=
  is_execute_of p c || is_reset_of p c.

End Sequencing.

(** *** JSON values as the [json] module decodes them *)
Module Json.

(** Decoded JSON: [None], [bool], [int], [float], [str], [list] and [dict]
    (its items in order).  A [float] is given by its [repr], the shortest
    decimal text that reads back as the same number ([1.5], [1e+16], [0.0],
    [-0.0]), or [nan], [inf], [-inf]. *)
#[warnings="-register-all"]
Inductive json : Type :=
| JNull
| JBool (b : bool)
| JInt (n : Z)
| JFloat (repr : string)
| JStr (s : string)
| JArr (items : list json)
| JObj (items : list (string * json)).

(** Python truthiness, as tested by [not v]: a float is false when it is
    zero, of either sign. *)
Definition truthy (v : json) : bool :=
  match v with
  | JNull => false
  | JBool b => b
  | JInt n => negb (n =? 0)
  | JFloat repr => negb (String.eqb repr "0.0" || String.eqb repr "-0.0")
  | JStr s => negb (Py.is_empty s)
  | JArr items => match items with [] => false | _ => true end
  | JObj items => match items with [] => false | _ => true end
  end.

(** [d.get(key)] on the items of a [dict]: [None] when the key is absent. *)
Fixpoint get (key : string) (items : list (string * json)) : json :=
  match items with
  | [] => JNull
  | (k, v) :: rest => if String.eqb k key then v else get key rest
  end.

(** The text [json.dump] writes for a [float] used as a key. *)
Definition float_key (repr : string) : string :=
  if String.eqb repr "nan" then "NaN"
  else if String.eqb repr "inf" then "Infinity"
  else if String.eqb repr "-inf" then "-Infinity"
  else repr.

(** The key under which a value used as a dictionary key is found after
    the dictionary went through [json.dump] and [json.load]: a string is
    itself, a number or a constant is its JSON text.  Lists and
    dictionaries are unhashable: using one as a key raises [TypeError]. *)
Definition dict_key (v : json) : outcome string :=
  match v with
  | JStr s => Returns s
  | JInt n => Returns (Py.str n)
  | JFloat repr => Returns (float_key repr)
  | JBool true => Returns "true"
  | JBool false => Returns "false"
  | JNull => Returns "null"
  | JArr _ => Raises "unhashable type: 'list'"
  | JObj _ => Raises "unhashable type: 'dict'"
  end.

(** The items of a [dict] looked up as [d.get(key, default)] does: the
    value under the key, which may be [None], or nothing. *)
Fixpoint lookup (key : string) (items : list (string * json)) : option json :=
  match items with
  | [] => None
  | (k, v) :: rest => if String.eqb k key then Some v else lookup key rest
  end.

(** [d[key] = v] on the items of a [dict]: a key that is present keeps its
    place, a new key goes to the end. *)
Fixpoint store (key : string) (v : json) (items : list (string * json))
  : list (string * json) :=
  match items with
  | [] => [(key, v)]
  | (k, x) :: rest =>
      if String.eqb k key then (k, v) :: rest else (k, x) :: store key v rest
  end.

(** [type(v).__name__]. *)
Definition type_name (v : json) : string :=
  match v with
  | JNull => "NoneType"
  | JBool _ => "bool"
  | JInt _ => "int"
  | JFloat _ => "float"
  | JStr _ => "str"
  | JArr _ => "list"
  | JObj _ => "dict"
  end.

(** [key in v] for a string [key]: a key of a [dict], an element of a
    [list], a substring of a [str]; other values are not containers. *)
Definition contains (v : json) (key : string) : outcome bool :=
  match v with
  | JObj items =>
      Returns (match lookup key items with Some _ => true | None => false end)
  | JArr items =>
      Returns (existsb (λ x, match x with
                             | JStr s => String.eqb s key
                             | _ => false
                             end) items)
  | JStr s => Returns (Py.contains s key)
  | _ => Raises ("argument of type '" +:+ type_name v +:+ "' is not iterable")
  end.

(** [v[key]] for a string [key]. *)
Definition getitem (v : json) (key : string) : outcome json :=
  match v with
  | JObj items =>
      match lookup key items with
      | Some x => Returns x
      | None => Raises ("'" +:+ key +:+ "'")
      end
  | JArr _ => Raises "list indices must be integers or slices, not str"
  | JStr _ => Raises "string indices must be integers, not 'str'"
  | _ => Raises ("'" +:+ type_name v +:+ "' object is not subscriptable")
  end.

(** The position [l[i]] names in a list of [n] elements; a negative index
    counts from the end. *)
Definition list_index (n i : Z) : option nat :=
  if (0 <=? i) && (i <? n) then Some (Z.to_nat i)
  else if (- n <=? i) && (i <? 0) then Some (Z.to_nat (n + i))
  else None.

(** [v[key] = x] followed, for a [dict], by [json.dump] and [json.load]:
    the key of a [dict] is then [dict_key key].  A [list] takes an integer
    (or boolean) index within its bounds. *)
Definition setitem (v key x : json) : outcome json :=
  match v with
  | JObj items => k ← dict_key key; Returns (JObj (store k x items))
  | JArr l =>
      let at_index i :=
        match list_index (Z.of_nat (length l)) i with
        | Some pos => Returns (JArr (<[pos := x]> l))
        | None => Raises "list assignment index out of range"
        end in
      match key with
      | JInt i => at_index i
      | JBool b => at_index (if b then 1 else 0)
      | _ => Raises ("list indices must be integers or slices, not "
                     +:+ type_name key)
      end
  | _ => Raises ("'" +:+ type_name v
                 +:+ "' object does not support item assignment")
  end.

(** [len(v)]: the elements of a [list], the items of a [dict], the
    characters of a [str]. *)
Definition len (v : json) : outcome Z :=
  match v with
  | JArr l => Returns (Z.of_nat (length l))
  | JObj items => Returns (Z.of_nat (length items))
  | JStr s => Returns (Py.len s)
  | _ => Raises ("object of type '" +:+ type_name v +:+ "' has no len()")
  end.

(** [v.append(x)]: only a [list] has the method. *)
Definition append (v x : json) : outcome json :=
  match v with
  | JArr l => Returns (JArr (l ++ [x]))
  | _ => Raises ("'" +:+ type_name v +:+ "' object has no attribute 'append'")
  end.

End Json.

(** *** nodes/visualization.py *)
Module Visualization.

(** A fresh entry of the state: [{"x_data": [], "y_data": []}]. *)
Definition empty_node : Json.json :=
  Json.JObj [("x_data", Json.JArr []); ("y_data", Json.JArr [])].

(** The entry that holds the points [(x, y)] of [xs] and [ys]. *)
Definition node_data (xs ys : list Z) : Json.json :=
  Json.JObj [("x_data", Json.JArr (Json.JInt <$> xs));
             ("y_data", Json.JArr (Json.JInt <$> ys))].

(** The state file [graph_plotter_state.json]: absent, present but not
    readable as JSON, or holding a JSON value. *)
Inductive state_file : Type :=
| Missing
| Corrupt
| Stored (state : Json.json).

(** [_read_graph_state]: the value of the file, [{}] when there is no file
    or when reading it raises. *)
Definition _read_graph_state (file : state_file) : Json.json :=
  match file with
  | Stored state => state
  | Missing | Corrupt => Json.JObj []
  end.

(** What happens to a write of the state file: it goes through, the file
    cannot be opened, or the dump stops half-way. *)
Inductive write_result : Type :=
| Written
| OpenFailed
| WriteFailed.

(** [_write_graph_state]: the file afterwards.  [open(..., "w")] empties
    the file before [json.dump] writes, so a dump that stops half-way leaves
    a file that is no JSON; a file that cannot be opened stays as it was.
    The [except] branch only prints: the caller is not told. *)
Definition _write_graph_state (w : write_result) (state : Json.json)
    (file : state_file) : state_file :=
  match w with
  | Written => Stored state
  | OpenFailed => file
  | WriteFailed => Corrupt
  end.

(** [str(unique_id) if unique_id else "default"], for the identifier the
    host passes (a string, or nothing). *)
Definition node_id_of (unique_id : option string) : string :=
  match unique_id with
  | Some s => if Py.is_empty s then "default" else s
  | None => "default"
  end.

Definition len {A : Type} (l : list A) : Z := Z.of_nat (length l).

(** The [graph_data] sent to the front end. *)
Record graph_data : Type := {
  x_values : Json.json;
  y_values : Json.json;
  node_id : string;
  point_count : Z
}.

(** [MF_GraphPlotter.plot_graph]: the file afterwards and the UI payload;
    [w] is what happens to the write.  [node_data] is the very object stored
    in [state] and the two lists are the very objects stored in [node_data]:
    the two [append] calls change the entry of [state] that is then written,
    which the model spells out by storing each changed object back.  When
    the call raises nothing has been written. *)
Definition plot_graph (Y : Z) (unique_id : option string) (w : write_result)
    (file : state_file) : outcome (state_file * graph_data) :=
  let state := _read_graph_state file in
  let node_id := node_id_of unique_id in
  present ← Json.contains state node_id;
  state ← (if negb present
           then Json.setitem state (Json.JStr node_id) empty_node
           else Returns state);
  node_data ← Json.getitem state node_id;
  x_data ← Json.getitem node_data "x_data";
  n ← Json.len x_data;
  let X := n + 1 in
  x_data ← Json.append x_data (Json.JInt X);
  node_data ← Json.setitem node_data (Json.JStr "x_data") x_data;
  y_data ← Json.getitem node_data "y_data";
  y_data ← Json.append y_data (Json.JInt Y);
  node_data ← Json.setitem node_data (Json.JStr "y_data") y_data;
  state ← Json.setitem state (Json.JStr node_id) node_data;
  let file := _write_graph_state w state file in
  x_values ← Json.getitem node_data "x_data";
  y_values ← Json.getitem node_data "y_data";
  point_count ← Json.len x_values;
  Returns (file, {| x_values := x_values;
                    y_values := y_values;
                    node_id := node_id;
                    point_count := point_count |}).

(** [MF_GraphPlotter.reset_node_data].  The argument is whatever the
    caller passes; the route passes a decoded JSON value. *)
Definition reset_node_data (node_id : Json.json) (w : write_result)
    (file : state_file) : outcome state_file :=
  let state := _read_graph_state file in
  state ← Json.setitem state node_id empty_node;
  Returns (_write_graph_state w state file).

(** The dictionary the file holds is [items]; a file that is absent or
    unreadable holds the empty one. *)
Definition holds (file : state_file) (items : list (string * Json.json))
  : Prop :=
  file = Stored (Json.JObj items) ∨
  ((file = Missing ∨ file = Corrupt) ∧ items = []).

(** In the dictionary [items] the entry of node [N], a fresh one when there
    is none, is the dictionary [entry], whose [x_data] is the list [xs] and
    whose [y_data] is the list [ys]. *)
Definition plottable (items : list (string * Json.json)) (N : string)
    (entry : list (string * Json.json)) (xs ys : list Json.json) : Prop :=
  default empty_node (Json.lookup N items) = Json.JObj entry ∧
  Json.lookup "x_data" entry = Some (Json.JArr xs) ∧
  Json.lookup "y_data" entry = Some (Json.JArr ys).

(** The states of the file that calls of the two functions can produce,
    starting without a file, whatever happens to each write. *)
Inductive reachable : state_file → Prop :=
| reachable_start : reachable Missing
| reachable_plot file Y unique_id w file' ui :
    reachable file →
    plot_graph Y unique_id w file = Returns (file', ui) →
    reachable file'
| reachable_reset file node_id w file' :
    reachable file →
    reset_node_data node_id w file = Returns file' →
    reachable file'.

(** The invariant of an entry: it holds two lists of integers, [x_data] is
    [1, 2, ..., n] and [y_data] has the same length. *)
Definition parallel (d : Json.json) : Prop :=
  ∃ xs ys : list Z,
    d = node_data xs ys ∧
    length xs = length ys ∧
    xs = seqZ 1 (len xs).

(** A run of [plot_graph] calls for one node, one per value, in order,
    each with what happens to its write. *)
Fixpoint plot_all (calls : list (Z * write_result)) (unique_id : option string)
    (file : state_file) : outcome state_file :=
  match calls with
  | [] => Returns file
  | (Y, w) :: rest =>
      '(file, _) ← plot_graph Y unique_id w file;
      plot_all rest unique_id file
  end.

End Visualization.

(** *** server/routes.py *)
Module Routes.

(** The fields of a [web.json_response] that the routes set. *)
Record response : Type := {
  status : Z;
  success : bool;
  node_id : option Json.json;
  message : string
}.

(** [reset_graph_plotter].  [body] is the outcome of [request.json()], [w]
    what happens to the write of the state file.  The result is the state
    file afterwards and the response. *)
Definition reset_graph_plotter (body : outcome Json.json)
    (w : Visualization.write_result) (file : Visualization.state_file)
  : Visualization.state_file * response :=
  let error500 e :=
    (file, {| status := 500; success := false; node_id := None; message := e |}) in
  match body with
  | Raises e => error500 e
  | Returns (Json.JObj items) =>
      let node_id := Json.get "node_id" items in
      if negb (Json.truthy node_id) then
        (file, {| status := 400; success := false; node_id := None;
                  message := "node_id is required" |})
      else
        match Visualization.reset_node_data node_id w file with
        | Returns file' =>
            (file', {| status := 200; success := true; node_id := Some node_id;
                       message := "Graph data reset" |})
        | Raises e => error500 e
        end
  | Returns _ => error500 "object has no attribute 'get'"
  end.

End Routes.

Module StoryRoute.

(** The fields of the response of [reset_story_driver]. *)
Record response : Type := {
  status : Z;
  success : bool;
  project_name : option Json.json;
  step : option Z;
  error : string
}.

(** [reset_story_driver].  [body] is the outcome of [request.json()];
    [_steps] stands for the entries of the module dictionary whose keys are
    strings, the only ones [MF_StoryDriver.execute] reads.  A name that is
    [None], a number or a boolean gets an entry of its own, which leaves the
    string entries alone; a list or a dictionary cannot be a key. *)
Definition reset_story_driver (body : outcome Json.json) (_steps : gmap string Z)
  : gmap string Z * response :=
  let error500 e :=
    (_steps, {| status := 500; success := false; project_name := None;
                step := None; error := e |}) in
  match body with
  | Raises e => error500 e
  | Returns (Json.JObj items) =>
      let project_name :=
        default (Json.JStr "MyProject") (Json.lookup "project_name" items) in
      let ok _steps :=
        (_steps, {| status := 200; success := true;
                    project_name := Some project_name;
                    step := Some 0; error := "" |}) in
      match project_name with
      | Json.JStr name => ok (Sequencing.reset_project _steps name)
      | Json.JNull | Json.JBool _ | Json.JInt _ | Json.JFloat _ => ok _steps
      | Json.JArr _ => error500 "unhashable type: 'list'"
      | Json.JObj _ => error500 "unhashable type: 'dict'"
      end
  | Returns _ => error500 "object has no attribute 'get'"
  end.

End StoryRoute.

(** *** nodes/data.py *)
Module DataNodes.

(** What a decoder gives: the value, the decoder's own error
    ([json.JSONDecodeError], [ET.ParseError]), or another exception. *)
Inductive decoded (V : Type) : Type :=
| Decoded (v : V)
| DecodeError (e : string)
| OtherError (e : string).
Arguments Decoded {V} v.
Arguments DecodeError {V} e.
Arguments OtherError {V} e.

(** The files: path to text, the line feeds of a text written in text mode
    being stored as they are (the line separator of the platform is
    [\n]). *)
Abbreviation files := (gmap string string).

(** What happens when a file is opened for writing and a text written to
    it: the write goes through; the file cannot be opened (a missing
    directory, a permission) and nothing changes; or the file is opened,
    and with that created or emptied, and the write stops (a full disk, a
    text that cannot be encoded) with only [partial] written. *)
Inductive write_result : Type :=
| Written
| OpenFailed (e : string)
| WriteFailed (e partial : string).

(** The operating system and the libraries the two nodes call.  Creating a
    directory can fail, and so can writing a file; the format libraries are
    functions from text to values and back. *)
Class Host : Type := {
  path_join : string → string → string;
  makedirs : string → files → outcome unit;
  file_write : string → string → files → write_result;
  json_value : Type;
  json_loads : string → decoded json_value;
  json_dumps : json_value → string;
  xml_element : Type;
  xml_fromstring : string → decoded xml_element;
  xml_data_element : string → xml_element;
  xml_document : xml_element → string;
  xml_tostring : xml_element → string;
  csv_rows : string → string;
  csv_read : string → outcome string;
  HAS_YAML : bool;
  yaml_dump : json_value → string;
  yaml_read : string → outcome string
}.

Section nodes.
Context `{host : Host}.

(** [lines[1:]], [lines[-1]] and [lines[:-1]]. *)
Definition last_line (lines : list string) : option string := last lines.

Definition all_but_last (lines : list string) : list string := removelast lines.

(** [MF_SaveData._clean_markdown_fences] on a [str]. *)
Definition _clean_markdown_fences (data : string) : string :=
  let data := Py.strip data in
  if Py.startswith data "```" then
    let lines := Py.split "010" data in
    let lines :=
      match lines with
      | first :: rest => if Py.startswith first "```" then rest else lines
      | [] => lines
      end in
    let lines :=
      match last_line lines with
      | Some l => if String.eqb (Py.strip l) "```" then all_but_last lines else lines
      | None => lines
      end in
    Py.join (String "010" EmptyString) lines
  else data.

(** [with open(filepath, "w") as f: f.write(text)]: the files afterwards
    and how the statement ends. *)
Definition write_file (filepath text : string) (fs : files)
  : files * outcome unit :=
  match file_write filepath text fs with
  | Written => (<[filepath := text]> fs, Returns ())
  | OpenFailed e => (fs, Raises e)
  | WriteFailed e partial => (<[filepath := partial]> fs, Raises e)
  end.

(** [MF_SaveData._save_json]. *)
Definition _save_json (data filepath : string) (fs : files)
  : files * outcome unit :=
  match json_loads data with
  | Decoded parsed => write_file filepath (json_dumps parsed) fs
  | DecodeError _ => write_file filepath data fs
  | OtherError e => (fs, Raises e)
  end.


(** [MF_SaveData._save_xml]. *)
Definition _save_xml (data filepath : string) (fs : files)
  : files * outcome unit :=
  match xml_fromstring data with
  | Decoded root => write_file filepath (xml_document root) fs
  | DecodeError _ => write_file filepath (xml_document (xml_data_element data)) fs
  | OtherError e => (fs, Raises e)
  end.

(** [MF_SaveData._save_csv]: whatever the conversion of [data] raises is
    caught inside; [csv_rows] is the text of the rows written. *)
Definition _save_csv (data filepath : string) (fs : files)
  : files * outcome unit :=
  write_file filepath (csv_rows data) fs.

(** [MF_SaveData._save_yaml]. *)
Definition _save_yaml (data filepath : string) (fs : files)
  : files * outcome unit :=
  if negb HAS_YAML then
    (fs, Raises "pyyaml is not installed. Run: pip install pyyaml")
  else
    match json_loads data with
    | Decoded parsed => write_file filepath (yaml_dump parsed) fs
    | DecodeError _ => write_file filepath data fs
    | OtherError e => (fs, Raises e)
    end.

(** The body of the [try] of [MF_SaveData.save_data]: the files afterwards,
    and the path returned or the exception raised. *)
Definition save_data_try (data output_path filename format : string)
    (fs : files) : files * outcome string :=
  let data := _clean_markdown_fences data in
  match makedirs output_path fs with
  | Raises e => (fs, Raises e)
  | Returns _ =>
      let filepath := path_join output_path (filename +:+ "." +:+ format) in
      let saved :=
        if String.eqb format "json" then _save_json data filepath fs
        else if String.eqb format "xml" then _save_xml data filepath fs
        else if String.eqb format "csv" then _save_csv data filepath fs
        else if String.eqb format "yaml" then _save_yaml data filepath fs
        else (fs, Returns ()) in
      (saved.1, _ ← saved.2; Returns filepath)
  end.

(** [MF_SaveData.save_data]: the files afterwards and the content of the
    one-element tuple. *)
Definition save_data (data output_path filename format : string)
    (fs : files) : files * string :=
  let tried := save_data_try data output_path filename format fs in
  (tried.1,
   match tried.2 with
   | Returns filepath => filepath
   | Raises e => "Error: " +:+ e
   end).

(** [with open(filepath, "r") as f: f.read()] for a file that can be read
    and whose text holds no carriage return; one that does is read with its
    line endings changed, see [Py.universal_newlines]. *)
Definition read_file (filepath : string) (fs : files) : outcome string :=
  match fs !! filepath with
  | Some text => Returns text
  | None => Raises ("No such file or directory: " +:+ filepath)
  end.

(** [MF_ReadData._read_json]. *)
Definition _read_json (filepath : string) (fs : files) : outcome string :=
  text ← read_file filepath fs;
  match json_loads text with
  | Decoded data => Returns (json_dumps data)
  | DecodeError e => Raises e
  | OtherError e => Raises e
  end.

(** [MF_ReadData._read_xml], [_read_csv] and [_read_yaml]. *)
Definition _read_xml (filepath : string) (fs : files) : outcome string :=
  text ← read_file filepath fs;
  match xml_fromstring text with
  | Decoded root => Returns (xml_tostring root)
  | DecodeError e => Raises e
  | OtherError e => Raises e
  end.

Definition _read_csv (filepath : string) (fs : files) : outcome string :=
  text ← read_file filepath fs;
  csv_read text.

Definition _read_yaml (filepath : string) (fs : files) : outcome string :=
  if negb HAS_YAML then
    Raises "pyyaml is not installed. Run: pip install pyyaml"
  else
    text ← read_file filepath fs;
    yaml_read text.

(** [ext.lower().lstrip(".")] of the extension of [filename]. *)
Definition extension (filename : string) : string :=
  Py.lstrip_char "." (Py.lower (Py.splitext filename).2).

(** The body of the [try] of [MF_ReadData.read_data]. *)
Definition read_data_try (file_path filename : string) (fs : files)
  : outcome string :=
  let filepath := path_join file_path filename in
  if decide (fs !! filepath = None) then
    Returns ("File not found: " +:+ filepath)
  else
    let ext := extension filename in
    if String.eqb ext "json" then _read_json filepath fs
    else if String.eqb ext "xml" then _read_xml filepath fs
    else if String.eqb ext "csv" then _read_csv filepath fs
    else if String.eqb ext "yaml" || String.eqb ext "yml" then
      _read_yaml filepath fs
    else read_file filepath fs.

(** [MF_ReadData.read_data]: the content of the one-element tuple. *)
Definition read_data (file_path filename : string) (fs : files) : string :=
  match read_data_try file_path filename fs with
  | Returns data => data
  | Raises e => "Error: " +:+ e
  end.

End nodes.

(** [MF_ShowData._clean_data] and [MF_ShowData.show_data]: the text shown
    in the node and the text passed on. *)
Definition _clean_data (data : string) : string :=
  let data := Py.strip data in
  if Py.startswith data "```" then
    let lines := Py.split "010" data in
    let lines :=
      match lines with
      | first :: rest => if Py.startswith first "```" then rest else lines
      | [] => lines
      end in
    let lines :=
      match last lines with
      | Some l => if String.eqb (Py.strip l) "```" then removelast lines else lines
      | None => lines
      end in
    Py.join (String "010" EmptyString) lines
  else data.

Definition show_data (data : string) : string * string :=
  let cleaned_data := _clean_data data in
  (cleaned_data, cleaned_data).

(** A text inside a markdown code fence: the opening fence with a language
    tag, the text on lines of its own, the closing fence. *)
Definition fenced (lang body : string) : string :=
  "```" +:+ lang +:+ String "010" body +:+ String "010" "```".

(** A host to run the nodes on: POSIX paths, no directory without a name,
    a read-only directory [/ro], a disk that is full after 64 bytes of a
    file, and of JSON the three constants. *)
Definition literal_loads (s : string) : decoded (option bool) :=
  if String.eqb s "null" then Decoded None
  else if String.eqb s "true" then Decoded (Some true)
  else if String.eqb s "false" then Decoded (Some false)
  else DecodeError "Expecting value: line 1 column 1 (char 0)".

Definition literal_dumps (v : option bool) : string :=
  match v with
  | None => "null"
  | Some true => "true"
  | Some false => "false"
  end.

Definition posix_join (a b : string) : string :=
  if Py.startswith b "/" then b
  else if Py.is_empty a || Py.endswith a "/" then a +:+ b
  else a +:+ "/" +:+ b.

Definition literal_host : Host := {|
  path_join := posix_join;
  makedirs path _ :=
    if Py.is_empty path then Raises "[Errno 2] No such file or directory: ''"
    else Returns ();
  file_write path text _ :=
    if Py.startswith path "/ro/" then
      OpenFailed ("[Errno 30] Read-only file system: '" +:+ path +:+ "'")
    else if 64 <? Z.of_nat (String.length text) then
      WriteFailed "[Errno 28] No space left on device" (Py.take 64 text)
    else Written;
  json_value := option bool;
  json_loads := literal_loads;
  json_dumps := literal_dumps;
  xml_element := string;
  xml_fromstring text := DecodeError "syntax error: line 1, column 0";
  xml_data_element data := data;
  xml_document root := "<data>" +:+ root +:+ "</data>";
  xml_tostring root := "<data>" +:+ root +:+ "</data>";
  csv_rows data := data;
  csv_read text := Returns "[]";
  HAS_YAML := false;
  yaml_dump := literal_dumps;
  yaml_read text := Returns "null"
|}.

End DataNodes.

(** *** nodes/logging.py *)
Module LogNodes.

(** The host: the output directory of the editor, the path functions, and
    the two file operations that can fail; [file_append] says what happens
    when a file is opened for appending and a text written to it. *)
Class Host : Type := {
  get_output_directory : string;
  path_join : string → string → string;
  path_dirname : string → string;
  makedirs : string → gmap string string → outcome unit;
  file_append : string → string → gmap string string → DataNodes.write_result
}.

(** [s is None or s.strip() == ""]. *)
Definition is_blank (s : option string) : bool :=
  match s with
  | None => true
  | Some t => String.eqb (Py.strip t) ""
  end.

Section nodes.
Context `{host : Host}.

(** [_get_log_file_path]. *)
Definition _get_log_file_path (save_log_path log_file_name : option string)
    (output_dir : string) : string :=
  let save_log_path :=
    if is_blank save_log_path then output_dir else default "" save_log_path in
  let log_file_name :=
    if is_blank log_file_name then "logfile" else default "" log_file_name in
  let log_file_name :=
    if negb (Py.endswith (Py.lower log_file_name) ".txt")
    then log_file_name +:+ ".txt" else log_file_name in
  path_join save_log_path log_file_name.

(** The entry as it is written; [timestamp] is the clock of the call in the
    format [%Y-%m-%d %H:%M:%S]. *)
Definition formatted_entry (timestamp log_entry : string) (enable_timestamp : bool)
  : string :=
  if enable_timestamp
  then "[" +:+ timestamp +:+ "] " +:+ log_entry +:+ String "010" (String "010" "")
  else log_entry +:+ String "010" (String "010" "").

(** [with open(path, "a") as f: f.write(text)]: the text goes after what the
    file holds, a file that does not exist being created.  A file that
    cannot be opened stays as it was; a write that stops leaves [partial]
    appended. *)
Definition append_file (path text : string) (fs : gmap string string)
  : gmap string string * outcome unit :=
  let old := default "" (fs !! path) in
  match file_append path text fs with
  | DataNodes.Written => (<[path := old +:+ text]> fs, Returns ())
  | DataNodes.OpenFailed e => (fs, Raises e)
  | DataNodes.WriteFailed e partial =>
      (<[path := old +:+ partial]> fs, Raises e)
  end.

(** [with open(path, "r") as f: f.read()] for a file that can be read: the
    text of the file with its line endings as text mode reads them. *)
Definition read_file (path : string) (fs : gmap string string) : outcome string :=
  match fs !! path with
  | Some text => Returns (Py.universal_newlines text)
  | None => Raises ("[Errno 2] No such file or directory: " +:+ path)
  end.

(** The body of the [try] of [MF_LogFile.write_log]: the files afterwards,
    and the content returned or the exception raised. *)
Definition write_log_try (timestamp log_entry : string)
    (save_log_path log_file_name : option string) (enable_timestamp : bool)
    (fs : gmap string string) : gmap string string * outcome string :=
  let log_file_path :=
    _get_log_file_path save_log_path log_file_name get_output_directory in
  match makedirs (path_dirname log_file_path) fs with
  | Raises e => (fs, Raises e)
  | Returns _ =>
      let formatted_entry :=
        formatted_entry timestamp log_entry enable_timestamp in
      let appended := append_file log_file_path formatted_entry fs in
      (appended.1, _ ← appended.2; read_file log_file_path appended.1)
  end.

(** [MF_LogFile.write_log]: the files afterwards and [log_content]. *)
Definition write_log (timestamp log_entry : string)
    (save_log_path log_file_name : option string) (enable_timestamp : bool)
    (fs : gmap string string) : gmap string string * string :=
  let tried := write_log_try timestamp log_entry save_log_path log_file_name
                 enable_timestamp fs in
  (tried.1,
   match tried.2 with
   | Returns log_content => log_content
   | Raises e => "❌ Error writing log: " +:+ e
   end).


End nodes.

(** A host to run the nodes on: POSIX paths, the directory [output], no
    directory without a name, no file whose path holds a null character. *)
Definition posix_host : Host := {|
  get_output_directory := "output";
  path_join := DataNodes.posix_join;
  path_dirname := Py.dirname;
  makedirs path _ :=
    if Py.is_empty path then Raises "[Errno 2] No such file or directory: ''"
    else Returns ();
  file_append path _ _ :=
    if Chars.all_chars (λ c, negb (Ascii.eqb c "000")) path
    then DataNodes.Written
    else DataNodes.OpenFailed "embedded null byte"
|}.

End LogNodes.

(** *** nodes/random.py *)
Module RandomNodes.

(** [MF_DiceRoller.roll_dice]; [randint a b] is the draw of
    [random.randint(a, b)], which raises [ValueError] when [b < a]. *)
Definition roll_dice (randint : Z → Z → Z) (dice : string) (custom_faces : Z)
  : outcome (Z * string) :=
  max_value ←
    (if String.eqb dice "DCustom" then Returns custom_faces
     else match Py.int (Py.drop 1 dice) with
          | Some n => Returns n
          | None =>
              Raises ("invalid literal for int() with base 10: '"
                      +:+ Py.drop 1 dice +:+ "'")
          end);
  if max_value <? 1 then
    Raises ("empty range in randrange(1, " +:+ Py.str (max_value + 1) +:+ ")")
  else
    let result := randint 1 max_value in
    Returns (result, Py.str result).

(** The names of the dice in the node's menu, without [DCustom]. *)
Definition standard_dice : list string :=
  ["D4"; "D6"; "D8"; "D10"; "D12"; "D20"; "D100"].

End RandomNodes.

(** ** Part II: properties *)

Example str_examples :
  Py.str 0 = "0" ∧ Py.str 7 = "7" ∧ Py.str 120 = "120" ∧
  Py.str (-45) = "-45" ∧ Py.str 999999 = "999999".
Proof. repeat split; reflexivity. Qed.

Example int_examples :
  Py.int " 12 " = Some 12 ∧ Py.int "-3" = Some (-3) ∧ Py.int "+1_000" = Some 1000 ∧
  Py.int "1__0" = None ∧ Py.int "" = None ∧ Py.int "- 3" = None ∧
  Py.int "3a" = None ∧ Py.int "_1" = None ∧ Py.int "1_" = None.
Proof. repeat split; reflexivity. Qed.

Example split_examples :
  Py.split "," "3,8,15" = ["3"; "8"; "15"] ∧ Py.split "," "" = [""] ∧
  Py.split "," ",a," = [""; "a"; ""].
Proof. repeat split; reflexivity. Qed.

Example format_examples :
  Py.format_0d 2 5 = "05" ∧ Py.format_0d 2 12 = "12" ∧ Py.format_0d 2 123 = "123" ∧
  Py.format_0d 2 0 = "00" ∧ Py.format_0d 2 (-5) = "-5" ∧ Py.format_0d 2 (-12) = "-12".
Proof. repeat split; reflexivity. Qed.

(** C6.  For an input in [-999999, 999999] and a modulus in [1, 999999], the
    node returns; the two integers satisfy
    [input = cycle * modulus + result] with [0 <= result < modulus], and the
    two strings are their decimal renderings. *)
Theorem apply_modulo_advanced_spec (input_number modulo_value : Z) :
  -999999 ≤ input_number ≤ 999999 →
  1 ≤ modulo_value ≤ 999999 →
  ∃ r, MathNodes.apply_modulo_advanced input_number modulo_value = Returns r ∧
       input_number
         = MathNodes.cycle_count_int r * modulo_value + MathNodes.modulo_result_int r ∧
       0 ≤ MathNodes.modulo_result_int r < modulo_value ∧
       MathNodes.modulo_result_string r = Py.str (MathNodes.modulo_result_int r) ∧
       MathNodes.cycle_count_string r = Py.str (MathNodes.cycle_count_int r).
Proof.
  intros Hin Hmod.
  unfold MathNodes.apply_modulo_advanced, MathNodes.py_mod, MathNodes.py_floordiv.
  destruct (Z.eqb_spec modulo_value 0) as [->|Hne]; [lia|].
  simpl. eexists; split; [reflexivity|]. simpl.
  repeat split; try (apply Z.mod_pos_bound; lia).
  rewrite Z.mul_comm. apply Z.div_mod. assumption.
Qed.

Lemma apply_modulo_advanced_spec_witness :
  ∃ r, MathNodes.apply_modulo_advanced (-7) 3 = Returns r ∧
       -7 = MathNodes.cycle_count_int r * 3 + MathNodes.modulo_result_int r ∧
       0 ≤ MathNodes.modulo_result_int r < 3 ∧
       MathNodes.modulo_result_string r = Py.str (MathNodes.modulo_result_int r) ∧
       MathNodes.cycle_count_string r = Py.str (MathNodes.cycle_count_int r).
Proof. apply (apply_modulo_advanced_spec (-7) 3); lia. Defined.

Example shot_examples :
  Sequencing.shot_name (Sequencing.calculate_sequence_shot 0 "3,8,15") = "seq01_shot01" ∧
  Sequencing.shot_name (Sequencing.calculate_sequence_shot 3 "3,8,15") = "seq02_shot01" ∧
  Sequencing.shot_name (Sequencing.calculate_sequence_shot 9 "[15, 8, 3]") = "seq03_shot02" ∧
  Sequencing.shot_name (Sequencing.calculate_sequence_shot 9 "3,x") = "seq01_shot10" ∧
  Sequencing.shot_name (Sequencing.calculate_sequence_shot (-4) "") = "seq01_shot-3".
Proof. repeat split; vm_compute; reflexivity. Qed.

Example select_line_examples :
  TextNodes.select_line ("a" +:+ String "013" (String "010" "b")) 1 = Returns "b" ∧
  TextNodes.select_line "a" 1 = Returns "⚠️ Line index 1 out of range (0-0)".
Proof. repeat split; vm_compute; reflexivity. Qed.

(** *** The beat scan *)

Lemma largest_spec (l : list Z) (m : Z) :
  Sequencing.largest l = Some m ↔ m ∈ l ∧ Forall (λ b, b ≤ m) l.
Proof.
  destruct l as [|x t]; simpl.
  - split; [discriminate|]. intros [H _]. inversion H.
  - assert (Hf : ∀ t x, foldr Z.max x t ∈ x :: t ∧
                        Forall (λ b, b ≤ foldr Z.max x t) (x :: t)).
    { clear. induction t as [|y t IH]; intros x; simpl.
      - split; [left|]. repeat constructor. lia.
      - destruct (IH x) as [Hin Hall]. split.
        + destruct (Z.max_spec y (foldr Z.max x t)) as [[_ ->]|[_ ->]].
          * apply elem_of_cons in Hin as [Hin|Hin]; [rewrite Hin; left|].
            do 2 right. assumption.
          * right. left.
        + apply Forall_cons in Hall as [Hx Hall].
          repeat constructor; try lia.
          eapply Forall_impl; [exact Hall|]. simpl. intros; lia. }
    destruct (Hf t x) as [Hin Hall]. split.
    + intros [= <-]. split; assumption.
    + intros [Hm Hle]. f_equal.
      rewrite Forall_forall in Hall, Hle.
      specialize (Hall m Hm). specialize (Hle _ Hin). simpl in *. lia.
Qed.

Lemma largest_None (l : list Z) : Sequencing.largest l = None ↔ l = [].
Proof. destruct l; simpl; split; congruence. Qed.

Lemma largest_Permutation (l k : list Z) :
  l ≡ₚ k → Sequencing.largest l = Sequencing.largest k.
Proof.
  intros Hp.
  destruct (Sequencing.largest l) as [m|] eqn:Hl.
  - symmetry. apply largest_spec. apply largest_spec in Hl as [Hin Hall].
    split; [rewrite <- Hp; assumption|]. rewrite <- Hp. assumption.
  - apply largest_None in Hl. subst l. apply Permutation_nil_l in Hp.
    subst k. reflexivity.
Qed.

Lemma foldr_max_lower (b x : Z) (l : list Z) :
  b ≤ x → foldr Z.max x l = Z.max x (foldr Z.max b l).
Proof. intros Hb. induction l as [|y l IH]; simpl; lia. Qed.

Lemma largest_above (b : Z) (l : list Z) :
  Forall (Z.le b) l → default b (Sequencing.largest l) = foldr Z.max b l.
Proof.
  destruct l as [|x l]; simpl; [reflexivity|]. intros H.
  apply Forall_cons in H as [Hx _]. rewrite (foldr_max_lower b x); lia.
Qed.

(** On an ascending list the loop counts the beats that are not after
    [step] and stops at the largest of them. *)
Lemma scan_beats_sorted (step : Z) (s : list Z) :
  StronglySorted Z.le s →
  ∀ q st, Sequencing.scan_beats step s (q, st)
          = (q + Z.of_nat (length (Sequencing.beats_le step s)),
             default st (Sequencing.largest (Sequencing.beats_le step s))).
Proof.
  unfold Sequencing.beats_le.
  induction 1 as [|b t Hs IH Hb]; intros q st; simpl.
  - f_equal. lia.
  - destruct (Z.geb_spec step b) as [Hge|Hlt].
    + rewrite IH. rewrite filter_cons_True by lia. simpl. f_equal; [lia|].
      rewrite largest_above; [reflexivity|].
      eapply Forall_impl with (P := Z.le b).
      * clear -Hb. induction Hb as [|y t Hy Hb IHb]; [constructor|].
        rewrite filter_cons. destruct (decide (y ≤ step)); [constructor|]; assumption.
      * auto.
    + rewrite filter_cons_False by lia.
      replace (filter (λ b0, b0 ≤ step) t) with (@nil Z).
      * simpl. f_equal. lia.
      * symmetry. clear -Hb Hlt. induction Hb as [|y t Hy Hb IHb]; [reflexivity|].
        rewrite filter_cons_False by lia. assumption.
Qed.

Lemma sorted_spec (l : list Z) :
  StronglySorted Z.le (Sequencing.sorted l) ∧ Sequencing.sorted l ≡ₚ l.
Proof.
  split.
  - apply (StronglySorted_merge_sort Z.le).
  - apply merge_sort_Permutation.
Qed.

Lemma scan_beats_sorted_list (step : Z) (l : list Z) :
  Sequencing.scan_beats step (Sequencing.sorted l) (1, 0)
  = (1 + Z.of_nat (length (Sequencing.beats_le step l)),
     default 0 (Sequencing.largest (Sequencing.beats_le step l))).
Proof.
  destruct (sorted_spec l) as [Hs Hp].
  rewrite scan_beats_sorted by assumption.
  assert (Hf : Sequencing.beats_le step (Sequencing.sorted l)
               ≡ₚ Sequencing.beats_le step l).
  { unfold Sequencing.beats_le. rewrite Hp. reflexivity. }
  rewrite (Permutation_length Hf), (largest_Permutation _ _ Hf). reflexivity.
Qed.

(** *** Strings *)

Lemma app_String (c : ascii) (s t : string) :
  String c s +:+ t = String c (s +:+ t).
Proof. reflexivity. Qed.

Lemma app_empty_l (t : string) : "" +:+ t = t.
Proof. reflexivity. Qed.

Lemma app_empty_r (s : string) : s +:+ "" = s.
Proof.
  induction s as [|c s IH]; [reflexivity|]. rewrite app_String. f_equal. exact IH.
Qed.

Lemma app_assoc_str (s t u : string) : (s +:+ t) +:+ u = s +:+ (t +:+ u).
Proof.
  induction s as [|c s IH]; [reflexivity|]. rewrite !app_String. f_equal. exact IH.
Qed.

Lemma all_chars_app (P : ascii → bool) (s t : string) :
  Chars.all_chars P (s +:+ t) = Chars.all_chars P s && Chars.all_chars P t.
Proof.
  induction s as [|c s IH]; [reflexivity|]. rewrite app_String. simpl.
  rewrite IH. apply andb_assoc.
Qed.

Lemma all_chars_impl (P Q : ascii → bool) (s : string) :
  (∀ c, P c = true → Q c = true) →
  Chars.all_chars P s = true → Chars.all_chars Q s = true.
Proof.
  intros HPQ. induction s as [|c s IH]; simpl; [reflexivity|].
  intros [Hc Hs]%andb_true_iff. rewrite (HPQ _ Hc), (IH Hs). reflexivity.
Qed.

Lemma is_int_char_facts (c : ascii) :
  Chars.is_int_char c = true →
  Py.isspace c = false ∧ Ascii.eqb c "," = false ∧ Ascii.eqb c "010" = false ∧
  Ascii.eqb c "[" = false ∧ Ascii.eqb c "+" = false.
Proof.
  destruct c as [[] [] [] [] [] [] [] []]; vm_compute; intros H;
    first [discriminate H | repeat split].
Qed.

Lemma isdigit_facts (c : ascii) :
  Py.isdigit c = true → Chars.is_int_char c = true ∧ Ascii.eqb c "-" = false.
Proof.
  destruct c as [[] [] [] [] [] [] [] []]; vm_compute; intros H;
    first [discriminate H | repeat split].
Qed.

Lemma lstrip_solid (c : ascii) (s : string) :
  Py.isspace c = false → Py.lstrip (String c s) = String c s.
Proof. intros H. simpl. rewrite H. reflexivity. Qed.

Lemma rstrip_solid (s : string) : Chars.ends_solid s = true → Py.rstrip s = s.
Proof.
  induction s as [|c s IH]; simpl; [discriminate|].
  destruct s as [|c' s'].
  - simpl. intros H. apply negb_true_iff in H. rewrite H. reflexivity.
  - intros H. rewrite (IH H). simpl. rewrite andb_false_r. reflexivity.
Qed.

Lemma strip_solid (c : ascii) (s : string) :
  Py.isspace c = false → Chars.ends_solid (String c s) = true →
  Py.strip (String c s) = String c s.
Proof.
  intros Hc He. unfold Py.strip. rewrite (rstrip_solid _ He).
  apply lstrip_solid. exact Hc.
Qed.

Lemma ends_solid_app (s t : string) :
  Chars.ends_solid t = true → Chars.ends_solid (s +:+ t) = true.
Proof.
  intros Ht. induction s as [|c s IH]; [exact Ht|]. rewrite app_String.
  simpl. destruct (s +:+ t) eqn:E; [|exact IH].
  simpl in IH. discriminate IH.
Qed.

Lemma ends_solid_all (s : string) :
  s ≠ "" → Chars.all_chars (λ c, negb (Py.isspace c)) s = true →
  Chars.ends_solid s = true.
Proof.
  induction s as [|c s IH]; [congruence|]. intros _. simpl.
  intros [Hc Hs]%andb_true_iff. destruct s as [|c' s']; [exact Hc|].
  apply IH; [discriminate|exact Hs].
Qed.

Lemma replace_char_absent (old new : ascii) (s : string) :
  Chars.all_chars (λ c, negb (Ascii.eqb c old)) s = true →
  Py.replace_char old new s = s.
Proof.
  induction s as [|c s IH]; simpl; [reflexivity|].
  intros [Hc Hs]%andb_true_iff. apply negb_true_iff in Hc.
  rewrite Hc, (IH Hs). reflexivity.
Qed.

Lemma replace_char_app (old new : ascii) (s t : string) :
  Py.replace_char old new (s +:+ t)
  = Py.replace_char old new s +:+ Py.replace_char old new t.
Proof.
  induction s as [|c s IH]; [reflexivity|]. rewrite app_String. simpl.
  rewrite IH. reflexivity.
Qed.

Lemma drop_last_app (s : string) (c : ascii) :
  Py.drop_last (s +:+ String c "") = s.
Proof.
  induction s as [|a s IH]; [reflexivity|]. rewrite app_String. simpl.
  destruct (s +:+ String c "") eqn:E.
  - destruct s; discriminate E.
  - rewrite IH. reflexivity.
Qed.

Lemma endswith_app (s : string) (c : ascii) :
  Py.endswith (s +:+ String c "") (String c "") = true.
Proof.
  induction s as [|a s IH].
  - simpl. rewrite Ascii.eqb_refl. reflexivity.
  - rewrite app_String. simpl. rewrite IH. apply orb_true_r.
Qed.

Lemma split_pieces_solid (sep : ascii) (s : string) :
  Chars.all_chars (λ c, negb (Ascii.eqb c sep)) s = true →
  Py.split_pieces sep s = (s, []).
Proof.
  induction s as [|c s IH]; simpl; [reflexivity|].
  intros [Hc Hs]%andb_true_iff. apply negb_true_iff in Hc.
  rewrite (IH Hs), Hc. reflexivity.
Qed.

Lemma split_pieces_app (sep : ascii) (s t : string) :
  Chars.all_chars (λ c, negb (Ascii.eqb c sep)) s = true →
  Py.split_pieces sep (s +:+ String sep t) = (s, Py.split sep t).
Proof.
  induction s as [|c s IH].
  - intros _. rewrite app_empty_l. simpl. unfold Py.split.
    destruct (Py.split_pieces sep t) as [h r].
    rewrite Ascii.eqb_refl. reflexivity.
  - rewrite app_String. simpl.
    intros [Hc Hs]%andb_true_iff. apply negb_true_iff in Hc.
    rewrite (IH Hs), Hc. reflexivity.
Qed.

Lemma join_cons_cons (sep x y : string) (l : list string) :
  Py.join sep (x :: y :: l) = x +:+ sep +:+ Py.join sep (y :: l).
Proof. reflexivity. Qed.

(** Splitting a joined list gives the list back when no piece holds the
    separator. *)
Lemma split_join (sep : ascii) (x : string) (l : list string) :
  Forall (λ p, Chars.all_chars (λ c, negb (Ascii.eqb c sep)) p = true) (x :: l) →
  Py.split sep (Py.join (String sep "") (x :: l)) = x :: l.
Proof.
  revert x. induction l as [|y l IH]; intros x H.
  - apply Forall_cons in H as [Hx _]. simpl. unfold Py.split.
    rewrite (split_pieces_solid _ _ Hx). reflexivity.
  - apply Forall_cons in H as [Hx Hl].
    rewrite join_cons_cons, app_String, app_empty_l.
    unfold Py.split at 1.
    rewrite (split_pieces_app _ _ _ Hx), (IH _ Hl). reflexivity.
Qed.

Lemma join_String (sep : string) (c : ascii) (h : string) (t : list string) :
  Py.join sep (String c h :: t) = String c (Py.join sep (h :: t)).
Proof. destruct t; reflexivity. Qed.

(** [sep.join(s.split(sep)) == s]. *)
Lemma join_split (sep : ascii) (s : string) :
  Py.join (String sep "") (Py.split sep s) = s.
Proof.
  unfold Py.split. induction s as [|c s IH]; [reflexivity|]. simpl.
  destruct (Py.split_pieces sep s) as [h t].
  destruct (Ascii.eqb_spec c sep) as [->|Hne].
  - rewrite join_cons_cons, app_empty_l, app_String, app_empty_l, IH.
    reflexivity.
  - rewrite join_String, IH. reflexivity.
Qed.

Lemma split_chars (P : ascii → bool) (sep : ascii) (s : string) :
  Chars.all_chars P s = true →
  Forall (λ p, Chars.all_chars (λ c, P c && negb (Ascii.eqb c sep)) p = true)
         (Py.split sep s).
Proof.
  unfold Py.split. induction s as [|c s IH]; simpl.
  - intros _. repeat constructor.
  - intros [Hc Hs]%andb_true_iff. specialize (IH Hs).
    destruct (Py.split_pieces sep s) as [h t].
    apply Forall_cons in IH as [Hh Ht].
    destruct (Ascii.eqb c sep) eqn:E.
    + repeat constructor; assumption.
    + constructor; [|exact Ht]. simpl. rewrite Hc, Hh, E. reflexivity.
Qed.

Lemma replace_char_gone (old new : ascii) (s : string) :
  Ascii.eqb new old = false →
  Chars.all_chars (λ c, negb (Ascii.eqb c old)) (Py.replace_char old new s) = true.
Proof.
  intros Hne. induction s as [|c s IH]; simpl; [reflexivity|].
  rewrite IH, andb_true_r. destruct (Ascii.eqb c old) eqn:E; [rewrite Hne|rewrite E];
    reflexivity.
Qed.

Lemma split_nonempty (sep : ascii) (s : string) : (1 ≤ length (Py.split sep s))%nat.
Proof. unfold Py.split. destruct (Py.split_pieces sep s). simpl. lia. Qed.

(** *** Line selection *)

(** C10.  The lines of a text are those of the text with every [\r\n] and
    then every [\r] replaced by [\n], split at [\n]: joined by [\n] they
    are that text again, none of them holds a line break, and there is at
    least one.  [select_line] never raises.  For an index inside [0, n),
    [n] the number of lines, it returns the line at that index; for any
    other index it returns the warning text on the same output. *)
Theorem select_line_spec (text : string) (line_index : Z) :
  let normalized := Py.replace_char "013" "010" (Py.replace_crlf text) in
  let lines := Py.split "010" normalized in
  let n := Z.of_nat (length lines) in
  Py.join (String "010" "") lines = normalized ∧
  Forall (λ line,
            Chars.all_chars
              (λ c, negb (Ascii.eqb c "013") && negb (Ascii.eqb c "010")) line
            = true) lines ∧
  1 ≤ n ∧
  (∃ r, TextNodes.select_line text line_index = Returns r) ∧
  (0 ≤ line_index < n →
   ∃ line, lines !! Z.to_nat line_index = Some line ∧
           TextNodes.select_line text line_index = Returns line) ∧
  (¬ (0 ≤ line_index < n) →
   TextNodes.select_line text line_index
   = Returns ("⚠️ Line index " +:+ Py.str line_index +:+
              " out of range (0-" +:+ Py.str (n - 1) +:+ ")")).
Proof.
  intros normalized lines n.
  assert (Hlines : TextNodes._normalize_text_lines text = lines) by reflexivity.
  assert (Hin : 0 ≤ line_index < n →
     ∃ line, lines !! Z.to_nat line_index = Some line ∧
             TextNodes.select_line text line_index = Returns line).
  { intros [Hlo Hhi]. unfold TextNodes.select_line. rewrite Hlines.
    change (TextNodes.len lines) with n. destruct (Z.ltb_spec line_index 0); [lia|].
    destruct (Z.geb_spec line_index n); [lia|]. simpl.
    unfold TextNodes.list_item.
    destruct (lines !! Z.to_nat line_index) as [line|] eqn:Hl.
    - exists line. split; reflexivity.
    - apply lookup_ge_None in Hl. unfold n in Hhi. lia. }
  assert (Hout : ¬ (0 ≤ line_index < n) →
     TextNodes.select_line text line_index
     = Returns (TextNodes.out_of_range_message line_index n)).
  { intros Hn. unfold TextNodes.select_line. rewrite Hlines.
    change (TextNodes.len lines) with n.
    destruct (Z.ltb_spec line_index 0); [reflexivity|].
    destruct (Z.geb_spec line_index n); [reflexivity|]. lia. }
  split; [apply join_split|].
  split; [apply split_chars, replace_char_gone; reflexivity|].
  split; [pose proof (split_nonempty "010" normalized); unfold n, lines; lia|].
  split; [|split; assumption].
  destruct (decide (0 ≤ line_index < n)) as [Hy|Hn].
  - destruct (Hin Hy) as (line & _ & ->). eauto.
  - rewrite (Hout Hn). eauto.
Qed.

Lemma select_line_spec_witness :
  TextNodes.select_line (String "a" (String "013" (String "010"
    (String "b" (String "013" (String "c" ""))))))
    2 = Returns "c" ∧
  TextNodes.select_line "one
two" 1 = Returns "two" ∧
  TextNodes.select_line "one
two" 2 = Returns "⚠️ Line index 2 out of range (0-1)".
Proof.
  split; [|split].
  - destruct (select_line_spec (String "a" (String "013" (String "010"
              (String "b" (String "013" (String "c" "")))))) 2)
      as (_ & _ & _ & _ & Hin & _).
    destruct Hin as (line & Hline & ->); [split; [lia|reflexivity]|].
    injection Hline as <-. reflexivity.
  - destruct (select_line_spec "one
two" 1) as (_ & _ & _ & _ & Hin & _).
    destruct Hin as (line & Hline & ->); [split; [lia|reflexivity]|].
    injection Hline as <-. reflexivity.
  - destruct (select_line_spec "one
two" 2) as (_ & _ & _ & _ & _ & Hout).
    apply Hout. intros [_ H]. vm_compute in H. discriminate H.
Defined.

(** *** Decimal rendering and parsing *)

Lemma digit_char_facts (d : Z) :
  0 ≤ d < 10 →
  Py.isdigit (Py.digit_char d) = true ∧ Py.digit_value (Py.digit_char d) = d.
Proof.
  intros H.
  assert (Hd : d = 0 ∨ d = 1 ∨ d = 2 ∨ d = 3 ∨ d = 4 ∨
               d = 5 ∨ d = 6 ∨ d = 7 ∨ d = 8 ∨ d = 9) by lia.
  repeat (destruct Hd as [->|Hd]; [split; reflexivity|]).
  subst d. split; reflexivity.
Qed.

Lemma digits_fuel_acc (fuel : nat) (n : Z) (acc : string) :
  Py.digits_fuel fuel n acc = Py.digits_fuel fuel n "" +:+ acc.
Proof.
  revert n acc. induction fuel as [|fuel IH]; intros n acc; [reflexivity|].
  simpl. destruct (n <? 10); [reflexivity|].
  rewrite (IH _ (String _ acc)), (IH _ (String _ "")), app_assoc_str.
  reflexivity.
Qed.

Lemma digits_fuel_chars (fuel : nat) (n : Z) (acc : string) :
  Chars.all_chars Py.isdigit acc = true →
  Chars.all_chars Py.isdigit (Py.digits_fuel fuel n acc) = true.
Proof.
  revert n acc. induction fuel as [|fuel IH]; intros n acc Hacc; [exact Hacc|].
  simpl.
  assert (Hd : Py.isdigit (Py.digit_char (n mod 10)) = true).
  { apply digit_char_facts. apply Z.mod_pos_bound. lia. }
  destruct (n <? 10).
  - simpl. rewrite Hd, Hacc. reflexivity.
  - apply IH. simpl. rewrite Hd, Hacc. reflexivity.
Qed.

Lemma digits_fuel_nonempty (fuel : nat) (n : Z) (acc : string) :
  Py.digits_fuel (S fuel) n acc ≠ "".
Proof.
  simpl. destruct (n <? 10); [discriminate|].
  rewrite digits_fuel_acc. destruct (Py.digits_fuel fuel (n / 10) ""); discriminate.
Qed.

(** Reading back the digits written by [digits_fuel] shifts the accumulator
    and adds the number. *)
Lemma int_digits_fuel (fuel : nat) :
  ∀ (n : Z) (acc : string), 0 ≤ n < 2 ^ Z.of_nat fuel →
  ∃ k, 0 ≤ k ∧
       ∀ a, Py.int_digits a (Py.digits_fuel (S fuel) n acc)
            = Py.int_digits (a * 10 ^ k + n) acc.
Proof.
  induction fuel as [|fuel IH]; intros n acc Hn.
  - assert (n = 0) as -> by (simpl in Hn; lia).
    exists 1. split; [lia|]. intros a. cbn [Py.digits_fuel].
    change (0 <? 10) with true. cbn match.
    destruct (digit_char_facts (0 mod 10)) as [Hd Hv]; [split; reflexivity || discriminate|].
    cbn [Py.int_digits]. rewrite Hd, Hv. f_equal.
    rewrite Z.mod_small by lia. lia.
  - cbn [Py.digits_fuel]. destruct (Z.ltb_spec n 10) as [Hlt|Hge].
    + exists 1. split; [lia|]. intros a.
      destruct (digit_char_facts (n mod 10)) as [Hd Hv].
      { apply Z.mod_pos_bound. lia. }
      cbn [Py.int_digits]. rewrite Hd, Hv. f_equal.
      rewrite Z.mod_small by lia. lia.
    + destruct (IH (n / 10) (String (Py.digit_char (n mod 10)) acc))
        as (k & Hk & Heq).
      { split; [apply Z.div_pos; lia|].
        apply Z.div_lt_upper_bound; [lia|].
        rewrite Nat2Z.inj_succ, Z.pow_succ_r in Hn by lia. lia. }
      exists (k + 1). split; [lia|]. intros a.
      cbn [Py.digits_fuel] in Heq. rewrite Heq.
      destruct (digit_char_facts (n mod 10)) as [Hd Hv].
      { apply Z.mod_pos_bound. lia. }
      cbn [Py.int_digits]. rewrite Hd, Hv. f_equal.
      rewrite Z.pow_add_r by lia.
      pose proof (Z.div_mod n 10 ltac:(lia)). lia.
Qed.

Lemma str_nonneg_fuel (n : Z) :
  0 ≤ n → n < 2 ^ Z.of_nat (Z.to_nat (Z.log2 n) + 1).
Proof.
  intros Hn. rewrite Nat2Z.inj_add, Z2Nat.id by apply Z.log2_nonneg.
  destruct (Z.eq_dec n 0) as [->|Hne]; [reflexivity|].
  change (Z.of_nat 1) with 1. apply Z.log2_spec. lia.
Qed.

Lemma str_nonneg_chars (n : Z) :
  Chars.all_chars Py.isdigit (Py.str_nonneg n) = true.
Proof. apply digits_fuel_chars. reflexivity. Qed.

Lemma str_nonneg_head (n : Z) :
  ∃ c s, Py.str_nonneg n = String c s ∧ Py.isdigit c = true.
Proof.
  pose proof (str_nonneg_chars n) as Hc.
  unfold Py.str_nonneg in *. replace (Z.to_nat (Z.log2 n) + 2)%nat
    with (S (Z.to_nat (Z.log2 n) + 1)) in * by lia.
  pose proof (digits_fuel_nonempty (Z.to_nat (Z.log2 n) + 1) n "") as Hne.
  destruct (Py.digits_fuel _ n "") as [|c s]; [congruence|].
  exists c, s. split; [reflexivity|].
  simpl in Hc. apply andb_true_iff in Hc as [Hc _]. exact Hc.
Qed.

Lemma int_unsigned_str_nonneg (n : Z) :
  0 ≤ n → Py.int_unsigned (Py.str_nonneg n) = Some n.
Proof.
  intros Hn.
  assert (Hz : Py.int_digits 0 (Py.str_nonneg n) = Some n).
  { unfold Py.str_nonneg. replace (Z.to_nat (Z.log2 n) + 2)%nat
      with (S (Z.to_nat (Z.log2 n) + 1)) by lia.
    destruct (int_digits_fuel (Z.to_nat (Z.log2 n) + 1) n "") as (k & _ & Heq).
    { split; [exact Hn|apply str_nonneg_fuel; exact Hn]. }
    rewrite Heq. reflexivity. }
  destruct (str_nonneg_head n) as (c & s & Hs & Hd).
  rewrite Hs in *. simpl in *. rewrite Hd in *.
  replace (10 * 0 + Py.digit_value c) with (Py.digit_value c) in Hz by lia.
  exact Hz.
Qed.

Lemma int_signed_digit (c : ascii) (s : string) :
  Py.isdigit c = true →
  Py.int_signed (String c s) = Py.int_unsigned (String c s).
Proof.
  destruct c as [[] [] [] [] [] [] [] []]; intros H;
    first [discriminate H | reflexivity].
Qed.

Lemma str_chars (n : Z) : Chars.all_chars Chars.is_int_char (Py.str n) = true.
Proof.
  assert (H : Chars.all_chars Chars.is_int_char (Py.str_nonneg (Z.abs n)) = true).
  { eapply all_chars_impl; [|apply str_nonneg_chars].
    intros c Hc. apply isdigit_facts. exact Hc. }
  unfold Py.str. destruct (Z.ltb_spec n 0).
  - simpl. replace (- n) with (Z.abs n) by lia. exact H.
  - replace n with (Z.abs n) at 1 by lia. exact H.
Qed.

Lemma str_head (n : Z) :
  ∃ c s, Py.str n = String c s ∧ Chars.is_int_char c = true.
Proof.
  unfold Py.str. destruct (n <? 0).
  - eexists _, _. split; reflexivity.
  - destruct (str_nonneg_head n) as (c & s & -> & Hd).
    exists c, s. split; [reflexivity|]. apply isdigit_facts. exact Hd.
Qed.

Lemma str_ends_solid (n : Z) : Chars.ends_solid (Py.str n) = true.
Proof.
  apply ends_solid_all.
  - destruct (str_head n) as (c & s & -> & _). discriminate.
  - eapply all_chars_impl; [|apply str_chars].
    intros c Hc. apply is_int_char_facts in Hc as [-> _]. reflexivity.
Qed.

Lemma strip_str (n : Z) : Py.strip (Py.str n) = Py.str n.
Proof.
  pose proof (str_ends_solid n) as He.
  destruct (str_head n) as (c & s & Hs & Hc). rewrite Hs in *.
  apply strip_solid; [|exact He]. apply is_int_char_facts. exact Hc.
Qed.

(** [int(str(n)) == n]. *)
Lemma int_str (n : Z) : Py.int (Py.str n) = Some n.
Proof.
  unfold Py.int. rewrite strip_str. unfold Py.str.
  destruct (Z.ltb_spec n 0) as [Hneg|Hpos].
  - simpl. rewrite int_unsigned_str_nonneg by lia. simpl. f_equal. lia.
  - destruct (str_nonneg_head n) as (c & s & Hs & Hd).
    rewrite Hs, (int_signed_digit _ _ Hd), <- Hs.
    apply int_unsigned_str_nonneg. exact Hpos.
Qed.

Lemma length_app_str (s t : string) :
  String.length (s +:+ t) = (String.length s + String.length t)%nat.
Proof.
  induction s as [|c s IH]; [reflexivity|]. rewrite app_String. simpl.
  rewrite IH. reflexivity.
Qed.

Lemma digits_fuel_S (fuel : nat) (n : Z) (acc : string) :
  Py.digits_fuel (S fuel) n acc
  = if n <? 10 then String (Py.digit_char (n mod 10)) acc
    else Py.digits_fuel fuel (n / 10) (String (Py.digit_char (n mod 10)) acc).
Proof. reflexivity. Qed.

Lemma zfill_long (w : nat) (d : string) :
  (w ≤ String.length d)%nat → Py.zfill w d = d.
Proof.
  intros H. unfold Py.zfill.
  replace (w - String.length d)%nat with 0%nat by lia. reflexivity.
Qed.

Lemma str_nonneg_length (n : Z) :
  (1 ≤ String.length (Py.str_nonneg n))%nat ∧
  (10 ≤ n → (2 ≤ String.length (Py.str_nonneg n))%nat).
Proof.
  split.
  - destruct (str_nonneg_head n) as (c & s & -> & _). simpl. lia.
  - intros Hn. unfold Py.str_nonneg.
    replace (Z.to_nat (Z.log2 n) + 2)%nat
      with (S (S (Z.to_nat (Z.log2 n)))) by lia.
    rewrite digits_fuel_S. destruct (Z.ltb_spec n 10); [lia|].
    rewrite digits_fuel_acc, length_app_str.
    pose proof (digits_fuel_nonempty (Z.to_nat (Z.log2 n)) (n / 10) "") as Hne.
    destruct (Py.digits_fuel _ (n / 10) ""); [congruence|]. simpl. lia.
Qed.

(** The format [02d] pads a single digit with one zero and leaves every
    other number as [str] renders it. *)
Lemma format_0d_two_digits (n : Z) : Py.format_0d 2 n = Sequencing.two_digits n.
Proof.
  unfold Py.format_0d, Sequencing.two_digits, Py.str.
  destruct (Z.ltb_spec n 0) as [Hneg|Hpos].
  - destruct (Z.leb_spec 0 n); [lia|]. simpl.
    rewrite zfill_long; [reflexivity|]. apply str_nonneg_length.
  - destruct (Z.leb_spec 0 n); [|lia]. simpl.
    destruct (Z.ltb_spec n 10) as [Hs|Hl].
    + unfold Py.str_nonneg.
      replace (Z.to_nat (Z.log2 n) + 2)%nat
        with (S (Z.to_nat (Z.log2 n) + 1)) by lia.
      rewrite digits_fuel_S. destruct (Z.ltb_spec n 10); [|lia]. reflexivity.
    + apply zfill_long. apply str_nonneg_length. exact Hl.
Qed.

(** *** The shot helper *)

Lemma beat_items_blank (beats : string) :
  Py.strip beats = "" → Sequencing.beat_items beats = Some [].
Proof.
  intros H. unfold Sequencing.beat_items, Sequencing.beats_clean.
  rewrite H. reflexivity.
Qed.

Lemma parse_beats_items (beats : string) (l : list Z) :
  Sequencing.beat_items beats = Some l →
  Sequencing.parse_beats beats = Sequencing.sorted l.
Proof.
  intros H. unfold Sequencing.parse_beats.
  destruct (Py.strip beats) eqn:E; simpl.
  - rewrite (beat_items_blank _ E) in H. injection H as <-. reflexivity.
  - rewrite H. reflexivity.
Qed.

(** A string on which an [int(...)] raises is treated as no beats at all. *)
Lemma parse_beats_invalid (beats : string) :
  Sequencing.beat_items beats = None → Sequencing.parse_beats beats = [].
Proof.
  intros H. unfold Sequencing.parse_beats.
  destruct (negb _); [rewrite H|]; reflexivity.
Qed.

(** C1.  For a beats string that parses to the integers [l],
    [sequence_int] is one more than the number of beats that are not after
    [step] (duplicates counted), [shot_int] is [step] minus the largest such
    beat (0 when there is none) plus one, the two [_str] outputs are their
    decimal renderings and [shot_name] is [seqSS_shotNN] with both numbers
    zero-padded to two digits. *)
Theorem calculate_sequence_shot_spec (step : Z) (beats : string) (l : list Z) :
  Sequencing.beat_items beats = Some l →
  let sequence_num := 1 + Z.of_nat (length (Sequencing.beats_le step l)) in
  let shot_num :=
    step - default 0 (Sequencing.largest (Sequencing.beats_le step l)) + 1 in
  Sequencing.calculate_sequence_shot step beats
  = {| Sequencing.sequence_int := sequence_num;
       Sequencing.sequence_str := Py.str sequence_num;
       Sequencing.shot_int := shot_num;
       Sequencing.shot_str := Py.str shot_num;
       Sequencing.shot_name :=
         "seq" +:+ Sequencing.two_digits sequence_num +:+
         "_shot" +:+ Sequencing.two_digits shot_num |}.
Proof.
  intros H sequence_num shot_num. unfold Sequencing.calculate_sequence_shot.
  rewrite (parse_beats_items _ _ H), scan_beats_sorted_list.
  rewrite !format_0d_two_digits. reflexivity.
Qed.

Lemma calculate_sequence_shot_spec_witness :
  Sequencing.calculate_sequence_shot 9 "[8, 3,
15, 8]"
  = {| Sequencing.sequence_int := 4;
       Sequencing.sequence_str := "4";
       Sequencing.shot_int := 2;
       Sequencing.shot_str := "2";
       Sequencing.shot_name := "seq04_shot02" |}.
Proof.
  apply (calculate_sequence_shot_spec 9 "[8, 3,
15, 8]" [8; 3; 15; 8]).
  reflexivity.
Defined.

(** *** The three notations *)

Lemma join_chars (P : ascii → bool) (sep : string) (ps : list string) :
  Chars.all_chars P sep = true →
  Forall (λ p, Chars.all_chars P p = true) ps →
  Chars.all_chars P (Py.join sep ps) = true.
Proof.
  intros Hsep. induction 1 as [|x t Hx Ht IH]; [reflexivity|].
  destruct t as [|y t]; [exact Hx|].
  rewrite join_cons_cons, !all_chars_app, Hx, Hsep, IH. reflexivity.
Qed.

Lemma join_ends_solid (sep x : string) (t : list string) :
  Forall (λ p, Chars.ends_solid p = true) (x :: t) →
  Chars.ends_solid (Py.join sep (x :: t)) = true.
Proof.
  revert x. induction t as [|y t IH]; intros x H.
  - apply Forall_cons in H as [Hx _]. exact Hx.
  - apply Forall_cons in H as [_ Ht].
    rewrite join_cons_cons. do 2 apply ends_solid_app. apply IH. exact Ht.
Qed.

Lemma join_head (sep : string) (c : ascii) (s : string) (t : list string) :
  ∃ r, Py.join sep (String c s :: t) = String c r.
Proof.
  destruct t as [|y t]; [exists s; reflexivity|].
  rewrite join_cons_cons, app_String. eauto.
Qed.

Lemma replace_char_join (old new : ascii) (ps : list string) :
  Forall (λ p, Chars.all_chars (λ c, negb (Ascii.eqb c old)) p = true) ps →
  Py.replace_char old new (Py.join (String old "") ps)
  = Py.join (String new "") ps.
Proof.
  induction 1 as [|x t Hx Ht IH]; [reflexivity|].
  destruct t as [|y t]; [apply replace_char_absent; exact Hx|].
  rewrite !join_cons_cons, !replace_char_app, IH.
  rewrite (replace_char_absent _ _ _ Hx). simpl.
  rewrite Ascii.eqb_refl. reflexivity.
Qed.

Lemma str_pieces (P : ascii → bool) (l : list Z) :
  (∀ c, Chars.is_int_char c = true → P c = true) →
  Forall (λ p, Chars.all_chars P p = true) (Py.str <$> l).
Proof.
  intros HP. apply Forall_fmap, Forall_true. intros n. simpl.
  eapply all_chars_impl; [exact HP|apply str_chars].
Qed.

Lemma str_pieces_no (a : ascii) (l : list Z) :
  Chars.is_int_char a = false →
  Forall (λ p, Chars.all_chars (λ c, negb (Ascii.eqb c a)) p = true) (Py.str <$> l).
Proof.
  intros Ha. apply str_pieces. intros c Hc.
  destruct (Ascii.eqb_spec c a) as [->|]; [congruence|reflexivity].
Qed.

(** A non-empty list rendered with a separator that is a comma or a line
    feed is left alone by [strip] and does not start with a bracket. *)
Lemma joined_solid (sep : ascii) (x : Z) (t : list Z) :
  ∃ c r, Py.join (String sep "") (Py.str <$> (x :: t)) = String c r ∧
         Chars.is_int_char c = true ∧
         Py.strip (String c r) = String c r.
Proof.
  rewrite fmap_cons.
  destruct (str_head x) as (c & s & Hs & Hc). rewrite Hs.
  destruct (join_head (String sep "") c s (Py.str <$> t)) as [r Hr].
  exists c, r. split; [exact Hr|]. split; [exact Hc|].
  apply strip_solid; [apply is_int_char_facts; exact Hc|].
  rewrite <- Hr, <- Hs. apply join_ends_solid.
  apply Forall_cons. split; [apply str_ends_solid|].
  apply Forall_fmap, Forall_true. intros n. apply str_ends_solid.
Qed.

Lemma startswith_bracket (c : ascii) (r : string) :
  Chars.is_int_char c = true → Py.startswith (String c r) "[" = false.
Proof.
  destruct c as [[] [] [] [] [] [] [] []]; intros H;
    first [discriminate H | reflexivity].
Qed.

Lemma comma_separated_no_newline (l : list Z) :
  Py.replace_char "010" "," (Sequencing.comma_separated l)
  = Sequencing.comma_separated l.
Proof.
  apply replace_char_absent. apply join_chars; [reflexivity|].
  apply str_pieces_no. reflexivity.
Qed.

Lemma beats_clean_comma (l : list Z) :
  Sequencing.beats_clean (Sequencing.comma_separated l)
  = Sequencing.comma_separated l.
Proof.
  destruct l as [|x t]; [reflexivity|].
  unfold Sequencing.beats_clean.
  destruct (joined_solid "," x t) as (c & r & Hj & Hc & Hs).
  unfold Sequencing.comma_separated. rewrite Hj, Hs.
  rewrite (startswith_bracket _ _ Hc). simpl andb. cbn match.
  rewrite <- Hj. apply comma_separated_no_newline.
Qed.

Lemma beats_clean_lines (l : list Z) :
  Sequencing.beats_clean (Sequencing.one_per_line l)
  = Sequencing.comma_separated l.
Proof.
  destruct l as [|x t]; [reflexivity|].
  unfold Sequencing.beats_clean.
  destruct (joined_solid "010" x t) as (c & r & Hj & Hc & Hs).
  unfold Sequencing.one_per_line. rewrite Hj, Hs.
  rewrite (startswith_bracket _ _ Hc). simpl andb. cbn match.
  rewrite <- Hj. apply replace_char_join.
  apply str_pieces_no. reflexivity.
Qed.

Lemma beats_clean_array (l : list Z) :
  Sequencing.beats_clean (Sequencing.array_format l)
  = Sequencing.comma_separated l.
Proof.
  unfold Sequencing.beats_clean, Sequencing.array_format.
  set (body := Sequencing.comma_separated l).
  assert (Hs : Py.strip ("[" +:+ body +:+ "]") = "[" +:+ body +:+ "]").
  { rewrite app_String, app_empty_l. apply strip_solid; [reflexivity|].
    change (String "[" (body +:+ "]")) with ("[" +:+ (body +:+ "]")).
    do 2 apply ends_solid_app. reflexivity. }
  rewrite Hs.
  assert (He : Py.endswith ("[" +:+ body +:+ "]") "]" = true).
  { rewrite <- app_assoc_str. apply endswith_app. }
  rewrite He. rewrite app_String, app_empty_l.
  cbn [Py.startswith Ascii.eqb Bool.eqb andb]. unfold Py.slice_1_m1.
  rewrite drop_last_app. apply comma_separated_no_newline.
Qed.

Lemma filter_all {A : Type} (f : A → bool) (l : list A) :
  Forall (λ x, f x = true) l → List.filter f l = l.
Proof.
  induction 1 as [|x l Hx Hl IH]; simpl; [reflexivity|].
  rewrite Hx, IH. reflexivity.
Qed.

(** Every notation is read back as the list it renders. *)
Lemma beat_items_of_clean (beats : string) (l : list Z) :
  Sequencing.beats_clean beats = Sequencing.comma_separated l →
  Sequencing.beat_items beats = Some l.
Proof.
  intros H. unfold Sequencing.beat_items. rewrite H.
  destruct l as [|x t]; [reflexivity|].
  unfold Sequencing.comma_separated.
  rewrite fmap_cons, split_join
    by (rewrite <- fmap_cons; apply str_pieces_no; reflexivity).
  rewrite <- fmap_cons, filter_all.
  - apply mapM_fmap_Some. intros n. rewrite strip_str. apply int_str.
  - apply Forall_fmap, Forall_true. intros n. simpl. rewrite strip_str.
    destruct (str_head n) as (c & s & -> & _). reflexivity.
Qed.

Lemma beat_items_notations (l : list Z) :
  Sequencing.beat_items (Sequencing.comma_separated l) = Some l ∧
  Sequencing.beat_items (Sequencing.one_per_line l) = Some l ∧
  Sequencing.beat_items (Sequencing.array_format l) = Some l.
Proof.
  repeat split; apply beat_items_of_clean.
  - apply beats_clean_comma.
  - apply beats_clean_lines.
  - apply beats_clean_array.
Qed.

(** C2.  The comma-separated, the one-per-line and the bracketed rendering
    of a list of integers give the same outputs at every step; each is read
    back as the list itself. *)
Theorem beat_notations_interchangeable (l : list Z) (step : Z) :
  Sequencing.calculate_sequence_shot step (Sequencing.one_per_line l)
  = Sequencing.calculate_sequence_shot step (Sequencing.comma_separated l) ∧
  Sequencing.calculate_sequence_shot step (Sequencing.array_format l)
  = Sequencing.calculate_sequence_shot step (Sequencing.comma_separated l) ∧
  Sequencing.parse_beats (Sequencing.comma_separated l) = Sequencing.sorted l.
Proof.
  destruct (beat_items_notations l) as (Hc & Hl & Ha).
  unfold Sequencing.calculate_sequence_shot.
  rewrite (parse_beats_items _ _ Hc), (parse_beats_items _ _ Hl),
    (parse_beats_items _ _ Ha).
  repeat split.
Qed.

Example notations_example :
  Sequencing.comma_separated [3; 8; 15] = "3,8,15" ∧
  Sequencing.one_per_line [3; 8; 15] = "3
8
15" ∧
  Sequencing.array_format [3; 8; 15] = "[3,8,15]".
Proof. repeat split; reflexivity. Qed.

(** *** The story driver *)

Lemma run_calls_counter (p : string) (cs : list Sequencing.call) :
  ∀ (_steps : gmap string Z) (v : Z),
  _steps !! p = Some v →
  forallb (λ c, negb (Sequencing.is_reset_of p c)) cs = true →
  Sequencing.run_calls _steps cs !! p
  = Some (v + Z.of_nat (length (List.filter (Sequencing.is_execute_of p) cs))).
Proof.
  induction cs as [|c cs IH]; intros _steps v Hv Hno; simpl.
  - rewrite Hv. f_equal. lia.
  - simpl in Hno. apply andb_true_iff in Hno as [Hc Hno].
    destruct c as [q seed r|q]; simpl in *.
    + destruct (String.eqb_spec p q) as [<-|Hne]; simpl.
      * rewrite (IH _ (v + 1)); [f_equal; lia| |exact Hno].
        rewrite Hv. simpl. apply lookup_insert_eq.
      * rewrite (IH _ v); [reflexivity| |exact Hno].
        rewrite lookup_insert_ne by congruence. exact Hv.
    + destruct (String.eqb_spec p q) as [<-|Hne]; [discriminate|].
      rewrite (IH _ v); [reflexivity| |exact Hno].
      unfold Sequencing.reset_project. rewrite lookup_insert_ne by congruence.
      exact Hv.
Qed.

(** C5.  [execute] returns the value stored for the project name (0 when
    there is none) and stores that value plus one; [step_str] is its decimal
    rendering; [reset_project] stores 0; and the k-th [execute] for a project
    after its reset, whatever is called for other projects in between,
    returns [k - 1]. *)
Theorem story_driver_counter (_steps : gmap string Z) (projectName : string)
    (storySeed : Z) (randomize_seed_on_reset : bool) :
  let out := Sequencing.execute _steps projectName storySeed randomize_seed_on_reset in
  let step := Sequencing.step_int (Sequencing.result out.2) in
  step = default 0 (_steps !! projectName) ∧
  out.1 !! projectName = Some (step + 1) ∧
  Sequencing.step_str (Sequencing.result out.2) = Py.str step ∧
  Sequencing.reset_project _steps projectName !! projectName = Some 0 ∧
  ∀ (cs : list Sequencing.call) (k : Z),
    forallb (λ c, negb (Sequencing.is_reset_of projectName c)) cs = true →
    Z.of_nat (length (List.filter (Sequencing.is_execute_of projectName) cs)) = k - 1 →
    Sequencing.step_int (Sequencing.result
      (Sequencing.execute
         (Sequencing.run_calls (Sequencing.reset_project _steps projectName) cs)
         projectName storySeed randomize_seed_on_reset).2) = k - 1.
Proof.
  simpl. repeat split.
  - apply lookup_insert_eq.
  - apply lookup_insert_eq.
  - intros cs k Hno Hk.
    rewrite (run_calls_counter projectName cs _ 0); [simpl; lia| |exact Hno].
    apply lookup_insert_eq.
Qed.

Lemma story_driver_counter_witness :
  Sequencing.step_int (Sequencing.result
    (Sequencing.execute
       (Sequencing.run_calls (Sequencing.reset_project {[ "MyProject" := 7 ]} "MyProject")
          [Sequencing.Execute "MyProject" 1 true;
           Sequencing.Execute "Other" 2 false;
           Sequencing.Reset "Other";
           Sequencing.Execute "MyProject" 3 true])
       "MyProject" 4 true).2) = 3 - 1.
Proof.
  apply (story_driver_counter {[ "MyProject" := 7 ]} "MyProject" 4 true); reflexivity.
Defined.

(** *** The graph plotter store *)

Lemma lookup_store_eq (key : string) (v : Json.json)
    (items : list (string * Json.json)) :
  Json.lookup key (Json.store key v items) = Some v.
Proof.
  induction items as [|[k x] items IH]; simpl.
  - rewrite String.eqb_refl. reflexivity.
  - destruct (String.eqb k key) eqn:E; simpl; rewrite E; [reflexivity|exact IH].
Qed.

Lemma lookup_store_ne (key other : string) (v : Json.json)
    (items : list (string * Json.json)) :
  key ≠ other →
  Json.lookup other (Json.store key v items) = Json.lookup other items.
Proof.
  intros Hne. induction items as [|[k x] items IH]; simpl.
  - destruct (String.eqb_spec key other); [contradiction|reflexivity].
  - destruct (String.eqb_spec k key) as [->|Hk]; simpl.
    + destruct (String.eqb_spec key other); [contradiction|reflexivity].
    + destruct (String.eqb k other); [reflexivity|exact IH].
Qed.

Lemma store_store (key : string) (u v : Json.json)
    (items : list (string * Json.json)) :
  Json.store key v (Json.store key u items) = Json.store key v items.
Proof.
  induction items as [|[k x] items IH]; simpl.
  - rewrite String.eqb_refl. reflexivity.
  - destruct (String.eqb k key) eqn:E; simpl; rewrite E; [reflexivity|].
    rewrite IH. reflexivity.
Qed.

Lemma holds_read (file : Visualization.state_file)
    (items : list (string * Json.json)) :
  Visualization.holds file items →
  Visualization._read_graph_state file = Json.JObj items.
Proof. intros [-> | [[-> | ->] ->]]; reflexivity. Qed.

Lemma read_holds (file : Visualization.state_file)
    (items : list (string * Json.json)) :
  Visualization._read_graph_state file = Json.JObj items →
  Visualization.holds file items.
Proof.
  destruct file as [| |state]; simpl.
  - intros [= <-]. right. split; [left|]; reflexivity.
  - intros [= <-]. right. split; [right|]; reflexivity.
  - intros ->. left. reflexivity.
Qed.

(** One step of the operations on JSON values. *)
Ltac run_json :=
  cbn [negb Json.contains Json.getitem Json.setitem Json.dict_key Json.len
       Json.append mbind outcome_bind mret outcome_ret].

(** A call of [plot_graph] on a dictionary whose entry for the node holds
    two lists: the entry gets one more point and the rest of the dictionary
    is written back as read. *)
Lemma plot_graph_returns (Y : Z) (unique_id : option string)
    (w : Visualization.write_result) (file : Visualization.state_file)
    (items entry : list (string * Json.json)) (xs ys : list Json.json) :
  let N := Visualization.node_id_of unique_id in
  let xs' := (xs ++ [Json.JInt (Z.of_nat (length xs) + 1)])%list in
  let ys' := (ys ++ [Json.JInt Y])%list in
  let new := Json.JObj (Json.store "y_data" (Json.JArr ys')
                          (Json.store "x_data" (Json.JArr xs') entry)) in
  Visualization._read_graph_state file = Json.JObj items →
  Visualization.plottable items N entry xs ys →
  Visualization.plot_graph Y unique_id w file
  = Returns (Visualization._write_graph_state w
               (Json.JObj (Json.store N new items)) file,
             {| Visualization.x_values := Json.JArr xs';
                Visualization.y_values := Json.JArr ys';
                Visualization.node_id := N;
                Visualization.point_count := Z.of_nat (length xs) + 1 |}).
Proof.
  intros N xs' ys' new Hread (Hentry & Hx & Hy).
  assert (Hlen : Z.of_nat (length xs') = Z.of_nat (length xs) + 1).
  { subst xs'. rewrite length_app. simpl. lia. }
  assert (Hy1 : Json.lookup "y_data"
                  (Json.store "x_data" (Json.JArr xs') entry)
                = Some (Json.JArr ys)).
  { rewrite lookup_store_ne by discriminate. exact Hy. }
  assert (Hx2 : Json.lookup "x_data"
                  (Json.store "y_data" (Json.JArr ys')
                     (Json.store "x_data" (Json.JArr xs') entry))
                = Some (Json.JArr xs')).
  { rewrite lookup_store_ne by discriminate. apply lookup_store_eq. }
  unfold Visualization.plot_graph. fold N. rewrite Hread. run_json.
  destruct (Json.lookup N items) as [d|] eqn:Hd.
  - simpl in Hentry. subst d. run_json. rewrite Hd. run_json.
    rewrite Hx. run_json. fold xs'. rewrite Hy1. run_json. fold ys'.
    rewrite Hx2, lookup_store_eq. run_json. rewrite Hlen. reflexivity.
  - simpl in Hentry. injection Hentry as <-.
    injection Hx as <-. injection Hy as <-. run_json.
    rewrite lookup_store_eq. unfold Visualization.empty_node.
    simpl. rewrite store_store. reflexivity.
Qed.

(** A call of [plot_graph] raises when the file holds something else. *)
Lemma plot_graph_raises (Y : Z) (unique_id : option string)
    (w : Visualization.write_result) (file : Visualization.state_file) :
  (∀ items entry xs ys,
     Visualization._read_graph_state file = Json.JObj items →
     ¬ Visualization.plottable items (Visualization.node_id_of unique_id)
         entry xs ys) →
  ∃ e, Visualization.plot_graph Y unique_id w file = Raises e.
Proof.
  intros H. unfold Visualization.plot_graph.
  set (N := Visualization.node_id_of unique_id) in *.
  destruct (Visualization._read_graph_state file) as [| | | | |l|items] eqn:E;
    run_json; try (eexists; reflexivity).
  - destruct (Py.contains s N); run_json; eexists; reflexivity.
  - destruct (existsb _ l); run_json; eexists; reflexivity.
  - specialize (H items).
    destruct (Json.lookup N items) as [d|] eqn:Hd; run_json.
    2: { exfalso.
         apply (H [("x_data", Json.JArr []); ("y_data", Json.JArr [])] [] []
                  eq_refl).
         unfold Visualization.plottable.
         rewrite Hd. repeat split. }
    rewrite Hd. run_json.
    destruct d as [| | | | | |entry]; run_json; try (eexists; reflexivity).
    destruct (Json.lookup "x_data" entry) as [x|] eqn:Hx; run_json;
      [|eexists; reflexivity].
    destruct x as [| | | | |xs|]; run_json; try (eexists; reflexivity).
    rewrite lookup_store_ne by discriminate.
    destruct (Json.lookup "y_data" entry) as [y|] eqn:Hy; run_json;
      [|eexists; reflexivity].
    destruct y as [| | | | |ys|]; run_json; try (eexists; reflexivity).
    exfalso. apply (H entry xs ys eq_refl). unfold Visualization.plottable.
    rewrite Hd. repeat split; assumption.
Qed.

Lemma reset_node_data_returns (node_id : Json.json)
    (w : Visualization.write_result) (file : Visualization.state_file)
    (items : list (string * Json.json)) (key : string) :
  Visualization._read_graph_state file = Json.JObj items →
  Json.dict_key node_id = Returns key →
  Visualization.reset_node_data node_id w file
  = Returns (Visualization._write_graph_state w
               (Json.JObj (Json.store key Visualization.empty_node items)) file).
Proof.
  intros Hread Hkey. unfold Visualization.reset_node_data.
  rewrite Hread. run_json. rewrite Hkey. reflexivity.
Qed.

Lemma lookup_elem_of (key : string) (d : Json.json)
    (items : list (string * Json.json)) :
  Json.lookup key items = Some d → (key, d) ∈ items.
Proof.
  induction items as [|[k x] items IH]; simpl; [discriminate|].
  destruct (String.eqb_spec k key) as [->|Hk].
  - intros [= ->]. apply list_elem_of_here.
  - intros H. apply list_elem_of_further, IH, H.
Qed.

Lemma elem_of_store (key k : string) (v d : Json.json)
    (items : list (string * Json.json)) :
  (k, d) ∈ Json.store key v items → (k, d) = (key, v) ∨ (k, d) ∈ items.
Proof.
  induction items as [|[k0 x] items IH]; simpl.
  - intros H. apply list_elem_of_singleton in H. left. exact H.
  - destruct (String.eqb_spec k0 key) as [->|Hk]; intros H;
      apply elem_of_cons in H as [H|H].
    + left. exact H.
    + right. apply list_elem_of_further, H.
    + right. rewrite H. apply list_elem_of_here.
    + destruct (IH H) as [Heq|Hin]; [left; exact Heq|].
      right. apply list_elem_of_further, Hin.
Qed.

Lemma parallel_empty : Visualization.parallel Visualization.empty_node.
Proof. exists [], []. repeat split. Qed.

(** The entry written for an entry that holds integers. *)
Lemma node_data_append (xs ys : list Z) (Y : Z) :
  Json.JObj
    [("x_data",
      Json.JArr ((Json.JInt <$> xs)
                 ++ [Json.JInt (Z.of_nat (length (Json.JInt <$> xs)) + 1)]));
     ("y_data", Json.JArr ((Json.JInt <$> ys) ++ [Json.JInt Y]))]
  = Visualization.node_data (xs ++ [Z.of_nat (length xs) + 1]) (ys ++ [Y]).
Proof.
  unfold Visualization.node_data. rewrite !fmap_app, length_fmap. reflexivity.
Qed.

Lemma JInt_fmap_inj (xs ys : list Z) :
  Json.JInt <$> xs = Json.JInt <$> ys → xs = ys.
Proof.
  revert ys. induction xs as [|x xs IH]; intros [|y ys]; simpl;
    try discriminate; [reflexivity|].
  intros [= -> H]. rewrite (IH _ H). reflexivity.
Qed.

Lemma parallel_append (xs ys : list Z) (Y : Z) :
  Visualization.parallel (Visualization.node_data xs ys) →
  Visualization.parallel
    (Visualization.node_data (xs ++ [Z.of_nat (length xs) + 1]) (ys ++ [Y])).
Proof.
  intros (xs0 & ys0 & Heq & Hlen & Hx).
  unfold Visualization.node_data in Heq.
  injection Heq as Hxs Hys.
  apply JInt_fmap_inj in Hxs, Hys. subst xs0 ys0.
  exists (xs ++ [Z.of_nat (length xs) + 1])%list, (ys ++ [Y])%list.
  split; [reflexivity|]. split.
  - rewrite !length_app, Hlen. reflexivity.
  - unfold Visualization.len in *. rewrite length_app. simpl.
    replace (length xs + 1)%nat with (S (length xs)) by lia.
    rewrite seqZ_S, <- Hx. f_equal. f_equal. lia.
Qed.

(** An entry that satisfies the invariant can be plotted on. *)
Lemma parallel_plottable (items : list (string * Json.json)) (N : string) :
  Visualization.parallel
    (default Visualization.empty_node (Json.lookup N items)) →
  ∃ xs ys : list Z,
    default Visualization.empty_node (Json.lookup N items)
    = Visualization.node_data xs ys ∧
    Visualization.plottable items N
      [("x_data", Json.JArr (Json.JInt <$> xs));
       ("y_data", Json.JArr (Json.JInt <$> ys))]
      (Json.JInt <$> xs) (Json.JInt <$> ys).
Proof.
  intros (xs & ys & Heq & _). exists xs, ys. split; [exact Heq|].
  unfold Visualization.plottable. rewrite Heq. repeat split.
Qed.

(** The invariant of the file, for every state that can be reached. *)
Lemma reachable_parallel (file : Visualization.state_file) :
  Visualization.reachable file →
  ∃ items,
    Visualization._read_graph_state file = Json.JObj items ∧
    ∀ key d, (key, d) ∈ items → Visualization.parallel d.
Proof.
  induction 1 as [|file Y unique_id w file' ui Hr (items & Hread & IH) Hp
                  |file node_id w file' Hr (items & Hread & IH) Hreset].
  - exists []. split; [reflexivity|]. intros key d Hin.
    apply elem_of_nil in Hin. destruct Hin.
  - set (N := Visualization.node_id_of unique_id) in *.
    assert (Hold : Visualization.parallel
                     (default Visualization.empty_node (Json.lookup N items))).
    { destruct (Json.lookup N items) as [d|] eqn:Hd; simpl.
      - exact (IH _ _ (lookup_elem_of _ _ _ Hd)).
      - apply parallel_empty. }
    destruct (parallel_plottable _ _ Hold) as (xs & ys & Heq & Hplot).
    rewrite (plot_graph_returns Y unique_id w file _ _ _ _ Hread Hplot) in Hp.
    injection Hp as <- _.
    rewrite node_data_append. fold N.
    destruct w; simpl.
    + eexists. split; [reflexivity|]. intros key d Hin.
      apply elem_of_store in Hin as [[= -> ->]|Hin]; [|exact (IH _ _ Hin)].
      apply parallel_append. rewrite <- Heq. exact Hold.
    + exists items. split; [exact Hread|exact IH].
    + exists []. split; [reflexivity|]. intros key d Hin.
      apply elem_of_nil in Hin. destruct Hin.
  - unfold Visualization.reset_node_data in Hreset. rewrite Hread in Hreset.
    cbn [Json.setitem mbind outcome_bind] in Hreset.
    destruct (Json.dict_key node_id) as [key0|e]; [|discriminate Hreset].
    cbn [mbind outcome_bind mret outcome_ret] in Hreset.
    injection Hreset as <-. destruct w; simpl.
    + eexists. split; [reflexivity|]. intros key d Hin.
      apply elem_of_store in Hin as [[= -> ->]|Hin]; [|exact (IH _ _ Hin)].
      apply parallel_empty.
    + exists items. split; [exact Hread|exact IH].
    + exists []. split; [reflexivity|]. intros key d Hin.
      apply elem_of_nil in Hin. destruct Hin.
Qed.

(** C3.  In every state of the file reached from no file at all by calls of
    [plot_graph] and [reset_node_data], whatever happens to their writes,
    the file holds a dictionary and each of its entries holds two lists of
    integers of the same length, the first being [1, 2, ..., n]. *)
Theorem graph_state_parallel (file : Visualization.state_file) :
  Visualization.reachable file →
  ∃ items,
    Visualization.holds file items ∧
    ∀ (node_id : string) (d : Json.json),
      (node_id, d) ∈ items →
      ∃ xs ys : list Z,
        d = Json.JObj [("x_data", Json.JArr (Json.JInt <$> xs));
                       ("y_data", Json.JArr (Json.JInt <$> ys))] ∧
        length xs = length ys ∧
        xs = seqZ 1 (Z.of_nat (length xs)).
Proof.
  intros Hr. destruct (reachable_parallel file Hr) as (items & Hread & IH).
  exists items. split; [exact (read_holds _ _ Hread)|]. intros node_id d Hin.
  exact (IH node_id d Hin).
Qed.

Lemma graph_state_parallel_witness :
  ∃ items,
    Visualization.holds
      (Visualization.Stored
         (Json.JObj [("7", Visualization.node_data [1; 2] [40; -3])]))
      items ∧
    ∀ (node_id : string) (d : Json.json),
      (node_id, d) ∈ items →
      ∃ xs ys : list Z,
        d = Json.JObj [("x_data", Json.JArr (Json.JInt <$> xs));
                       ("y_data", Json.JArr (Json.JInt <$> ys))] ∧
        length xs = length ys ∧
        xs = seqZ 1 (Z.of_nat (length xs)).
Proof.
  apply (graph_state_parallel
           (Visualization.Stored
              (Json.JObj [("7", Visualization.node_data [1; 2] [40; -3])]))).
  eapply (Visualization.reachable_plot _ (-3) (Some "7") Visualization.Written);
    [eapply (Visualization.reachable_plot _ 12 (Some "7")
               Visualization.OpenFailed);
       [eapply (Visualization.reachable_plot _ 40 (Some "7")
                  Visualization.Written);
          [eapply (Visualization.reachable_reset _ (Json.JStr "7")
                     Visualization.Written);
             [eapply (Visualization.reachable_plot _ 9 (Some "7")
                        Visualization.Written);
                [apply Visualization.reachable_start | reflexivity]
             | reflexivity]
          | reflexivity]
       | reflexivity]
    | reflexivity].
Defined.

(** Not every call of [plot_graph] returns with the value plotted at the
    end of the list the file holds for the node.  The calls after which the
    state is not the prior state with one point appended: the file cannot be
    opened for writing and stays as it was; the dump stops half-way and the
    file no longer reads as a dictionary with points; the file holds a list,
    or an entry that is no dictionary, or an entry whose [x_data] is no
    list, and the call raises. *)
Lemma plot_graph_not_appended :
  let file := Visualization.Stored
                (Json.JObj [("7", Visualization.node_data [1] [9])]) in
  ¬ (∀ (Y : Z) (unique_id : option string) (w : Visualization.write_result)
       (file : Visualization.state_file),
       ∃ file' ui after new ys,
         Visualization.plot_graph Y unique_id w file = Returns (file', ui) ∧
         Visualization.holds file' after ∧
         Json.lookup (Visualization.node_id_of unique_id) after
         = Some (Json.JObj new) ∧
         Json.lookup "y_data" new
         = Some (Json.JArr (ys ++ [Json.JInt Y]))) ∧
  (∃ ui, Visualization.plot_graph 5 (Some "7") Visualization.OpenFailed file
         = Returns (file, ui)) ∧
  (∃ ui, Visualization.plot_graph 5 (Some "7") Visualization.WriteFailed file
         = Returns (Visualization.Corrupt, ui)) ∧
  (∃ e, Visualization.plot_graph 5 (Some "7") Visualization.Written
          (Visualization.Stored (Json.JArr [])) = Raises e) ∧
  (∃ e, Visualization.plot_graph 5 (Some "7") Visualization.Written
          (Visualization.Stored (Json.JObj [("7", Json.JInt 3)])) = Raises e) ∧
  (∃ e, Visualization.plot_graph 5 (Some "7") Visualization.Written
          (Visualization.Stored
             (Json.JObj [("7", Json.JObj [("x_data", Json.JStr "ab");
                                          ("y_data", Json.JArr [])])]))
        = Raises e).
Proof.
  intros file. split.
  { intros H.
    destruct (H 5 (Some "7") Visualization.OpenFailed file)
      as (file' & ui & after & new & ys & Hcall & Hholds & Hnew & Hy).
    injection Hcall as <- _.
    destruct Hholds as [[= <-]|[[Hf|Hf] _]]; try discriminate Hf.
    injection Hnew as <-. injection Hy as Hy.
    destruct ys as [|y [|y' ys]]; discriminate Hy. }
  split; [eexists; reflexivity|]. split; [eexists; reflexivity|].
  split; [|split]; eexists; reflexivity.
Qed.

(** C4, amended.  A call [plot_graph(Y)] for node [N], made when the file is
    absent or unreadable or holds a dictionary in which the entry of [N], a
    fresh one when there is none, is a dictionary whose [x_data] and
    [y_data] are lists, returns.  When its write succeeds the dictionary
    written is the one read with the point [(len(x_data) + 1, Y)] appended
    to the two lists of [N]: the points already stored for [N] keep their
    positions and values, the other keys of the entry and every other entry
    are unchanged.  When its write fails the file is as it was, or
    unreadable.  Made when the file holds anything else, the call raises. *)
Theorem plot_graph_appends (Y : Z) (unique_id : option string)
    (file : Visualization.state_file) :
  let N := Visualization.node_id_of unique_id in
  (∀ (items entry : list (string * Json.json)) (xs ys : list Json.json),
     Visualization.holds file items →
     default Visualization.empty_node (Json.lookup N items) = Json.JObj entry →
     Json.lookup "x_data" entry = Some (Json.JArr xs) →
     Json.lookup "y_data" entry = Some (Json.JArr ys) →
     let xs' := (xs ++ [Json.JInt (Z.of_nat (length xs) + 1)])%list in
     let ys' := (ys ++ [Json.JInt Y])%list in
     ∃ after new ui,
       Visualization.plot_graph Y unique_id Visualization.Written file
       = Returns (Visualization.Stored (Json.JObj after), ui) ∧
       Visualization.plot_graph Y unique_id Visualization.OpenFailed file
       = Returns (file, ui) ∧
       Visualization.plot_graph Y unique_id Visualization.WriteFailed file
       = Returns (Visualization.Corrupt, ui) ∧
       Json.lookup N after = Some (Json.JObj new) ∧
       Json.lookup "x_data" new = Some (Json.JArr xs') ∧
       Json.lookup "y_data" new = Some (Json.JArr ys') ∧
       (∀ i x, xs !! i = Some x → xs' !! i = Some x) ∧
       (∀ i y, ys !! i = Some y → ys' !! i = Some y) ∧
       (∀ key, key ≠ "x_data" → key ≠ "y_data" →
               Json.lookup key new = Json.lookup key entry) ∧
       (∀ M, M ≠ N → Json.lookup M after = Json.lookup M items)) ∧
  ((∀ (items entry : list (string * Json.json)) (xs ys : list Json.json),
      Visualization.holds file items →
      ¬ (default Visualization.empty_node (Json.lookup N items)
         = Json.JObj entry ∧
         Json.lookup "x_data" entry = Some (Json.JArr xs) ∧
         Json.lookup "y_data" entry = Some (Json.JArr ys))) →
   ∀ w, ∃ e, Visualization.plot_graph Y unique_id w file = Raises e).
Proof.
  intros N. split.
  - intros items entry xs ys Hread%holds_read Hentry Hx Hy xs' ys'.
    assert (Hplot : Visualization.plottable items N entry xs ys)
      by (repeat split; assumption).
    eexists _, _, _.
    rewrite !(plot_graph_returns Y unique_id _ file _ _ _ _ Hread Hplot).
    cbn [Visualization._write_graph_state]. fold N xs' ys'.
    split; [reflexivity|]. split; [reflexivity|]. split; [reflexivity|].
    split; [apply lookup_store_eq|].
    split; [rewrite lookup_store_ne by discriminate; apply lookup_store_eq|].
    split; [apply lookup_store_eq|].
    split; [intros i x Hi; apply lookup_app_l_Some; exact Hi|].
    split; [intros i y Hi; apply lookup_app_l_Some; exact Hi|].
    split.
    + intros key Hkx Hky. rewrite !lookup_store_ne by congruence. reflexivity.
    + intros M HM. apply lookup_store_ne. congruence.
  - intros H w. apply plot_graph_raises.
    intros items entry xs ys Hread. exact (H _ _ _ _ (read_holds _ _ Hread)).
Qed.

Lemma plot_graph_appends_witness :
  let file := Visualization.Stored
                (Json.JObj [("7", Visualization.node_data [1; 2] [40; -3]);
                            ("8", Visualization.node_data [1] [5])]) in
  ∃ after new ui,
    Visualization.plot_graph 11 (Some "7") Visualization.Written file
    = Returns (Visualization.Stored (Json.JObj after), ui) ∧
    Json.lookup "7" after = Some (Json.JObj new) ∧
    Json.lookup "x_data" new
    = Some (Json.JArr [Json.JInt 1; Json.JInt 2; Json.JInt 3]) ∧
    Json.lookup "y_data" new
    = Some (Json.JArr [Json.JInt 40; Json.JInt (-3); Json.JInt 11]) ∧
    Json.lookup "8" after = Some (Visualization.node_data [1] [5]).
Proof.
  intros file.
  destruct (plot_graph_appends 11 (Some "7") file) as [Hdict _].
  destruct (Hdict [("7", Visualization.node_data [1; 2] [40; -3]);
                   ("8", Visualization.node_data [1] [5])]
                  [("x_data", Json.JArr [Json.JInt 1; Json.JInt 2]);
                   ("y_data", Json.JArr [Json.JInt 40; Json.JInt (-3)])]
                  [Json.JInt 1; Json.JInt 2] [Json.JInt 40; Json.JInt (-3)]
                  (or_introl eq_refl) eq_refl eq_refl eq_refl)
    as (after & new & ui & Hcall & _ & _ & Hnew & Hx & Hy & _ & _ & _ & Hother).
  exists after, new, ui. split; [exact Hcall|]. split; [exact Hnew|].
  split; [exact Hx|]. split; [exact Hy|].
  rewrite (Hother "8"); [reflexivity|discriminate].
Defined.

(** *** The reset route *)

(** Not every request with a [node_id] is answered with a success, and not
    every JSON body without one with status 400.  The requests that are
    answered otherwise: a non-empty list as [node_id] passes
    the check of the route but cannot be a dictionary key; a body that is a
    list has no [node_id] and is answered with 500; after a write that fails
    the response is a success and the entry is as it was; a state file that
    holds a list cannot take the entry. *)
Lemma reset_graph_plotter_not_served :
  ¬ (∀ (items : list (string * Json.json)) (w : Visualization.write_result)
       (file : Visualization.state_file),
       Json.truthy (Json.get "node_id" items) = true →
       Routes.success
         (Routes.reset_graph_plotter (Returns (Json.JObj items)) w file).2
       = true) ∧
  ¬ (∀ (body : Json.json) (w : Visualization.write_result)
       (file : Visualization.state_file),
       (∀ items, body = Json.JObj items →
                 Json.truthy (Json.get "node_id" items) = false) →
       Routes.status (Routes.reset_graph_plotter (Returns body) w file).2
       = 400) ∧
  Routes.success
    (Routes.reset_graph_plotter
       (Returns (Json.JObj [("node_id", Json.JArr [Json.JInt 1])]))
       Visualization.Written Visualization.Missing).2 = false ∧
  Routes.status
    (Routes.reset_graph_plotter (Returns (Json.JArr []))
       Visualization.Written Visualization.Missing).2 = 500 ∧
  (let file := Visualization.Stored
                 (Json.JObj [("7", Visualization.node_data [1] [5])]) in
   let out := Routes.reset_graph_plotter
                (Returns (Json.JObj [("node_id", Json.JStr "7")]))
                Visualization.OpenFailed file in
   Routes.success out.2 = true ∧ out.1 = file) ∧
  Routes.success
    (Routes.reset_graph_plotter
       (Returns (Json.JObj [("node_id", Json.JStr "7")]))
       Visualization.Written (Visualization.Stored (Json.JArr []))).2 = false.
Proof.
  split; [|split].
  - intros H.
    specialize (H [("node_id", Json.JArr [Json.JInt 1])]
                  Visualization.Written Visualization.Missing eq_refl).
    discriminate H.
  - intros H.
    specialize (H (Json.JArr []) Visualization.Written Visualization.Missing).
    assert (Hno : ∀ items, Json.JArr [] = Json.JObj items →
                           Json.truthy (Json.get "node_id" items) = false)
      by (intros items Heq; discriminate Heq).
    specialize (H Hno). discriminate H.
  - repeat split.
Qed.

(** C7, amended.  For a request whose body is a JSON object: without a
    [node_id], or with an empty one, the response has status 400 and
    [success == false] and the file is left as it was.  With a [node_id]
    that is a non-empty string, a number other than zero or [true], sent
    when the state file is absent or unreadable or holds a dictionary, the
    response has [success == true]; when the write succeeds the entry of
    that node is two empty lists and every other entry is unchanged, when it
    fails the file is as it was, or unreadable.  With a [node_id] that is a
    non-empty list or object, or with a string [node_id] when the state file
    holds something other than a dictionary, the response has status 500
    and [success == false] and the file is left as it was. *)
Theorem reset_graph_plotter_spec (items : list (string * Json.json))
    (w : Visualization.write_result) (file : Visualization.state_file) :
  let node_id := Json.get "node_id" items in
  let out := Routes.reset_graph_plotter (Returns (Json.JObj items)) w file in
  (Json.truthy node_id = false →
   Routes.status out.2 = 400 ∧ Routes.success out.2 = false ∧ out.1 = file) ∧
  (Json.truthy node_id = true →
   ∀ key prior,
     Json.dict_key node_id = Returns key →
     Visualization.holds file prior →
     Routes.status out.2 = 200 ∧ Routes.success out.2 = true ∧
     (w = Visualization.Written →
      ∃ after,
        out.1 = Visualization.Stored (Json.JObj after) ∧
        Json.lookup key after
        = Some (Json.JObj [("x_data", Json.JArr []); ("y_data", Json.JArr [])]) ∧
        ∀ other, other ≠ key → Json.lookup other after = Json.lookup other prior) ∧
     (w = Visualization.OpenFailed → out.1 = file) ∧
     (w = Visualization.WriteFailed → out.1 = Visualization.Corrupt)) ∧
  (Json.truthy node_id = true →
   (∃ e, Json.dict_key node_id = Raises e) ∨
   ((∃ name, node_id = Json.JStr name) ∧
    ∀ prior, ¬ Visualization.holds file prior) →
   Routes.status out.2 = 500 ∧ Routes.success out.2 = false ∧ out.1 = file).
Proof.
  intros node_id out. subst out. unfold Routes.reset_graph_plotter.
  fold node_id. split; [|split].
  - intros ->. repeat split.
  - intros -> key prior Hkey Hread%holds_read.
    rewrite (reset_node_data_returns _ w _ _ _ Hread Hkey).
    cbn [negb fst snd Routes.status Routes.success].
    split; [reflexivity|]. split; [reflexivity|].
    split; [|split]; intros ->; cbn [Visualization._write_graph_state];
      try reflexivity.
    eexists. split; [reflexivity|]. split; [apply lookup_store_eq|].
    intros other Hne. apply lookup_store_ne. congruence.
  - intros -> H. cbn [negb]. unfold Visualization.reset_node_data.
    destruct H as [[e He]|[[name Hname] Hread]].
    + destruct (Visualization._read_graph_state file) as [| | | | |l|prior];
        run_json; try (repeat split; reflexivity).
      * destruct node_id; simpl in He; try discriminate;
          try (destruct b; discriminate); repeat split.
      * rewrite He. repeat split.
    + rewrite Hname.
      destruct (Visualization._read_graph_state file) as [| | | | |l|prior]
        eqn:E; run_json; try (repeat split; reflexivity).
      destruct (Hread prior (read_holds _ _ E)).
Qed.

Lemma reset_graph_plotter_spec_witness :
  let file := Visualization.Stored
                (Json.JObj [("7", Visualization.node_data [1] [5]);
                            ("8", Visualization.node_data [1] [6])]) in
  (let out := Routes.reset_graph_plotter (Returns (Json.JObj []))
                Visualization.Written file in
   Routes.status out.2 = 400 ∧ Routes.success out.2 = false ∧ out.1 = file) ∧
  (let out := Routes.reset_graph_plotter
                (Returns (Json.JObj [("node_id", Json.JFloat "7.5")]))
                Visualization.Written file in
   Routes.status out.2 = 200 ∧ Routes.success out.2 = true ∧
   ∃ after,
     out.1 = Visualization.Stored (Json.JObj after) ∧
     Json.lookup "7.5" after
     = Some (Json.JObj [("x_data", Json.JArr []); ("y_data", Json.JArr [])]) ∧
     Json.lookup "8" after = Some (Visualization.node_data [1] [6])) ∧
  (let out := Routes.reset_graph_plotter
                (Returns (Json.JObj [("node_id", Json.JStr "7")]))
                Visualization.OpenFailed file in
   Routes.success out.2 = true ∧ out.1 = file) ∧
  (let out := Routes.reset_graph_plotter
                (Returns (Json.JObj [("node_id", Json.JArr [Json.JInt 1])]))
                Visualization.Written file in
   Routes.status out.2 = 500 ∧ Routes.success out.2 = false ∧ out.1 = file) ∧
  (let out := Routes.reset_graph_plotter
                (Returns (Json.JObj [("node_id", Json.JStr "7")]))
                Visualization.Written (Visualization.Stored (Json.JInt 3)) in
   Routes.status out.2 = 500 ∧ Routes.success out.2 = false ∧
   out.1 = Visualization.Stored (Json.JInt 3)).
Proof.
  intros file. split; [|split; [|split; [|split]]].
  - destruct (reset_graph_plotter_spec [] Visualization.Written file)
      as (H & _ & _).
    apply H. reflexivity.
  - destruct (reset_graph_plotter_spec [("node_id", Json.JFloat "7.5")]
                Visualization.Written file) as (_ & H & _).
    destruct (H eq_refl "7.5" _ eq_refl (or_introl eq_refl))
      as (Hstatus & Hsuccess & Hwritten & _ & _).
    split; [exact Hstatus|]. split; [exact Hsuccess|].
    destruct (Hwritten eq_refl) as (after & Hout & Hentry & Hother).
    exists after. split; [exact Hout|]. split; [exact Hentry|].
    rewrite (Hother "8"); [reflexivity|discriminate].
  - destruct (reset_graph_plotter_spec [("node_id", Json.JStr "7")]
                Visualization.OpenFailed file) as (_ & H & _).
    destruct (H eq_refl "7" _ eq_refl (or_introl eq_refl))
      as (_ & Hsuccess & _ & Hopen & _).
    split; [exact Hsuccess|]. apply Hopen. reflexivity.
  - destruct (reset_graph_plotter_spec [("node_id", Json.JArr [Json.JInt 1])]
                Visualization.Written file) as (_ & _ & H).
    apply H; [reflexivity|]. left. eexists. reflexivity.
  - destruct (reset_graph_plotter_spec [("node_id", Json.JStr "7")]
                Visualization.Written (Visualization.Stored (Json.JInt 3)))
      as (_ & _ & H).
    apply H; [reflexivity|]. right. split; [eexists; reflexivity|].
    intros prior [Hs|[[Hs|Hs] _]]; discriminate Hs.
Defined.

(** *** Saving and reading data *)

Example splitext_examples :
  Py.splitext "data.json" = ("data", ".json") ∧
  Py.splitext ".json" = (".json", "") ∧
  Py.splitext "dir.d/file" = ("dir.d/file", "") ∧
  Py.splitext "a/.b.c" = ("a/.b", ".c") ∧
  Py.splitext "....json" = ("....json", "") ∧
  Py.splitext "a..JSON" = ("a.", ".JSON").
Proof. repeat split; reflexivity. Qed.

Example clean_markdown_fences_examples :
  DataNodes._clean_markdown_fences " [1, 2] " = "[1, 2]" ∧
  DataNodes._clean_markdown_fences "```json
{}
```" = "{}" ∧
  DataNodes._clean_markdown_fences "```json
{}" = "{}".
Proof. repeat split; reflexivity. Qed.

Lemma rfind_from_app (c : ascii) (s t : string) :
  Chars.all_chars (λ a, negb (Ascii.eqb a c)) t = true →
  ∀ i, 0 ≤ i →
  Py.rfind_from c i (s +:+ String c t) = i + Z.of_nat (String.length s).
Proof.
  intros Ht.
  assert (Hnone : ∀ i, Py.rfind_from c i t = -1).
  { clear s. induction t as [|a t IH]; intros i; simpl; [reflexivity|].
    simpl in Ht. apply andb_true_iff in Ht as [Ha Ht].
    apply negb_true_iff in Ha. rewrite (IH Ht), Ha. reflexivity. }
  induction s as [|a s IH]; intros i Hi.
  - rewrite app_empty_l. simpl. rewrite Hnone, Ascii.eqb_refl. simpl. lia.
  - rewrite app_String. cbn [Py.rfind_from String.length].
    rewrite IH by lia.
    destruct (Z.leb_spec 0 (i + 1 + Z.of_nat (String.length s))); lia.
Qed.

Lemma drop_app_length (s t : string) : Py.drop (String.length s) (s +:+ t) = t.
Proof. induction s as [|a s IH]; [destruct t; reflexivity|exact IH]. Qed.

(** The extension of [f + ".json"] is [json], or nothing when [f] names no
    file (it is empty, or dots only, after the last slash). *)
Lemma extension_json (f : string) :
  DataNodes.extension (f +:+ ".json") = "json" ∨
  DataNodes.extension (f +:+ ".json") = "".
Proof.
  unfold DataNodes.extension, Py.splitext.
  assert (Hdot : Py.rfind (f +:+ ".json") "." = Z.of_nat (String.length f)).
  { unfold Py.rfind. rewrite (rfind_from_app "." f "json"); [lia|reflexivity|lia]. }
  rewrite Hdot, Nat2Z.id, drop_app_length.
  destruct (_ && _); [left|right]; reflexivity.
Qed.

Section data_nodes.
Context `{host : DataNodes.Host}.

Lemma clean_not_fenced (d : string) :
  Py.startswith (Py.strip d) "```" = false →
  DataNodes._clean_markdown_fences d = Py.strip d.
Proof. intros H. unfold DataNodes._clean_markdown_fences. rewrite H. reflexivity. Qed.




Lemma save_data_yaml_missing (data output_path filename : string)
    (fs : gmap string string) :
  DataNodes.HAS_YAML = false →
  DataNodes.makedirs output_path fs = Returns () →
  DataNodes.save_data data output_path filename "yaml" fs
  = (fs, "Error: pyyaml is not installed. Run: pip install pyyaml").
Proof.
  intros Hy Hm. unfold DataNodes.save_data, DataNodes.save_data_try.
  rewrite Hm. simpl. unfold DataNodes._save_yaml. rewrite Hy. reflexivity.
Qed.

Lemma read_data_invalid_json (file_path name text e : string)
    (fs : gmap string string) :
  fs !! DataNodes.path_join file_path name = Some text →
  DataNodes.extension name = "json" →
  DataNodes.json_loads text = DataNodes.DecodeError e ∨
  DataNodes.json_loads text = DataNodes.OtherError e →
  DataNodes.read_data file_path name fs = "Error: " +:+ e.
Proof.
  intros Hf Hext He. unfold DataNodes.read_data, DataNodes.read_data_try.
  rewrite decide_False by congruence. rewrite Hext. simpl.
  unfold DataNodes._read_json, DataNodes.read_file. rewrite Hf. simpl.
  destruct He as [-> | ->]; reflexivity.
Qed.





(** C9.  With a JSON library whose [loads] undoes [dumps] and ignores white
    space around the text: when [d] parses as JSON to [v] and is not fenced,
    and [save_data(d, p, f, "json")] succeeds, then
    [read_data(p, f + ".json")] on the files it leaves returns a string that
    parses to [v]. *)
Theorem json_save_read_round_trip (d p f : string)
    (v : DataNodes.json_value) (fs fs' : gmap string string) (filepath : string) :
  (∀ w, DataNodes.json_loads (DataNodes.json_dumps w) = DataNodes.Decoded w) →
  (∀ t w, DataNodes.json_loads t = DataNodes.Decoded w →
          DataNodes.json_loads (Py.strip t) = DataNodes.Decoded w) →
  DataNodes.json_loads d = DataNodes.Decoded v →
  Py.startswith (Py.strip d) "```" = false →
  DataNodes.save_data_try d p f "json" fs = (fs', Returns filepath) →
  DataNodes.save_data d p f "json" fs = (fs', filepath) ∧
  DataNodes.json_loads (DataNodes.read_data p (f +:+ ".json") fs')
  = DataNodes.Decoded v.
Proof.
  intros Hround Hstrip Hd Hfence Hsave.
  split; [unfold DataNodes.save_data; rewrite Hsave; reflexivity|].
  unfold DataNodes.save_data_try in Hsave.
  rewrite (clean_not_fenced _ Hfence) in Hsave.
  destruct (DataNodes.makedirs p fs); [|discriminate].
  simpl String.eqb in Hsave. cbv iota in Hsave.
  unfold DataNodes._save_json in Hsave.
  rewrite (Hstrip _ _ Hd) in Hsave. unfold DataNodes.write_file in Hsave.
  destruct (DataNodes.file_write _ _ fs); simpl in Hsave; [|discriminate..].
  injection Hsave as <- _.
  unfold DataNodes.read_data, DataNodes.read_data_try.
  change (f +:+ "." +:+ "json") with (f +:+ ".json").
  set (path := DataNodes.path_join p (f +:+ ".json")).
  rewrite decide_False by (rewrite lookup_insert_eq; discriminate).
  assert (Hread : DataNodes.read_file path
                    (<[path := DataNodes.json_dumps v]> fs)
                  = Returns (DataNodes.json_dumps v)).
  { unfold DataNodes.read_file. rewrite lookup_insert_eq. reflexivity. }
  destruct (extension_json f) as [-> | ->]; simpl.
  - unfold DataNodes._read_json. rewrite Hread. simpl.
    rewrite Hround. apply Hround.
  - rewrite Hread. apply Hround.
Qed.

End data_nodes.

Lemma literal_loads_dumps (w : option bool) :
  DataNodes.literal_loads (DataNodes.literal_dumps w) = DataNodes.Decoded w.
Proof. destruct w as [[]|]; reflexivity. Qed.

Lemma literal_loads_strip (t : string) (w : option bool) :
  DataNodes.literal_loads t = DataNodes.Decoded w →
  DataNodes.literal_loads (Py.strip t) = DataNodes.Decoded w.
Proof.
  unfold DataNodes.literal_loads at 1.
  destruct (String.eqb_spec t "null") as [->|_]; [intros <-; reflexivity|].
  destruct (String.eqb_spec t "true") as [->|_]; [intros <-; reflexivity|].
  destruct (String.eqb_spec t "false") as [->|_]; [intros <-; reflexivity|].
  discriminate.
Qed.


Lemma json_save_read_round_trip_witness :
  DataNodes.save_data (host := DataNodes.literal_host) "true" "output" "data" "json" ∅
  = ({[ "output/data.json" := "true" ]}, "output/data.json") ∧
  DataNodes.literal_loads
    (DataNodes.read_data (host := DataNodes.literal_host) "output" "data.json"
       {[ "output/data.json" := "true" ]})
  = DataNodes.Decoded (Some true).
Proof.
  apply (json_save_read_round_trip (host := DataNodes.literal_host)
           "true" "output" "data" (Some true) ∅).
  - exact literal_loads_dumps.
  - exact literal_loads_strip.
  - reflexivity.
  - reflexivity.
  - reflexivity.
Defined.

(** ** Part III: further properties of the nodes *)

(** *** Lines of a text *)

Lemma split_pieces_app_sep (sep : ascii) (a b : string) :
  Py.split_pieces sep (a +:+ String sep b)
  = ((Py.split_pieces sep a).1,
     ((Py.split_pieces sep a).2 ++ Py.split sep b)%list).
Proof.
  induction a as [|c a IH].
  - rewrite app_empty_l. simpl. unfold Py.split.
    destruct (Py.split_pieces sep b) as [h t].
    rewrite Ascii.eqb_refl. reflexivity.
  - rewrite app_String. simpl. rewrite IH.
    destruct (Py.split_pieces sep a) as [h t]. simpl.
    destruct (Ascii.eqb c sep); reflexivity.
Qed.

Lemma split_app_sep (sep : ascii) (a b : string) :
  Py.split sep (a +:+ String sep b) = (Py.split sep a ++ Py.split sep b)%list.
Proof.
  unfold Py.split at 1 2. rewrite split_pieces_app_sep.
  destruct (Py.split_pieces sep a) as [h t]. reflexivity.
Qed.

Lemma replace_crlf_absent (s : string) :
  Chars.all_chars (λ c, negb (Ascii.eqb c "013")) s = true →
  Py.replace_crlf s = s.
Proof.
  induction s as [|c s IH]; [reflexivity|]. simpl.
  intros [Hc Hs]%andb_true_iff. apply negb_true_iff in Hc.
  rewrite Hc. simpl. destruct s as [|c' s']; [reflexivity|].
  rewrite (IH Hs). reflexivity.
Qed.

(** X1.  No line that [_normalize_text_lines] returns holds a carriage
    return or a line feed. *)
Theorem normalized_lines_have_no_breaks (text : string) :
  Forall (λ line,
            Chars.all_chars
              (λ c, negb (Ascii.eqb c "013") && negb (Ascii.eqb c "010")) line = true)
         (TextNodes._normalize_text_lines text).
Proof.
  unfold TextNodes._normalize_text_lines.
  apply split_chars. apply replace_char_gone. reflexivity.
Qed.

(** X2.  Joining the lines with line feeds gives the text with every
    [\r\n] and [\r] replaced by a line feed: the text itself when it holds no
    carriage return. *)
Theorem normalized_lines_join (text : string) :
  Py.join (String "010" "") (TextNodes._normalize_text_lines text)
  = Py.replace_char "013" "010" (Py.replace_crlf text) ∧
  (Chars.all_chars (λ c, negb (Ascii.eqb c "013")) text = true →
   Py.join (String "010" "") (TextNodes._normalize_text_lines text) = text).
Proof.
  unfold TextNodes._normalize_text_lines. rewrite join_split.
  split; [reflexivity|]. intros H.
  rewrite (replace_crlf_absent _ H). apply replace_char_absent. exact H.
Qed.

Lemma normalized_lines_join_witness :
  Py.join (String "010" "") (TextNodes._normalize_text_lines "a

b") = "a

b".
Proof. apply (normalized_lines_join "a

b"). reflexivity. Defined.

(** X3.  [count_lines] and [select_line] agree on an ASCII text that is
    not blank: the count is the number of lines of the text, at least 1, its
    string is its decimal rendering, every index below the count selects
    the line at that index and the count itself is out of range.  A blank
    text counts 0 lines. *)
Theorem count_lines_select_line (text : string) :
  Chars.isascii text = true →
  let lines :=
    Py.split "010" (Py.replace_char "013" "010" (Py.replace_crlf text)) in
  (Py.strip text = "" → TextNodes.count_lines text = (0, "0")) ∧
  (Py.strip text ≠ "" →
   let n := (TextNodes.count_lines text).1 in
   n = Z.of_nat (length lines) ∧
   1 ≤ n ∧
   (TextNodes.count_lines text).2 = Py.str n ∧
   (∀ i, 0 ≤ i < n →
         ∃ line, lines !! Z.to_nat i = Some line ∧
                 TextNodes.select_line text i = Returns line) ∧
   TextNodes.select_line text n
   = Returns ("⚠️ Line index " +:+ Py.str n +:+
              " out of range (0-" +:+ Py.str (n - 1) +:+ ")")).
Proof.
  intros _ lines0. unfold TextNodes.count_lines. split.
  - intros ->. reflexivity.
  - intros Hne. destruct (Py.strip text) eqn:E; [congruence|]. simpl.
    pose proof (split_nonempty "010"
                  (Py.replace_char "013" "010" (Py.replace_crlf text))) as Hlen.
    fold (TextNodes._normalize_text_lines text) in Hlen.
    change lines0 with (TextNodes._normalize_text_lines text). clear lines0.
    set (lines := TextNodes._normalize_text_lines text) in *.
    split; [reflexivity|].
    split; [unfold TextNodes.len; lia|]. split; [reflexivity|]. split.
    + intros i Hi. unfold TextNodes.select_line. fold lines.
      destruct (Z.ltb_spec i 0); [lia|].
      destruct (Z.geb_spec i (TextNodes.len lines)); [lia|]. simpl.
      unfold TextNodes.list_item.
      destruct (lines !! Z.to_nat i) as [line|] eqn:Hl; [eauto|].
      apply lookup_ge_None in Hl. unfold TextNodes.len in Hi. lia.
    + unfold TextNodes.select_line. fold lines.
      destruct (Z.ltb_spec (TextNodes.len lines) 0); [reflexivity|].
      destruct (Z.geb_spec (TextNodes.len lines) (TextNodes.len lines));
        [reflexivity|lia].
Qed.

Lemma count_lines_select_line_witness :
  TextNodes.count_lines "   " = (0, "0") ∧
  (TextNodes.count_lines "one
two").1 = 2 ∧
  TextNodes.select_line "one
two" 1 = Returns "two".
Proof.
  split; [|split].
  - apply (count_lines_select_line "   "); reflexivity.
  - destruct (count_lines_select_line "one
two" eq_refl) as [_ H].
    destruct H as (Hn & _); [discriminate|]. exact Hn.
  - destruct (count_lines_select_line "one
two" eq_refl) as [_ H].
    destruct H as (_ & _ & _ & Hsel & _); [discriminate|].
    destruct (Hsel 1) as (line & Hline & ->); [split; [lia|reflexivity]|].
    injection Hline as <-. reflexivity.
Defined.

(** X4.  A line feed between two texts without carriage returns puts the
    lines of the second after the lines of the first. *)
Theorem normalized_lines_app (a b : string) :
  Chars.all_chars (λ c, negb (Ascii.eqb c "013")) a = true →
  Chars.all_chars (λ c, negb (Ascii.eqb c "013")) b = true →
  TextNodes._normalize_text_lines (a +:+ String "010" b)
  = (TextNodes._normalize_text_lines a ++ TextNodes._normalize_text_lines b)%list.
Proof.
  intros Ha Hb. unfold TextNodes._normalize_text_lines.
  assert (Hab : Chars.all_chars (λ c, negb (Ascii.eqb c "013"))
                  (a +:+ String "010" b) = true).
  { rewrite all_chars_app, Ha. simpl. exact Hb. }
  rewrite !replace_crlf_absent by assumption.
  rewrite !replace_char_absent by assumption.
  apply split_app_sep.
Qed.

Lemma normalized_lines_app_witness :
  TextNodes._normalize_text_lines ("a,b" +:+ String "010" "c")
  = (TextNodes._normalize_text_lines "a,b" ++ TextNodes._normalize_text_lines "c")%list.
Proof. apply (normalized_lines_app "a,b" "c"); reflexivity. Defined.

(** *** Beats and steps *)

(** The two integers of the node, for beats that parse. *)
Lemma calculate_ints (step : Z) (beats : string) (l : list Z) :
  Sequencing.beat_items beats = Some l →
  Sequencing.sequence_int (Sequencing.calculate_sequence_shot step beats)
  = 1 + Z.of_nat (length (Sequencing.beats_le step l)) ∧
  Sequencing.shot_int (Sequencing.calculate_sequence_shot step beats)
  = step - default 0 (Sequencing.largest (Sequencing.beats_le step l)) + 1.
Proof.
  intros H. unfold Sequencing.calculate_sequence_shot.
  rewrite (parse_beats_items _ _ H), scan_beats_sorted_list. split; reflexivity.
Qed.

(** X5.  ASCII beats of which one item is not an integer count as no beats
    at all: the sequence is 1 and the shot is [step + 1], as for an empty
    string. *)
Theorem invalid_beats_are_no_beats (step : Z) (beats : string) :
  Chars.isascii beats = true →
  Sequencing.beat_items beats = None →
  Sequencing.calculate_sequence_shot step beats
  = Sequencing.calculate_sequence_shot step "" ∧
  Sequencing.sequence_int (Sequencing.calculate_sequence_shot step beats) = 1 ∧
  Sequencing.shot_int (Sequencing.calculate_sequence_shot step beats) = step + 1.
Proof.
  intros _ H. unfold Sequencing.calculate_sequence_shot.
  rewrite (parse_beats_invalid _ H). simpl. repeat split; lia.
Qed.

Lemma invalid_beats_are_no_beats_witness :
  Sequencing.shot_name (Sequencing.calculate_sequence_shot 9 "3,8;15") = "seq01_shot10".
Proof.
  destruct (invalid_beats_are_no_beats 9 "3,8;15") as [-> _]; reflexivity.
Defined.

(** X6.  The order in which the beats are written does not matter: two
    strings that parse to the same integers in another order give the same
    outputs. *)
Theorem beats_order_irrelevant (step : Z) (beats beats' : string) (l l' : list Z) :
  Sequencing.beat_items beats = Some l →
  Sequencing.beat_items beats' = Some l' →
  l ≡ₚ l' →
  Sequencing.calculate_sequence_shot step beats
  = Sequencing.calculate_sequence_shot step beats'.
Proof.
  intros H H' Hp. unfold Sequencing.calculate_sequence_shot.
  rewrite (parse_beats_items _ _ H), (parse_beats_items _ _ H').
  rewrite !scan_beats_sorted_list.
  assert (Hf : Sequencing.beats_le step l ≡ₚ Sequencing.beats_le step l').
  { unfold Sequencing.beats_le. rewrite Hp. reflexivity. }
  rewrite (Permutation_length Hf), (largest_Permutation _ _ Hf). reflexivity.
Qed.

Lemma beats_order_irrelevant_witness :
  Sequencing.calculate_sequence_shot 9 "15,3,8"
  = Sequencing.calculate_sequence_shot 9 "[3, 8, 15]".
Proof.
  apply (beats_order_irrelevant 9 "15,3,8" "[3, 8, 15]" [15; 3; 8] [3; 8; 15]);
    [reflexivity|reflexivity|].
  apply (Permutation_cons_append [3; 8] 15).
Defined.

Lemma beats_le_succ_length (step : Z) (l : list Z) :
  length (Sequencing.beats_le (step + 1) l)
  = (length (Sequencing.beats_le step l)
     + length (filter (λ b, (b = step + 1)%Z) l))%nat.
Proof.
  unfold Sequencing.beats_le. induction l as [|b l IH]; [reflexivity|].
  rewrite !filter_cons.
  destruct (decide (b ≤ step + 1)), (decide (b ≤ step)), (decide (b = step + 1));
    simpl; lia.
Qed.

Lemma beats_le_succ_none (step : Z) (l : list Z) :
  filter (λ b, b = step + 1) l = [] →
  Sequencing.beats_le (step + 1) l = Sequencing.beats_le step l.
Proof.
  unfold Sequencing.beats_le. induction l as [|b l IH]; [reflexivity|].
  rewrite !filter_cons.
  destruct (decide (b = step + 1)); [discriminate|]. intros H.
  destruct (decide (b ≤ step + 1)), (decide (b ≤ step)); try lia;
    rewrite (IH H); reflexivity.
Qed.

Lemma largest_at_beat (step : Z) (l : list Z) :
  step ∈ l → Sequencing.largest (Sequencing.beats_le step l) = Some step.
Proof.
  intros Hin. apply largest_spec. unfold Sequencing.beats_le. split.
  - apply list_elem_of_filter. split; [lia|exact Hin].
  - apply Forall_forall. intros b Hb.
    apply list_elem_of_filter in Hb as [Hb _]. exact Hb.
Qed.

(** X7.  From one step to the next: when [step + 1] is no beat the sequence
    stays and the shot grows by one; when it is a beat the sequence grows by
    the number of times the beat is written and the shot is 1 again. *)
Theorem next_step (step : Z) (beats : string) (l : list Z) :
  Sequencing.beat_items beats = Some l →
  let now := Sequencing.calculate_sequence_shot step beats in
  let next := Sequencing.calculate_sequence_shot (step + 1) beats in
  let times := Z.of_nat (length (filter (λ b, b = step + 1) l)) in
  Sequencing.sequence_int next = Sequencing.sequence_int now + times ∧
  (step + 1 ∉ l → Sequencing.shot_int next = Sequencing.shot_int now + 1) ∧
  (step + 1 ∈ l → Sequencing.shot_int next = 1 ∧ 1 ≤ times).
Proof.
  intros H now next times. subst now next times.
  destruct (calculate_ints step beats l H) as [-> ->].
  destruct (calculate_ints (step + 1) beats l H) as [-> ->].
  rewrite beats_le_succ_length. split; [lia|]. split.
  - intros Hnot. rewrite beats_le_succ_none; [lia|].
    destruct (filter _ l) as [|b t] eqn:E; [reflexivity|].
    assert (Hb : b ∈ filter (λ b, b = step + 1) l) by (rewrite E; left).
    apply list_elem_of_filter in Hb as [-> Hb]. contradiction.
  - intros Hin. rewrite (largest_at_beat _ _ Hin). simpl. split; [lia|].
    assert (Hb : step + 1 ∈ filter (λ b, b = step + 1) l).
    { apply list_elem_of_filter. split; [reflexivity|exact Hin]. }
    destruct (filter _ l); [inversion Hb|]. simpl. lia.
Qed.

Lemma next_step_witness :
  Sequencing.shot_int (Sequencing.calculate_sequence_shot (7 + 1) "3,8,8,15") = 1 ∧
  Sequencing.sequence_int (Sequencing.calculate_sequence_shot (7 + 1) "3,8,8,15")
  = Sequencing.sequence_int (Sequencing.calculate_sequence_shot 7 "3,8,8,15") + 2.
Proof.
  destruct (next_step 7 "3,8,8,15" [3; 8; 8; 15] eq_refl) as (Hseq & _ & Hbeat).
  split; [|exact Hseq].
  apply Hbeat. apply list_elem_of_In. simpl. auto.
Defined.

Lemma beats_le_mono (step step' : Z) (l : list Z) :
  step ≤ step' →
  (length (Sequencing.beats_le step l) ≤ length (Sequencing.beats_le step' l))%nat.
Proof.
  intros Hle. unfold Sequencing.beats_le. induction l as [|b l IH]; [reflexivity|].
  rewrite !filter_cons.
  destruct (decide (b ≤ step)), (decide (b ≤ step')); simpl; lia.
Qed.

(** X8.  The sequence number lies between 1 and one more than the number of
    beats and never decreases as the step grows; for a step that is not
    negative the shot number is at least 1. *)
Theorem sequence_shot_bounds (step step' : Z) (beats : string) (l : list Z) :
  Sequencing.beat_items beats = Some l →
  let out := Sequencing.calculate_sequence_shot step beats in
  1 ≤ Sequencing.sequence_int out ≤ 1 + Z.of_nat (length l) ∧
  (step ≤ step' →
   Sequencing.sequence_int out
   ≤ Sequencing.sequence_int (Sequencing.calculate_sequence_shot step' beats)) ∧
  (0 ≤ step → 1 ≤ Sequencing.shot_int out).
Proof.
  intros H out. subst out.
  destruct (calculate_ints step beats l H) as [-> ->].
  destruct (calculate_ints step' beats l H) as [-> _].
  split; [|split].
  - pose proof (length_filter (λ b, b ≤ step) l). unfold Sequencing.beats_le. lia.
  - intros Hle. pose proof (beats_le_mono step step' l Hle). lia.
  - intros Hpos.
    destruct (Sequencing.largest (Sequencing.beats_le step l)) as [m|] eqn:E;
      simpl; [|lia].
    apply largest_spec in E as [Hin _]. unfold Sequencing.beats_le in Hin.
    apply list_elem_of_filter in Hin as [Hm _]. lia.
Qed.

Lemma sequence_shot_bounds_witness :
  let out := Sequencing.calculate_sequence_shot 9 "3,8,15" in
  1 ≤ Sequencing.sequence_int out ≤ 1 + Z.of_nat (length [3; 8; 15]) ∧
  Sequencing.sequence_int out
  ≤ Sequencing.sequence_int (Sequencing.calculate_sequence_shot 20 "3,8,15") ∧
  1 ≤ Sequencing.shot_int out.
Proof.
  destruct (sequence_shot_bounds 9 20 "3,8,15" [3; 8; 15] eq_refl)
    as (Hb & Hm & Hs).
  split; [exact Hb|]. split; [apply Hm|apply Hs]; lia.
Defined.

(** *** Projects of the story driver *)

(** X9.  The counters of different projects do not interfere: a run of
    calls none of which names a project leaves the value stored for it, or
    its absence, as it was. *)
Theorem projects_independent (p : string) (cs : list Sequencing.call)
    (_steps : gmap string Z) :
  forallb (λ c, negb (Sequencing.mentions p c)) cs = true →
  Sequencing.run_calls _steps cs !! p = _steps !! p.
Proof.
  revert _steps. induction cs as [|c cs IH]; intros _steps Hno; [reflexivity|].
  simpl in Hno. apply andb_true_iff in Hno as [Hc Hno].
  simpl. rewrite (IH _ Hno). unfold Sequencing.mentions in Hc.
  destruct c as [q seed r|q]; simpl in *.
  - rewrite orb_false_r in Hc. destruct (String.eqb_spec p q); [discriminate|].
    apply lookup_insert_ne. congruence.
  - destruct (String.eqb_spec p q); [discriminate|].
    apply lookup_insert_ne. congruence.
Qed.

Lemma projects_independent_witness :
  Sequencing.run_calls {[ "A" := 4 ]}
    [Sequencing.Execute "B" 1 true; Sequencing.Reset "C"; Sequencing.Execute "B" 1 true]
    !! "A" = ({[ "A" := 4 ]} : gmap string Z) !! "A".
Proof.
  apply (projects_independent "A"
           [Sequencing.Execute "B" 1 true; Sequencing.Reset "C";
            Sequencing.Execute "B" 1 true]).
  reflexivity.
Defined.

Lemma length_replace_char (old new : ascii) (s : string) :
  String.length (Py.replace_char old new s) = String.length s.
Proof. induction s as [|c s IH]; simpl; [reflexivity|]. rewrite IH. reflexivity. Qed.

(** X10.  The project name that [execute] returns has the length of the
    one given and holds no space; it is the name itself when that has no
    space.  The save folder is this name, an underscore and the seed in
    decimal. *)
Theorem execute_names (_steps : gmap string Z) (projectName : string)
    (storySeed : Z) (randomize_seed_on_reset : bool) :
  let out := Sequencing.result
    (Sequencing.execute _steps projectName storySeed randomize_seed_on_reset).2 in
  let name := Sequencing.projectName_out out in
  String.length name = String.length projectName ∧
  Chars.all_chars (λ c, negb (Ascii.eqb c " ")) name = true ∧
  (Chars.all_chars (λ c, negb (Ascii.eqb c " ")) projectName = true →
   name = projectName) ∧
  Sequencing.saveFolder out = name +:+ "_" +:+ Py.str storySeed.
Proof.
  simpl. split; [apply length_replace_char|]. split; [|split].
  - apply replace_char_gone. reflexivity.
  - apply replace_char_absent.
  - reflexivity.
Qed.

Lemma execute_names_witness :
  Sequencing.projectName_out (Sequencing.result
    (Sequencing.execute ∅ "MyProject" 42 true).2) = "MyProject".
Proof. apply (execute_names ∅ "MyProject" 42 true). reflexivity. Defined.

Example execute_names_example :
  Sequencing.saveFolder (Sequencing.result
    (Sequencing.execute ∅ "My Big Project" 42 true).2) = "My_Big_Project_42".
Proof. reflexivity. Qed.

(** *** The story driver route *)

(** X11.  The story driver route does no validation of the name: a body
    without [project_name] resets the project [MyProject], a body with a
    string, the empty one included, resets the project of that name; the
    response is a success with step 0, the next [execute] for the project
    returns 0 and the other projects keep their counters. *)
Theorem reset_story_driver_spec (items : list (string * Json.json))
    (_steps : gmap string Z) (name : string) :
  (Json.lookup "project_name" items = None ∧ name = "MyProject") ∨
  Json.lookup "project_name" items = Some (Json.JStr name) →
  let out := StoryRoute.reset_story_driver (Returns (Json.JObj items)) _steps in
  StoryRoute.status out.2 = 200 ∧
  StoryRoute.success out.2 = true ∧
  StoryRoute.project_name out.2 = Some (Json.JStr name) ∧
  StoryRoute.step out.2 = Some 0 ∧
  out.1 !! name = Some 0 ∧
  (∀ seed r, Sequencing.step_int
               (Sequencing.result (Sequencing.execute out.1 name seed r).2) = 0) ∧
  (∀ other, other ≠ name → out.1 !! other = _steps !! other).
Proof.
  intros H. unfold StoryRoute.reset_story_driver.
  assert (Hn : default (Json.JStr "MyProject") (Json.lookup "project_name" items)
               = Json.JStr name).
  { destruct H as [[-> ->]| ->]; reflexivity. }
  rewrite Hn. simpl. unfold Sequencing.reset_project.
  repeat split.
  - apply lookup_insert_eq.
  - intros _ _. rewrite lookup_insert_eq. reflexivity.
  - intros other Hne. apply lookup_insert_ne. congruence.
Qed.

Lemma reset_story_driver_spec_witness :
  (StoryRoute.reset_story_driver (Returns (Json.JObj [])) {[ "MyProject" := 7 ]}).1
    !! "MyProject" = Some 0 ∧
  (StoryRoute.reset_story_driver
     (Returns (Json.JObj [("project_name", Json.JStr "")])) {[ "MyProject" := 7 ]}).1
    !! "" = Some 0.
Proof.
  split.
  - apply (reset_story_driver_spec [] {[ "MyProject" := 7 ]} "MyProject").
    left. split; reflexivity.
  - apply (reset_story_driver_spec [("project_name", Json.JStr "")]
             {[ "MyProject" := 7 ]} "").
    right. reflexivity.
Defined.

(** X12.  A request the story driver route cannot serve changes no counter:
    a body that is not JSON or not an object, or a [project_name] that is a
    list or an object, gives status 500 with [success == false]. *)
Theorem reset_story_driver_errors (body : outcome Json.json)
    (_steps : gmap string Z) :
  (∀ items, body = Returns (Json.JObj items) →
            ∃ v, Json.lookup "project_name" items = Some v ∧
                 ∃ e, Json.dict_key v = Raises e) →
  let out := StoryRoute.reset_story_driver body _steps in
  StoryRoute.status out.2 = 500 ∧ StoryRoute.success out.2 = false ∧
  out.1 = _steps.
Proof.
  intros H. unfold StoryRoute.reset_story_driver.
  destruct body as [[| | | | | |items]|e]; try (repeat split; reflexivity).
  destruct (H items eq_refl) as (v & -> & e & He). simpl.
  destruct v; simpl in He; try discriminate; try destruct b; try discriminate;
    repeat split; reflexivity.
Qed.

Lemma reset_story_driver_errors_witness :
  (StoryRoute.reset_story_driver
     (Returns (Json.JObj [("project_name", Json.JArr [Json.JStr "A"])]))
     {[ "A" := 3 ]}).1 = {[ "A" := 3 ]}.
Proof.
  apply (reset_story_driver_errors
           (Returns (Json.JObj [("project_name", Json.JArr [Json.JStr "A"])]))
           {[ "A" := 3 ]}).
  intros items [= <-]. eexists. split; [reflexivity|]. eexists. reflexivity.
Defined.

(** *** Runs of the graph plotter *)

Lemma store_keys (key : string) (v : Json.json)
    (items : list (string * Json.json)) :
  is_Some (Json.lookup key items) → (Json.store key v items).*1 = items.*1.
Proof.
  induction items as [|[k x] items IH]; simpl.
  - intros [d Hd]. discriminate Hd.
  - destruct (String.eqb k key); [reflexivity|].
    intros H. rewrite fmap_cons, (IH H). reflexivity.
Qed.

(** A run of calls whose writes succeed, on a dictionary whose entry for
    the node holds two lists. *)
Lemma plot_all_returns (unique_id : option string)
    (calls : list (Z * Visualization.write_result)) :
  ∀ (file : Visualization.state_file)
    (items entry : list (string * Json.json)) (xs ys : list Json.json),
  let N := Visualization.node_id_of unique_id in
  Visualization._read_graph_state file = Json.JObj items →
  Visualization.plottable items N entry xs ys →
  Forall (λ c, c.2 = Visualization.Written) calls →
  ∃ file' after new,
    Visualization.plot_all calls unique_id file = Returns file' ∧
    Visualization._read_graph_state file' = Json.JObj after ∧
    Visualization.plottable after N new
      (xs ++ (Json.JInt
                <$> seqZ (Z.of_nat (length xs) + 1) (Z.of_nat (length calls))))
      (ys ++ (Json.JInt <$> calls.*1)) ∧
    (∀ key, key ≠ "x_data" → key ≠ "y_data" →
            Json.lookup key new = Json.lookup key entry) ∧
    new.*1 = entry.*1 ∧
    (is_Some (Json.lookup N items) → is_Some (Json.lookup N after)) ∧
    (∀ M, M ≠ N → Json.lookup M after = Json.lookup M items).
Proof.
  induction calls as [|[Y w] calls IH];
    intros file items entry xs ys N Hread Hplot Hw.
  - exists file, items, entry. split; [reflexivity|]. split; [exact Hread|].
    simpl. rewrite !app_nil_r. repeat split; try apply Hplot; auto.
  - apply Forall_cons in Hw as [Hw1 Hw]. simpl in Hw1. subst w.
    cbn [Visualization.plot_all].
    rewrite (plot_graph_returns Y unique_id _ file _ _ _ _ Hread Hplot).
    cbn [mbind outcome_bind Visualization._write_graph_state]. fold N.
    set (xs' := (xs ++ [Json.JInt (Z.of_nat (length xs) + 1)])%list).
    set (ys' := (ys ++ [Json.JInt Y])%list).
    set (new := Json.store "y_data" (Json.JArr ys')
                  (Json.store "x_data" (Json.JArr xs') entry)).
    set (items' := Json.store N (Json.JObj new) items).
    assert (Hplot' : Visualization.plottable items' N new xs' ys').
    { unfold Visualization.plottable. subst items' new.
      rewrite lookup_store_eq. split; [reflexivity|]. split.
      - rewrite lookup_store_ne by discriminate. apply lookup_store_eq.
      - apply lookup_store_eq. }
    destruct (IH (Visualization.Stored (Json.JObj items')) items' new xs' ys'
                eq_refl Hplot' Hw)
      as (file' & after & new' & Hrun & Hread' & Hafter & Hkeys & Hfst & Hsome
        & Hother).
    exists file', after, new'. split; [exact Hrun|]. split; [exact Hread'|].
    split; [|split; [|split; [|split]]].
    + replace (xs ++ (Json.JInt
                        <$> seqZ (Z.of_nat (length xs) + 1)
                              (Z.of_nat (length ((Y, Visualization.Written)
                                                 :: calls)))))%list
        with (xs' ++ (Json.JInt
                        <$> seqZ (Z.of_nat (length xs') + 1)
                              (Z.of_nat (length calls))))%list.
      2: { subst xs'. rewrite <- app_assoc, length_app. simpl.
           rewrite (seqZ_cons _ (Z.of_nat (S (length calls)))) by lia.
           rewrite fmap_cons. do 4 f_equal; lia. }
      replace (ys ++ (Json.JInt <$> ((Y, Visualization.Written) :: calls).*1))%list
        with (ys' ++ (Json.JInt <$> calls.*1))%list.
      2: { subst ys'. rewrite <- app_assoc. reflexivity. }
      exact Hafter.
    + intros key Hkx Hky. rewrite (Hkeys key Hkx Hky). subst new.
      rewrite !lookup_store_ne by congruence. reflexivity.
    + rewrite Hfst. subst new. destruct Hplot as (_ & Hx & Hy).
      rewrite !store_keys; [reflexivity|eexists; exact Hx|].
      rewrite lookup_store_ne by discriminate. eexists. exact Hy.
    + intros _. apply Hsome. subst items'. rewrite lookup_store_eq.
      eexists. reflexivity.
    + intros M HM. rewrite (Hother M HM). subst items'.
      apply lookup_store_ne. congruence.
Qed.

(** X13.  A run of [plot_graph] calls for one node whose writes all succeed,
    started on a dictionary in which the entry of the node holds two lists,
    returns and appends the values in order: [y_data] gets the values,
    [x_data] the numbers that follow its length; the other keys of the entry
    and every other entry are left alone. *)
Theorem plot_all_appends (unique_id : option string)
    (calls : list (Z * Visualization.write_result))
    (file : Visualization.state_file)
    (items entry : list (string * Json.json)) (xs ys : list Json.json) :
  let N := Visualization.node_id_of unique_id in
  Visualization.holds file items →
  default Visualization.empty_node (Json.lookup N items) = Json.JObj entry →
  Json.lookup "x_data" entry = Some (Json.JArr xs) →
  Json.lookup "y_data" entry = Some (Json.JArr ys) →
  Forall (λ c, c.2 = Visualization.Written) calls →
  ∃ file' after new,
    Visualization.plot_all calls unique_id file = Returns file' ∧
    Visualization.holds file' after ∧
    default Visualization.empty_node (Json.lookup N after) = Json.JObj new ∧
    Json.lookup "x_data" new
    = Some (Json.JArr
              (xs ++ (Json.JInt
                        <$> seqZ (Z.of_nat (length xs) + 1)
                              (Z.of_nat (length calls))))) ∧
    Json.lookup "y_data" new
    = Some (Json.JArr (ys ++ (Json.JInt <$> calls.*1))) ∧
    (∀ key, key ≠ "x_data" → key ≠ "y_data" →
            Json.lookup key new = Json.lookup key entry) ∧
    (∀ M, M ≠ N → Json.lookup M after = Json.lookup M items).
Proof.
  intros N Hread%holds_read Hentry Hx Hy Hw.
  destruct (plot_all_returns unique_id calls file items entry xs ys Hread
              (conj Hentry (conj Hx Hy)) Hw)
    as (file' & after & new & Hrun & Hread'%read_holds & (Hnew & Hx' & Hy')
        & Hkeys & _ & _ & Hother).
  exists file', after, new. repeat split; assumption.
Qed.

Lemma plot_all_appends_witness :
  ∃ file' after new,
    Visualization.plot_all
      [(5, Visualization.Written); (6, Visualization.Written)] None
      (Visualization.Stored
         (Json.JObj
            [("default",
              Json.JObj [("x_data", Json.JArr [Json.JInt 1]);
                         ("y_data", Json.JArr [Json.JFloat "0.5"]);
                         ("title", Json.JStr "loss")]);
             ("9", Visualization.empty_node)])) = Returns file' ∧
    Visualization.holds file' after ∧
    default Visualization.empty_node (Json.lookup "default" after)
    = Json.JObj new ∧
    Json.lookup "x_data" new
    = Some (Json.JArr [Json.JInt 1; Json.JInt 2; Json.JInt 3]) ∧
    Json.lookup "y_data" new
    = Some (Json.JArr [Json.JFloat "0.5"; Json.JInt 5; Json.JInt 6]) ∧
    Json.lookup "title" new = Some (Json.JStr "loss") ∧
    Json.lookup "9" after = Some Visualization.empty_node.
Proof.
  destruct (plot_all_appends None
              [(5, Visualization.Written); (6, Visualization.Written)]
              (Visualization.Stored
                 (Json.JObj
                    [("default",
                      Json.JObj [("x_data", Json.JArr [Json.JInt 1]);
                                 ("y_data", Json.JArr [Json.JFloat "0.5"]);
                                 ("title", Json.JStr "loss")]);
                     ("9", Visualization.empty_node)]))
              _ _ _ _ (or_introl eq_refl) eq_refl eq_refl eq_refl)
    as (file' & after & new & Hrun & Hread & Hnew & Hx & Hy & Hkeys & Hother).
  { repeat constructor. }
  exists file', after, new. split; [exact Hrun|]. split; [exact Hread|].
  split; [exact Hnew|]. split; [exact Hx|]. split; [exact Hy|].
  split.
  - rewrite (Hkeys "title"); [reflexivity|discriminate|discriminate].
  - rewrite (Hother "9"); [reflexivity|discriminate].
Defined.

(** X14.  In a state reached by calls of the node and of the reset,
    [plot_graph] returns whatever happens to its write, and the payload it
    sends to the front end is this: [point_count] is the length of both
    lists, [x_values] is [1, ..., point_count], and the last of [y_values]
    is the value just plotted.  When the write succeeds the lists of the
    payload are the ones the file holds for the node. *)
Theorem plot_graph_payload (Y : Z) (unique_id : option string)
    (w : Visualization.write_result) (file : Visualization.state_file) :
  Visualization.reachable file →
  ∃ file' ui (ys : list Z),
    Visualization.plot_graph Y unique_id w file = Returns (file', ui) ∧
    Visualization.node_id ui = Visualization.node_id_of unique_id ∧
    1 ≤ Visualization.point_count ui ∧
    Visualization.x_values ui
    = Json.JArr (Json.JInt <$> seqZ 1 (Visualization.point_count ui)) ∧
    Visualization.y_values ui = Json.JArr (Json.JInt <$> (ys ++ [Y])%list) ∧
    Z.of_nat (length (ys ++ [Y])%list) = Visualization.point_count ui ∧
    (w = Visualization.Written →
     ∃ after,
       file' = Visualization.Stored (Json.JObj after) ∧
       Json.lookup (Visualization.node_id ui) after
       = Some (Json.JObj [("x_data", Visualization.x_values ui);
                          ("y_data", Visualization.y_values ui)])).
Proof.
  intros Hr. destruct (reachable_parallel file Hr) as (items & Hread & IH).
  set (N := Visualization.node_id_of unique_id).
  assert (Hold : Visualization.parallel
                   (default Visualization.empty_node (Json.lookup N items))).
  { destruct (Json.lookup N items) as [d|] eqn:Hd; simpl.
    - exact (IH _ _ (lookup_elem_of _ _ _ Hd)).
    - apply parallel_empty. }
  destruct (parallel_plottable _ _ Hold) as (xs & ys & Heq & Hplot).
  rewrite Heq in Hold.
  destruct (parallel_append xs ys Y Hold) as (xs1 & ys1 & Heq1 & Hlen1 & Hx1).
  unfold Visualization.node_data in Heq1. injection Heq1 as Hxs Hys.
  apply JInt_fmap_inj in Hxs, Hys. subst xs1 ys1.
  eexists _, _, ys.
  rewrite (plot_graph_returns Y unique_id w file _ _ _ _ Hread Hplot).
  fold N. split; [reflexivity|].
  cbn [Visualization.node_id Visualization.point_count
       Visualization.x_values Visualization.y_values].
  rewrite length_fmap.
  assert (Hn : Z.of_nat (length (xs ++ [Z.of_nat (length xs) + 1]))
               = Z.of_nat (length xs) + 1).
  { rewrite length_app. simpl. lia. }
  split; [reflexivity|]. split; [lia|]. split.
  { unfold Visualization.len in Hx1. rewrite Hn in Hx1.
    rewrite <- Hx1, fmap_app. reflexivity. }
  split; [rewrite fmap_app; reflexivity|].
  split; [rewrite <- Hlen1; exact Hn|].
  intros ->. cbn [Visualization._write_graph_state]. eexists.
  split; [reflexivity|]. rewrite lookup_store_eq. reflexivity.
Qed.

Lemma plot_graph_payload_witness :
  ∃ file' ui (ys : list Z),
    Visualization.plot_graph 8 (Some "7") Visualization.OpenFailed
      (Visualization.Stored
         (Json.JObj [("7", Visualization.node_data [1; 2] [40; -3])]))
    = Returns (file', ui) ∧
    Visualization.node_id ui = "7" ∧
    1 ≤ Visualization.point_count ui ∧
    Visualization.x_values ui
    = Json.JArr (Json.JInt <$> seqZ 1 (Visualization.point_count ui)) ∧
    Visualization.y_values ui = Json.JArr (Json.JInt <$> (ys ++ [8])%list) ∧
    Z.of_nat (length (ys ++ [8])%list) = Visualization.point_count ui.
Proof.
  destruct (plot_graph_payload 8 (Some "7") Visualization.OpenFailed
              (Visualization.Stored
                 (Json.JObj [("7", Visualization.node_data [1; 2] [40; -3])])))
    as (file' & ui & ys & Hcall & Hid & Hcount & Hx & Hy & Hlen & _).
  { eapply (Visualization.reachable_plot _ (-3) (Some "7")
              Visualization.Written);
      [eapply (Visualization.reachable_plot _ 40 (Some "7")
                 Visualization.Written);
         [eapply (Visualization.reachable_reset _ (Json.JStr "7")
                    Visualization.Written);
            [eapply (Visualization.reachable_plot _ 9 (Some "7")
                       Visualization.WriteFailed);
               [apply Visualization.reachable_start | reflexivity]
            | reflexivity]
         | reflexivity]
      | reflexivity]. }
  exists file', ui, ys. repeat split; assumption.
Defined.

(** X15.  Calls for two different nodes whose writes succeed, made in a
    state reached by calls of the node and of the reset, can be made in
    either order: the dictionaries the file holds afterwards have the same
    entries.  (The entry of a node that was not yet there goes to the end of
    the file, so the order of the keys may differ.) *)
Theorem plots_commute (Y1 Y2 : Z) (id1 id2 : option string)
    (file : Visualization.state_file) :
  Visualization.reachable file →
  Visualization.node_id_of id1 ≠ Visualization.node_id_of id2 →
  ∃ after12 after21,
    ('(f, _) ← Visualization.plot_graph Y1 id1 Visualization.Written file;
     '(f', _) ← Visualization.plot_graph Y2 id2 Visualization.Written f;
     Returns f')
    = Returns (Visualization.Stored (Json.JObj after12)) ∧
    ('(f, _) ← Visualization.plot_graph Y2 id2 Visualization.Written file;
     '(f', _) ← Visualization.plot_graph Y1 id1 Visualization.Written f;
     Returns f')
    = Returns (Visualization.Stored (Json.JObj after21)) ∧
    ∀ key, Json.lookup key after12 = Json.lookup key after21.
Proof.
  intros Hr Hne. destruct (reachable_parallel file Hr) as (items & Hread & IH).
  set (N1 := Visualization.node_id_of id1) in *.
  set (N2 := Visualization.node_id_of id2) in *.
  assert (Hold : ∀ N, Visualization.parallel
                        (default Visualization.empty_node (Json.lookup N items))).
  { intros N. destruct (Json.lookup N items) as [d|] eqn:Hd; simpl.
    - exact (IH _ _ (lookup_elem_of _ _ _ Hd)).
    - apply parallel_empty. }
  destruct (parallel_plottable _ _ (Hold N1)) as (xs1 & ys1 & _ & Hp1).
  destruct (parallel_plottable _ _ (Hold N2)) as (xs2 & ys2 & _ & Hp2).
  eexists _, _.
  rewrite (plot_graph_returns Y1 id1 _ file _ _ _ _ Hread Hp1).
  rewrite (plot_graph_returns Y2 id2 _ file _ _ _ _ Hread Hp2).
  cbn [mbind outcome_bind Visualization._write_graph_state].
  fold N1 N2.
  match goal with
  | |- context [Visualization.plot_graph Y2 id2 _
                  (Visualization.Stored (Json.JObj ?it))] =>
      erewrite (plot_graph_returns Y2 id2 _
                  (Visualization.Stored (Json.JObj it)) it _ _ _ eq_refl)
  end.
  2: { unfold Visualization.plottable. fold N2.
       rewrite lookup_store_ne by exact Hne. exact Hp2. }
  match goal with
  | |- context [Visualization.plot_graph Y1 id1 _
                  (Visualization.Stored (Json.JObj ?it))] =>
      erewrite (plot_graph_returns Y1 id1 _
                  (Visualization.Stored (Json.JObj it)) it _ _ _ eq_refl)
  end.
  2: { unfold Visualization.plottable. fold N1.
       rewrite lookup_store_ne by congruence. exact Hp1. }
  cbn [mbind outcome_bind mret outcome_ret Visualization._write_graph_state].
  fold N1 N2.
  split; [reflexivity|]. split; [reflexivity|].
  intros key.
  destruct (decide (key = N1)) as [->|H1].
  - rewrite lookup_store_ne by congruence. rewrite !lookup_store_eq.
    reflexivity.
  - destruct (decide (key = N2)) as [->|H2].
    + rewrite lookup_store_eq. rewrite lookup_store_ne by congruence.
      rewrite lookup_store_eq. reflexivity.
    + rewrite !lookup_store_ne by congruence. reflexivity.
Qed.

Lemma plots_commute_witness :
  ∃ after12 after21,
    ('(f, _) ← Visualization.plot_graph 1 (Some "a") Visualization.Written
                 (Visualization.Stored
                    (Json.JObj [("a", Visualization.node_data [1] [7])]));
     '(f', _) ← Visualization.plot_graph 2 None Visualization.Written f;
     Returns f')
    = Returns (Visualization.Stored (Json.JObj after12)) ∧
    ('(f, _) ← Visualization.plot_graph 2 None Visualization.Written
                 (Visualization.Stored
                    (Json.JObj [("a", Visualization.node_data [1] [7])]));
     '(f', _) ← Visualization.plot_graph 1 (Some "a") Visualization.Written f;
     Returns f')
    = Returns (Visualization.Stored (Json.JObj after21)) ∧
    ∀ key, Json.lookup key after12 = Json.lookup key after21.
Proof.
  apply (plots_commute 1 2 (Some "a") None
           (Visualization.Stored
              (Json.JObj [("a", Visualization.node_data [1] [7])]))).
  - eapply (Visualization.reachable_plot _ 7 (Some "a") Visualization.Written);
      [apply Visualization.reachable_start | reflexivity].
  - discriminate.
Defined.

(** X16.  After the route has reset a node named by a non-empty string, in
    a file that is absent or unreadable or holds a dictionary, a run of
    [plot_graph] calls for that node leaves exactly the values plotted,
    numbered from 1, whatever the node held before and provided each write
    succeeds; the other nodes keep what they had. *)
Theorem reset_then_plot (items prior : list (string * Json.json)) (N : string)
    (calls : list (Z * Visualization.write_result))
    (file : Visualization.state_file) :
  N ≠ "" →
  Json.get "node_id" items = Json.JStr N →
  Visualization.holds file prior →
  Forall (λ c, c.2 = Visualization.Written) calls →
  let out := Routes.reset_graph_plotter (Returns (Json.JObj items))
               Visualization.Written file in
  Routes.success out.2 = true ∧
  ∃ file' after,
    Visualization.plot_all calls (Some N) out.1 = Returns file' ∧
    Visualization.holds file' after ∧
    Json.lookup N after
    = Some (Json.JObj
              [("x_data",
                Json.JArr (Json.JInt <$> seqZ 1 (Z.of_nat (length calls))));
               ("y_data", Json.JArr (Json.JInt <$> calls.*1))]) ∧
    (∀ M, M ≠ N → Json.lookup M after = Json.lookup M prior).
Proof.
  intros HN Hid Hread%holds_read Hw.
  assert (Hnode : Visualization.node_id_of (Some N) = N)
    by (destruct N; [congruence|reflexivity]).
  assert (Htruthy : Json.truthy (Json.JStr N) = true)
    by (destruct N; [congruence|reflexivity]).
  unfold Routes.reset_graph_plotter. rewrite Hid, Htruthy.
  rewrite (reset_node_data_returns (Json.JStr N) _ _ _ N Hread eq_refl).
  cbn [negb fst snd Routes.success Visualization._write_graph_state].
  split; [reflexivity|].
  set (items1 := Json.store N Visualization.empty_node prior).
  destruct (plot_all_returns (Some N) calls
              (Visualization.Stored (Json.JObj items1)) items1
              [("x_data", Json.JArr []); ("y_data", Json.JArr [])] [] []
              eq_refl)
    as (file' & after & new & Hrun & Hread' & (Hnew & Hx & Hy) & Hkeys
        & Hfst & Hsome & Hother); [|exact Hw|].
  { unfold Visualization.plottable. rewrite Hnode.
    subst items1. rewrite lookup_store_eq. repeat split. }
  rewrite Hnode in Hnew, Hsome, Hother.
  exists file', after. split; [exact Hrun|].
  split; [exact (read_holds _ _ Hread')|].
  split.
  - destruct Hsome as [d Hd].
    { subst items1. rewrite lookup_store_eq. eexists. reflexivity. }
    rewrite Hd in Hnew |- *. simpl in Hnew. subst d. f_equal. f_equal.
    destruct new as [|[k1 v1] [|[k2 v2] [|? ?]]]; try discriminate Hfst.
    injection Hfst as -> ->. simpl in Hx, Hy.
    injection Hx as ->. injection Hy as ->. reflexivity.
  - intros M HM. rewrite (Hother M HM). subst items1.
    apply lookup_store_ne. congruence.
Qed.

Lemma reset_then_plot_witness :
  ∃ file' after,
    Visualization.plot_all [(3, Visualization.Written); (4, Visualization.Written)]
      (Some "7")
      (Routes.reset_graph_plotter
         (Returns (Json.JObj [("node_id", Json.JStr "7")]))
         Visualization.Written
         (Visualization.Stored
            (Json.JObj [("7", Visualization.node_data [1] [9])]))).1
    = Returns file' ∧
    Visualization.holds file' after ∧
    Json.lookup "7" after
    = Some (Json.JObj
              [("x_data", Json.JArr [Json.JInt 1; Json.JInt 2]);
               ("y_data", Json.JArr [Json.JInt 3; Json.JInt 4])]).
Proof.
  destruct (reset_then_plot [("node_id", Json.JStr "7")]
              [("7", Visualization.node_data [1] [9])] "7"
              [(3, Visualization.Written); (4, Visualization.Written)]
              (Visualization.Stored
                 (Json.JObj [("7", Visualization.node_data [1] [9])])))
    as (_ & file' & after & Hrun & Hread & Hentry & _);
    [discriminate|reflexivity|left; reflexivity|repeat constructor|].
  exists file', after. split; [exact Hrun|]. split; [exact Hread|].
  exact Hentry.
Defined.

(** X17.  A request to the graph plotter route whose body is not JSON, or
    is JSON but not an object, is answered with status 500 and
    [success == false], and the state file is left as it was. *)
Theorem reset_graph_plotter_bad_body (body : outcome Json.json)
    (w : Visualization.write_result) (file : Visualization.state_file) :
  (∀ items, body ≠ Returns (Json.JObj items)) →
  let out := Routes.reset_graph_plotter body w file in
  Routes.status out.2 = 500 ∧ Routes.success out.2 = false ∧ out.1 = file.
Proof.
  intros H. unfold Routes.reset_graph_plotter.
  destruct body as [[| | | | | |items]|e]; try (repeat split; reflexivity).
  destruct (H items eq_refl).
Qed.

Lemma reset_graph_plotter_bad_body_witness :
  (Routes.reset_graph_plotter (Returns (Json.JArr [Json.JStr "7"]))
     Visualization.Written Visualization.Corrupt).1 = Visualization.Corrupt.
Proof.
  apply (reset_graph_plotter_bad_body (Returns (Json.JArr [Json.JStr "7"]))
           Visualization.Written Visualization.Corrupt).
  discriminate.
Defined.

(** *** Code fences *)

Lemma fenced_shape (lang body : string) :
  DataNodes.fenced lang body
  = String "`" (String "`" (String "`" lang))
    +:+ String "010" (body +:+ String "010" "```").
Proof.
  unfold DataNodes.fenced. rewrite app_String.
  change ("```" +:+ lang +:+ String "010" (body +:+ String "010" "```"))
    with (String "`" (String "`" (String "`"
            (lang +:+ String "010" (body +:+ String "010" "```"))))).
  rewrite !app_String. reflexivity.
Qed.

Lemma strip_fenced (lang body : string) :
  Py.strip (DataNodes.fenced lang body) = DataNodes.fenced lang body.
Proof.
  rewrite fenced_shape, !app_String. apply strip_solid; [reflexivity|].
  change (String "`" (String "`" (String "`"
            (lang +:+ String "010" (body +:+ String "010" "```")))))
    with ("```" +:+ (lang +:+ String "010" (body +:+ String "010" "```"))).
  apply ends_solid_app, ends_solid_app.
  change (String "010" (body +:+ String "010" "```"))
    with (String "010" "" +:+ (body +:+ String "010" "```")).
  apply ends_solid_app.
  change (String "010" "```") with (String "010" "" +:+ "```").
  do 2 apply ends_solid_app. reflexivity.
Qed.

Lemma split_fenced (lang body : string) :
  Chars.all_chars (λ c, negb (Ascii.eqb c "010")) lang = true →
  Py.split "010" (DataNodes.fenced lang body)
  = ("```" +:+ lang) :: (Py.split "010" body ++ ["```"])%list.
Proof.
  intros Hlang. rewrite fenced_shape, !split_app_sep.
  unfold Py.split at 1. rewrite split_pieces_solid; [reflexivity|].
  simpl. exact Hlang.
Qed.

Lemma fence_removed (lang body : string) :
  Chars.all_chars (λ c, negb (Ascii.eqb c "010")) lang = true →
  DataNodes._clean_markdown_fences (DataNodes.fenced lang body) = body.
Proof.
  intros Hlang. unfold DataNodes._clean_markdown_fences.
  rewrite strip_fenced, (split_fenced _ _ Hlang).
  assert (Hstart : Py.startswith (DataNodes.fenced lang body) "```" = true).
  { rewrite fenced_shape. reflexivity. }
  rewrite Hstart.
  change (Py.startswith ("```" +:+ lang) "```") with true. cbn match.
  unfold DataNodes.last_line, DataNodes.all_but_last.
  rewrite last_snoc. change (Py.strip "```") with "```". simpl String.eqb.
  cbn match. rewrite removelast_last. apply join_split.
Qed.

(** X18.  A text put inside a markdown code fence comes out of
    [_clean_markdown_fences] as it went in, white space included, whatever
    the language tag on the opening fence. *)
Theorem clean_fenced (lang body : string) :
  Chars.all_chars (λ c, negb (Ascii.eqb c "010")) lang = true →
  DataNodes._clean_markdown_fences (DataNodes.fenced lang body) = body.
Proof. apply fence_removed. Qed.

Lemma clean_fenced_witness :
  DataNodes._clean_markdown_fences "```json
 [1, 2]

```" = " [1, 2]
".
Proof.
  apply (clean_fenced "json" " [1, 2]
"). reflexivity.
Defined.

(** *** White space *)

Lemma rstrip_shape (s : string) :
  Py.rstrip s = "" ∨ Chars.ends_solid (Py.rstrip s) = true.
Proof.
  induction s as [|c s IH]; [left; reflexivity|]. simpl.
  destruct (Py.isspace c) eqn:Hc; simpl.
  - destruct IH as [-> | IH]; [left; reflexivity|]. right.
    destruct (Py.rstrip s) eqn:E; [discriminate IH|]. exact IH.
  - right. destruct IH as [-> | IH]; [simpl; rewrite Hc; reflexivity|].
    destruct (Py.rstrip s) eqn:E; [discriminate IH|]. exact IH.
Qed.

Lemma lstrip_shape (s : string) :
  Chars.ends_solid s = true →
  ∃ c r, Py.lstrip s = String c r ∧ Py.isspace c = false ∧
         Chars.ends_solid (String c r) = true.
Proof.
  induction s as [|c s IH]; [discriminate|]. intros He. simpl.
  destruct (Py.isspace c) eqn:Hc.
  - apply IH. destruct s; [|exact He]. simpl in He. rewrite Hc in He. discriminate.
  - eauto.
Qed.

(** [s.strip().strip() == s.strip()]. *)
Lemma strip_strip (s : string) : Py.strip (Py.strip s) = Py.strip s.
Proof.
  unfold Py.strip at 2 3. destruct (rstrip_shape s) as [-> | He]; [reflexivity|].
  destruct (lstrip_shape _ He) as (c & r & -> & Hc & Hsolid).
  apply strip_solid; assumption.
Qed.

Section more_data_nodes.
Context `{host : DataNodes.Host}.

Lemma save_data_by_clean (d d' p f format : string) (fs : gmap string string) :
  DataNodes._clean_markdown_fences d = DataNodes._clean_markdown_fences d' →
  DataNodes.save_data d p f format fs = DataNodes.save_data d' p f format fs.
Proof.
  intros H. unfold DataNodes.save_data, DataNodes.save_data_try.
  rewrite H. reflexivity.
Qed.

(** X19.  Saving a text inside a code fence saves what saving the bare text
    does, in every format, when the bare text is ASCII, has no white space
    around it and does not itself start with a fence. *)
Theorem save_data_ignores_fence (lang body p f format : string)
    (fs : gmap string string) :
  Chars.all_chars (λ c, negb (Ascii.eqb c "010")) lang = true →
  Chars.isascii body = true →
  Py.strip body = body →
  Py.startswith body "```" = false →
  DataNodes.save_data (DataNodes.fenced lang body) p f format fs
  = DataNodes.save_data body p f format fs.
Proof.
  intros Hlang _ Hstrip Hstart. apply save_data_by_clean.
  rewrite (fence_removed _ _ Hlang). unfold DataNodes._clean_markdown_fences.
  rewrite Hstrip, Hstart. reflexivity.
Qed.

(** X20.  What [show_data] passes on is, for an ASCII text that is not
    fenced, the text without the white space around it; [save_data] saves it
    as it saves the text itself. *)
Theorem show_then_save (d p f format : string) (fs : gmap string string) :
  Chars.isascii d = true →
  Py.startswith (Py.strip d) "```" = false →
  (DataNodes.show_data d).2 = Py.strip d ∧
  (DataNodes.show_data d).1 = (DataNodes.show_data d).2 ∧
  DataNodes.save_data (DataNodes.show_data d).2 p f format fs
  = DataNodes.save_data d p f format fs.
Proof.
  intros _ H.
  assert (Hshow : (DataNodes.show_data d).2 = Py.strip d).
  { unfold DataNodes.show_data. cbn [snd]. unfold DataNodes._clean_data.
    rewrite H. reflexivity. }
  split; [exact Hshow|]. split; [reflexivity|]. rewrite Hshow.
  apply save_data_by_clean. unfold DataNodes._clean_markdown_fences.
  rewrite strip_strip, H. reflexivity.
Qed.

Lemma write_file_frame (path text other : string) (fs : gmap string string) :
  other ≠ path →
  (DataNodes.write_file path text fs).1 !! other = fs !! other.
Proof.
  intros Hne. unfold DataNodes.write_file.
  destruct (DataNodes.file_write path text fs); cbn [fst];
    [|reflexivity|]; apply lookup_insert_ne; congruence.
Qed.

(** X21.  [save_data] touches no file but the one it names: every other
    path holds afterwards what it held before, whatever the format and
    whether the call fails or not; a format that is none of the four writes
    nothing. *)
Theorem save_data_frame (data p f format : string) (fs : gmap string string) :
  let filepath := DataNodes.path_join p (f +:+ "." +:+ format) in
  let after := (DataNodes.save_data data p f format fs).1 in
  (∀ other, other ≠ filepath → after !! other = fs !! other) ∧
  (format ≠ "json" → format ≠ "xml" → format ≠ "csv" → format ≠ "yaml" →
   after = fs).
Proof.
  intros filepath after. subst after.
  unfold DataNodes.save_data, DataNodes.save_data_try. fold filepath.
  set (data' := DataNodes._clean_markdown_fences data).
  destruct (DataNodes.makedirs p fs) as [[]|e]; cbn [fst];
    [|split; reflexivity].
  split.
  - intros other Hne.
    destruct (String.eqb format "json").
    { unfold DataNodes._save_json.
      destruct (DataNodes.json_loads data'); try reflexivity;
        apply write_file_frame; exact Hne. }
    destruct (String.eqb format "xml").
    { unfold DataNodes._save_xml.
      destruct (DataNodes.xml_fromstring data'); try reflexivity;
        apply write_file_frame; exact Hne. }
    destruct (String.eqb format "csv").
    { unfold DataNodes._save_csv. apply write_file_frame; exact Hne. }
    destruct (String.eqb format "yaml").
    { unfold DataNodes._save_yaml. destruct (negb DataNodes.HAS_YAML);
        [reflexivity|].
      destruct (DataNodes.json_loads data'); try reflexivity;
        apply write_file_frame; exact Hne. }
    reflexivity.
  - intros H1 H2 H3 H4.
    destruct (String.eqb_spec format "json"); [contradiction|].
    destruct (String.eqb_spec format "xml"); [contradiction|].
    destruct (String.eqb_spec format "csv"); [contradiction|].
    destruct (String.eqb_spec format "yaml"); [contradiction|].
    reflexivity.
Qed.

(** X22.  An ASCII text that is not JSON is saved as it is under the [json]
    format, and the save is a success; reading the file back through its
    [.json] name is not: [read_data] returns ["Error: "] and the decoder's
    message.  (The text holds no carriage return, so that it is read back
    as it was written.) *)
Theorem not_json_saved_not_read (d p f e : string)
    (fs fs' : gmap string string) (filepath : string) :
  Chars.isascii d = true →
  DataNodes.json_loads (DataNodes._clean_markdown_fences d)
  = DataNodes.DecodeError e →
  Chars.no_cr (DataNodes._clean_markdown_fences d) = true →
  DataNodes.extension (f +:+ ".json") = "json" →
  DataNodes.save_data_try d p f "json" fs = (fs', Returns filepath) →
  filepath = DataNodes.path_join p (f +:+ ".json") ∧
  fs' !! filepath = Some (DataNodes._clean_markdown_fences d) ∧
  DataNodes.read_data p (f +:+ ".json") fs' = "Error: " +:+ e.
Proof.
  intros _ Hd _ Hext Hsave. unfold DataNodes.save_data_try in Hsave.
  destruct (DataNodes.makedirs p fs); [|discriminate].
  simpl String.eqb in Hsave. cbv iota in Hsave.
  unfold DataNodes._save_json in Hsave. rewrite Hd in Hsave.
  unfold DataNodes.write_file in Hsave.
  destruct (DataNodes.file_write _ _ fs); simpl in Hsave; [|discriminate..].
  injection Hsave as <- <-.
  change (f +:+ "." +:+ "json") with (f +:+ ".json").
  split; [reflexivity|]. split; [apply lookup_insert_eq|].
  apply (read_data_invalid_json _ _ (DataNodes._clean_markdown_fences d));
    [apply lookup_insert_eq|exact Hext|left; exact Hd].
Qed.

(** X23.  Without the [yaml] library, saving as [yaml] writes nothing and
    reading a file named [.yaml] or [.yml] reads nothing: both return
    ["Error: "] and the hint to install the library. *)
Theorem yaml_needs_library (data p f file_path name : string)
    (fs : gmap string string) :
  DataNodes.HAS_YAML = false →
  (DataNodes.makedirs p fs = Returns () →
   DataNodes.save_data data p f "yaml" fs
   = (fs, "Error: pyyaml is not installed. Run: pip install pyyaml")) ∧
  (fs !! DataNodes.path_join file_path name ≠ None →
   DataNodes.extension name = "yaml" ∨ DataNodes.extension name = "yml" →
   DataNodes.read_data file_path name fs
   = "Error: pyyaml is not installed. Run: pip install pyyaml").
Proof.
  intros Hy. split.
  - intros Hm. apply save_data_yaml_missing; assumption.
  - intros Hf Hext. unfold DataNodes.read_data, DataNodes.read_data_try.
    rewrite decide_False by exact Hf.
    destruct Hext as [-> | ->]; simpl; unfold DataNodes._read_yaml;
      rewrite Hy; reflexivity.
Qed.

End more_data_nodes.

Lemma save_data_ignores_fence_witness :
  DataNodes.save_data (host := DataNodes.literal_host)
    (DataNodes.fenced "json" "true") "output" "data" "json" ∅
  = DataNodes.save_data (host := DataNodes.literal_host)
      "true" "output" "data" "json" ∅.
Proof.
  apply (save_data_ignores_fence (host := DataNodes.literal_host)
           "json" "true" "output" "data" "json" ∅); reflexivity.
Defined.

Lemma show_then_save_witness :
  (DataNodes.show_data " true
").2 = "true".
Proof.
  apply (show_then_save (host := DataNodes.literal_host) " true
" "output" "data" "json" ∅); reflexivity.
Defined.

Lemma save_data_frame_witness :
  (DataNodes.save_data (host := DataNodes.literal_host)
     "true" "output" "data" "json" {[ "output/other.json" := "null" ]}).1
    !! "output/other.json" = Some "null".
Proof.
  destruct (save_data_frame (host := DataNodes.literal_host)
              "true" "output" "data" "json" {[ "output/other.json" := "null" ]})
    as [Hframe _].
  rewrite (Hframe "output/other.json"); [reflexivity|discriminate].
Defined.

Lemma not_json_saved_not_read_witness :
  DataNodes.read_data (host := DataNodes.literal_host) "output" "data.json"
    {[ "output/data.json" := "hello" ]}
  = "Error: Expecting value: line 1 column 1 (char 0)".
Proof.
  destruct (not_json_saved_not_read (host := DataNodes.literal_host)
              "hello" "output" "data" "Expecting value: line 1 column 1 (char 0)"
              ∅ {[ "output/data.json" := "hello" ]} "output/data.json")
    as (_ & _ & Hread);
    [reflexivity|reflexivity|reflexivity|reflexivity|reflexivity|].
  exact Hread.
Defined.

Lemma yaml_needs_library_witness :
  DataNodes.save_data (host := DataNodes.literal_host) "a: 1" "output" "data" "yaml" ∅
  = (∅, "Error: pyyaml is not installed. Run: pip install pyyaml") ∧
  DataNodes.read_data (host := DataNodes.literal_host) "output" "data.YML"
    {[ "output/data.YML" := "a: 1" ]}
  = "Error: pyyaml is not installed. Run: pip install pyyaml".
Proof.
  split.
  - apply (yaml_needs_library (host := DataNodes.literal_host)
             "a: 1" "output" "data" "output" "data.YML" ∅); reflexivity.
  - apply (yaml_needs_library (host := DataNodes.literal_host)
             "a: 1" "output" "data" "output" "data.YML"
             {[ "output/data.YML" := "a: 1" ]});
      [reflexivity|discriminate|right; reflexivity].
Defined.

(** *** The extension of a file name *)

Lemma lower_char_facts (c : ascii) :
  Ascii.eqb (Py.lower_char c) "." = Ascii.eqb c "." ∧
  Ascii.eqb (Py.lower_char c) "/" = Ascii.eqb c "/" ∧
  Py.lower_char (Py.lower_char c) = Py.lower_char c.
Proof. destruct c as [[] [] [] [] [] [] [] []]; repeat split; reflexivity. Qed.

Lemma lower_lower (s : string) : Py.lower (Py.lower s) = Py.lower s.
Proof.
  induction s as [|c s IH]; simpl; [reflexivity|].
  rewrite IH. f_equal. apply lower_char_facts.
Qed.

Lemma rfind_from_lower (d : ascii) (s : string) :
  (∀ c, Ascii.eqb (Py.lower_char c) d = Ascii.eqb c d) →
  ∀ i, Py.rfind_from d i (Py.lower s) = Py.rfind_from d i s.
Proof.
  intros Hd. induction s as [|c s IH]; intros i; simpl; [reflexivity|].
  rewrite IH, Hd. reflexivity.
Qed.

Lemma take_lower (n : nat) (s : string) :
  Py.take n (Py.lower s) = Py.lower (Py.take n s).
Proof.
  revert s. induction n as [|n IH]; intros [|c s]; simpl; try reflexivity.
  rewrite IH. reflexivity.
Qed.

Lemma drop_lower (n : nat) (s : string) :
  Py.drop n (Py.lower s) = Py.lower (Py.drop n s).
Proof.
  revert s. induction n as [|n IH]; intros [|c s]; simpl; try reflexivity.
  apply IH.
Qed.

Lemma has_other_than_dot_lower (s : string) :
  Py.has_other_than "." (Py.lower s) = Py.has_other_than "." s.
Proof.
  induction s as [|c s IH]; simpl; [reflexivity|].
  destruct (lower_char_facts c) as (-> & _ & _). rewrite IH. reflexivity.
Qed.

Lemma lstrip_dot_lower (s : string) :
  Py.lstrip_char "." (Py.lower s) = Py.lower (Py.lstrip_char "." s).
Proof.
  induction s as [|c s IH]; simpl; [reflexivity|].
  destruct (lower_char_facts c) as (-> & _ & _).
  destruct (Ascii.eqb c "."); [exact IH|reflexivity].
Qed.

Lemma splitext_lower (p : string) :
  Py.splitext (Py.lower p)
  = (Py.lower (Py.splitext p).1, Py.lower (Py.splitext p).2).
Proof.
  unfold Py.splitext, Py.rfind, Py.slice.
  rewrite !rfind_from_lower by (intros c; apply lower_char_facts).
  rewrite drop_lower, take_lower, has_other_than_dot_lower.
  destruct (_ && _); simpl; [|reflexivity].
  rewrite take_lower, drop_lower. reflexivity.
Qed.

(** X24.  The extension on which [read_data] chooses the format is in lower
    case and does not depend on the case of the file name: [DATA.JSON] is
    read as [data.json] is. *)
Theorem extension_ignores_case (name name' : string) :
  Py.lower (DataNodes.extension name) = DataNodes.extension name ∧
  DataNodes.extension (Py.lower name) = DataNodes.extension name ∧
  (Py.lower name = Py.lower name' →
   DataNodes.extension name = DataNodes.extension name').
Proof.
  assert (Hl : ∀ n, DataNodes.extension (Py.lower n) = DataNodes.extension n).
  { intros n. unfold DataNodes.extension. rewrite splitext_lower. simpl.
    rewrite lower_lower. reflexivity. }
  split; [|split].
  - unfold DataNodes.extension. rewrite <- lstrip_dot_lower, lower_lower.
    reflexivity.
  - apply Hl.
  - intros H. rewrite <- (Hl name), <- (Hl name'), H. reflexivity.
Qed.

Lemma extension_ignores_case_witness :
  DataNodes.extension "Shots.JSON" = DataNodes.extension "shots.json".
Proof. apply (extension_ignores_case "Shots.JSON" "shots.json"). reflexivity. Defined.

(** *** The log file *)






Section log_nodes.
Context `{host : LogNodes.Host}.




(** A failure of [write_log] is reported in the log content: when the
    directory cannot be made or the file cannot be opened, no file changes
    and the content returned is the error mark followed by the exception
    text; when the write stops, so is the content returned, and the file
    holds what was written of the entry. *)
Lemma write_log_failure (timestamp log_entry e : string)
    (save_log_path log_file_name : option string) (enable_timestamp : bool)
    (fs : gmap string string) :
  let path := LogNodes._get_log_file_path save_log_path log_file_name
                LogNodes.get_output_directory in
  let entry := LogNodes.formatted_entry timestamp log_entry enable_timestamp in
  let out := LogNodes.write_log timestamp log_entry save_log_path log_file_name
               enable_timestamp fs in
  (LogNodes.makedirs (LogNodes.path_dirname path) fs = Raises e ∨
   (LogNodes.makedirs (LogNodes.path_dirname path) fs = Returns () ∧
    LogNodes.file_append path entry fs = DataNodes.OpenFailed e) →
   out = (fs, "❌ Error writing log: " +:+ e)) ∧
  (∀ partial,
     LogNodes.makedirs (LogNodes.path_dirname path) fs = Returns () →
     LogNodes.file_append path entry fs = DataNodes.WriteFailed e partial →
     out = (<[path := default "" (fs !! path) +:+ partial]> fs,
            "❌ Error writing log: " +:+ e)).
Proof.
  intros path entry out. subst out.
  unfold LogNodes.write_log, LogNodes.write_log_try. fold path. fold entry.
  split.
  - intros [-> | [-> Ha]]; [reflexivity|].
    unfold LogNodes.append_file. rewrite Ha. reflexivity.
  - intros partial -> Ha. unfold LogNodes.append_file. rewrite Ha. reflexivity.
Qed.


End log_nodes.

Lemma log_file_path_examples :
  LogNodes._get_log_file_path (host := LogNodes.posix_host) None None "output"
  = "output/logfile.txt" ∧
  LogNodes._get_log_file_path (host := LogNodes.posix_host)
    (Some "  ") (Some "Run.TXT") "output" = "output/Run.TXT" ∧
  LogNodes._get_log_file_path (host := LogNodes.posix_host)
    (Some "logs/a") (Some "run.log") "output" = "logs/a/run.log.txt".
Proof. repeat split. Qed.



Lemma write_log_failure_witness :
  LogNodes.write_log (host := LogNodes.posix_host)
    "2025-01-02 03:04:05" "entry" (Some "logs") (Some (String "000" "day")) false
    {[ "logs/old.txt" := "kept" ]}
  = ({[ "logs/old.txt" := "kept" ]}, "❌ Error writing log: embedded null byte").
Proof.
  destruct (write_log_failure (host := LogNodes.posix_host)
              "2025-01-02 03:04:05" "entry" "embedded null byte"
              (Some "logs") (Some (String "000" "day")) false
              {[ "logs/old.txt" := "kept" ]}) as [H _].
  apply H. right. split; reflexivity.
Defined.


(** *** The dice *)

Lemma dice_name_not_custom (n : Z) :
  String.eqb ("D" +:+ Py.str n) "DCustom" = false.
Proof.
  destruct (str_head n) as (c & r & -> & Hc).
  destruct c as [[] [] [] [] [] [] [] []]; first [discriminate Hc | reflexivity].
Qed.

Lemma roll_named_dice (randint : Z → Z → Z) (n custom_faces : Z) :
  1 ≤ n →
  RandomNodes.roll_dice randint ("D" +:+ Py.str n) custom_faces
  = Returns (randint 1 n, Py.str (randint 1 n)).
Proof.
  intros Hn. unfold RandomNodes.roll_dice.
  rewrite dice_name_not_custom.
  change (Py.drop 1 ("D" +:+ Py.str n)) with (Py.str n).
  rewrite int_str. simpl. destruct (Z.ltb_spec n 1); [lia|reflexivity].
Qed.

(** X28.  With a [random.randint] that draws within its bounds, every die
    of the menu gives a number between 1 and its number of faces, and so
    does any die named [D] and a positive number; [DCustom] gives a number
    between 1 and [custom_faces], and raises when [custom_faces] is below 1.
    The string output is the decimal rendering of the number. *)
Theorem roll_dice_range (randint : Z → Z → Z) (dice : string) (custom_faces : Z) :
  (∀ a b, a ≤ b → a ≤ randint a b ≤ b) →
  (dice ∈ RandomNodes.standard_dice →
   ∃ n, dice = "D" +:+ Py.str n ∧ 1 ≤ n) ∧
  (∀ n, 1 ≤ n → dice = "D" +:+ Py.str n →
        ∃ r, RandomNodes.roll_dice randint dice custom_faces
             = Returns (r, Py.str r) ∧ 1 ≤ r ≤ n) ∧
  (dice = "DCustom" → 1 ≤ custom_faces →
   ∃ r, RandomNodes.roll_dice randint dice custom_faces = Returns (r, Py.str r) ∧
        1 ≤ r ≤ custom_faces) ∧
  (dice = "DCustom" → custom_faces < 1 →
   ∃ e, RandomNodes.roll_dice randint dice custom_faces = Raises e).
Proof.
  intros Hrand. split; [|split; [|split]].
  - intros Hin. apply list_elem_of_In in Hin. simpl in Hin.
    destruct Hin as [<-|[<-|[<-|[<-|[<-|[<-|[<-|[]]]]]]]].
    + exists 4. split; [reflexivity|lia].
    + exists 6. split; [reflexivity|lia].
    + exists 8. split; [reflexivity|lia].
    + exists 10. split; [reflexivity|lia].
    + exists 12. split; [reflexivity|lia].
    + exists 20. split; [reflexivity|lia].
    + exists 100. split; [reflexivity|lia].
  - intros n Hn ->. rewrite (roll_named_dice _ _ _ Hn).
    eexists. split; [reflexivity|]. apply Hrand. exact Hn.
  - intros -> Hc. unfold RandomNodes.roll_dice. simpl.
    destruct (Z.ltb_spec custom_faces 1); [lia|].
    eexists. split; [reflexivity|]. apply Hrand. exact Hc.
  - intros -> Hc. unfold RandomNodes.roll_dice. simpl.
    destruct (Z.ltb_spec custom_faces 1); [|lia]. eauto.
Qed.

Lemma roll_dice_range_witness :
  ∃ r, RandomNodes.roll_dice (λ a b, (a + b) / 2) "D20" 6 = Returns (r, Py.str r) ∧
       1 ≤ r ≤ 20.
Proof.
  destruct (roll_dice_range (λ a b, (a + b) / 2) "D20" 6) as (_ & Hnamed & _).
  - intros a b Hab. split.
    + apply Z.div_le_lower_bound; lia.
    + apply Z.div_le_upper_bound; lia.
  - apply (Hnamed 20); [lia|reflexivity].
Defined.
